(** * Daily cleaning summary: the reconciliation engine of [main.py]

    A shallow embedding of the report job: the three paginated fetch loops,
    the check-in cleaning verdict, the yesterday summary and the assembly of
    the message, followed by the properties proved about them.

    Conventions of the embedding.
    - A JSON record is a Rocq record.  An optional string field is an
      [option]: [None] stands for an absent key or a JSON null, which
      [dict.get] both turn into Python's [None].  A field that is present
      holds a value of the type the API gives it (a string, an integer, a
      list of records); [results] and [assignments] are lists, empty when
      absent.
    - Python strings are [string]s; comparison is the lexicographic order
      on character codes ([String.compare]), as Python's [<] on [str].
    - The HTTP record source is a parameter: a family of endpoint functions
      over an abstract [world] that each request may change.  A response
      whose status code is not 200 is [None].  The source always answers:
      a transport error, which [requests] reports by raising, is outside
      the model of the job, as is the Telegram call.  The access token
      and its cache file have a model of their own, with the exceptions
      the code lets through.
    - [datetime.now()] is a parameter: the three dates the job formats.
    - The [while] loops take a [fuel] bound; running out of fuel is [None]
      and stands for a run that has not returned yet.
    - Every request is logged in the state of the run, so that the number
      and the order of the requests can be stated. *)

From Stdlib Require Import List String Ascii ZArith Bool Arith Lia.
From Stdlib Require Import Permutation OrderedTypeEx ListSet DecimalString.
Import ListNotations.
Local Open Scope string_scope.
Local Open Scope list_scope.

Set Implicit Arguments.

(** ** Python values *)

Module Py.

(** The newline character of the ["\n"] literals. *)
Definition nl : string := String (ascii_of_nat 10) EmptyString.

(** An f-string: the concatenation of its pieces. *)
Definition fstr (parts : list string) : string := String.concat "" parts.

(** [sep.join(lines)]. *)
Definition join (sep : string) (lines : list string) : string :=
  String.concat sep lines.

(** Truth value of [d.get(key)] for a string field: [None] and [""] are
    false. *)
Definition truthy (v : option string) : bool :=
  match v with
  | Some (String _ _) => true
  | _ => false
  end.

(** [v or default] for a string field. *)
Definition or_str (v : option string) (default : string) : string :=
  match v with
  | Some (String c s) => String c s
  | _ => default
  end.

(** [d.get(key) == literal]. *)
Definition eq_lit (v : option string) (literal : string) : bool :=
  match v with
  | Some s => String.eqb s literal
  | None => false
  end.

(** [s[:n]]. *)
Definition take (n : nat) (s : string) : string := substring 0 n s.

(** Truth value of a list: [if xs:]. *)
Definition nonempty {A} (xs : list A) : bool :=
  match xs with
  | [] => false
  | _ :: _ => true
  end.

(** [str(n)] for an integer, as an f-string renders it. *)
Definition str_int (n : Z) : string := NilZero.string_of_int (Z.to_int n).

Definition str_nat (n : nat) : string :=
  NilZero.string_of_uint (Nat.to_uint n).

(** [a > b] on strings. *)
Definition gtb (a b : string) : bool := String.ltb b a.

(** [max(strings)] on a non-empty sequence: the first maximal element. *)
Definition max_str (first : string) (rest : list string) : string :=
  fold_left (fun m s => if gtb s m then s else m) rest first.

Section Sort.
Variables (A : Type) (key : A -> string).

(** [xs.sort(key=key, reverse=True)].  Python's sort is stable, also with
    [reverse=True]: records with equal keys keep their original order.  A
    stable sort has one possible result, computed here by insertion: a
    record goes in front of the first one whose key is not greater. *)
Fixpoint insert_desc (x : A) (sorted : list A) : list A :=
  match sorted with
  | [] => [x]
  | y :: rest =>
      if gtb (key y) (key x) then y :: insert_desc x rest
      else x :: y :: rest
  end.

Fixpoint sort_desc (xs : list A) : list A :=
  match xs with
  | [] => []
  | x :: rest => insert_desc x (sort_desc rest)
  end.
End Sort.

End Py.

(** ** Insertion-ordered dictionaries

    [property_map] and [cleaning_map] are Python dicts that the job iterates
    with [.items()]: the order of first insertion matters, and assigning an
    existing key replaces its value in place. *)

Module Dict.
Section Dict.
Variables (K V : Type) (eqb : K -> K -> bool).

Definition t := list (K * V).

Fixpoint get (k : K) (d : t) : option V :=
  match d with
  | [] => None
  | (k', v) :: d' => if eqb k k' then Some v else get k d'
  end.

(** [d[k] = v]. *)
Fixpoint set (k : K) (v : V) (d : t) : t :=
  match d with
  | [] => [(k, v)]
  | (k', v') :: d' =>
      if eqb k k' then (k', v) :: d' else (k', v') :: set k v d'
  end.

End Dict.
End Dict.

(** ** Records of the API *)

(** An identifier as JSON gives it: an integer, or absent. *)
Definition ident := option Z.

Definition ident_eqb (a b : ident) : bool :=
  match a, b with
  | Some x, Some y => Z.eqb x y
  | None, None => true
  | _, _ => false
  end.

(** [if not task_id]: absent and [0] are false. *)
Definition ident_truthy (a : ident) : bool :=
  match a with
  | Some x => negb (Z.eqb x 0)
  | None => false
  end.

(** An identifier inside an f-string. *)
Definition str_ident (a : ident) : string :=
  match a with
  | Some x => Py.str_int x
  | None => "None"
  end.

Record property := {
  p_id : ident;
  p_name : option string;
  p_status : option string
}.

(** A reservation as the job reads it; the reservations it compares by
    [checkout_date] are those the source returned for a check-out date, so
    the field holds a string. *)
Record reservation := {
  r_property_id : ident;
  r_checkout_date : string
}.

Record assignment := {
  a_name : option string;
  a_type_task_user_status : option string
}.

Record task := {
  t_id : ident;
  t_type_department : option string;
  t_type : option string;
  t_name : option string;
  t_finished_at : option string;
  t_assignments : list assignment
}.

(** The payload of one page of the task listing with its pagination
    metadata: [total_pages] and [page] are integers, or absent. *)
Record task_page := {
  tp_results : list task;
  tp_total_pages : option Z;
  tp_page : option Z
}.

(** The value stored under a property id: [{"name": ...}]. *)
Record prop_info := { name : string }.

(** ** Requests and the record source *)

(** The GET requests the job issues, by the URL they are built from.
    - [PropertyPage limit page]: [property?limit=..&page=..]
    - [ReservationPage checkin date limit page]: [reservation?limit=..&page=..]
      with [checkin_date_ge/le=date] or [checkout_date_ge/le=date]
    - [TaskPage home date limit page]:
      [task?home_id=..&scheduled_date=date,date&limit=..&page=..]
    - [TaskWindowPage home from to page]:
      [task?home_id=..&type_department=housekeeping&scheduled_date=from,to&limit=100&page=..]
    - [TaskDetail id]: [task/{id}] *)
Inductive request :=
| PropertyPage (limit : nat) (page : Z)
| ReservationPage (checkin : bool) (date : string) (limit : nat) (page : Z)
| TaskPage (home_id : ident) (date : string) (limit : nat) (page : Z)
| TaskWindowPage (home_id : ident) (date_from date_to : string) (page : Z)
| TaskDetail (task_id : ident).

Definition BASE_URL : string := "https://api.breezeway.io".
Definition BASE_PROPERTY_URL : string :=
  Py.fstr [BASE_URL; "/public/inventory/v1/property"].
Definition BASE_RESERVATION_URL : string :=
  Py.fstr [BASE_URL; "/public/inventory/v1/reservation"].
Definition BASE_TASK_URL : string :=
  Py.fstr [BASE_URL; "/public/inventory/v1/task"].

(** The URL of a request, as the f-strings of the job build it. *)
Definition request_url (rq : request) : string :=
  match rq with
  | PropertyPage limit page =>
      Py.fstr [BASE_PROPERTY_URL; "?limit="; Py.str_nat limit;
               "&page="; Py.str_int page]
  | ReservationPage checkin date limit page =>
      let url :=
        Py.fstr [BASE_RESERVATION_URL; "?limit="; Py.str_nat limit;
                 "&page="; Py.str_int page] in
      if checkin then
        (url ++ Py.fstr ["&checkin_date_ge="; date;
                         "&checkin_date_le="; date])%string
      else
        (url ++ Py.fstr ["&checkout_date_ge="; date;
                         "&checkout_date_le="; date])%string
  | TaskPage home_id date limit page =>
      Py.fstr [BASE_TASK_URL; "?home_id="; str_ident home_id;
               "&scheduled_date="; date; ","; date;
               "&limit="; Py.str_nat limit; "&page="; Py.str_int page]
  | TaskWindowPage prop_id last_checkout_date today page =>
      Py.fstr [BASE_TASK_URL; "?home_id="; str_ident prop_id;
               "&type_department=housekeeping&scheduled_date=";
               last_checkout_date; ","; today;
               "&limit=100&page="; Py.str_int page]
  | TaskDetail task_id => Py.fstr [BASE_TASK_URL; "/"; str_ident task_id]
  end.

(** What the record source answers: [None] is a status code other than 200. *)
Record source (world : Type) := {
  property_page :
    nat -> Z -> world -> option (list property) * world;
  reservation_page :
    bool -> string -> nat -> Z -> world -> option (list reservation) * world;
  task_page_of :
    ident -> string -> nat -> Z -> world -> option (list task) * world;
  task_window_page :
    ident -> string -> string -> Z -> world -> option task_page * world;
  task_detail :
    ident -> world -> option task * world
}.

(** ** Computations of the job *)

Section Run.
Variable world : Type.

(** The state of a run: the world behind the API and the requests issued
    so far, oldest first. *)
Record state := { st_world : world; st_log : list request }.

(** A computation of the job: [None] when the fuel ran out. *)
Definition M (A : Type) : Type := state -> option (A * state).

Definition ret A (a : A) : M A := fun st => Some (a, st).

Definition bind A B (m : M A) (k : A -> M B) : M B :=
  fun st =>
    match m st with
    | Some (a, st') => k a st'
    | None => None
    end.

Definition out_of_fuel A : M A := fun _ => None.

(** [requests.get(url)]: ask the source, log the request. *)
Definition http_get R (rq : request)
    (endpoint : world -> option R * world) : M (option R) :=
  fun st =>
    let (answer, w) := endpoint (st_world st) in
    Some (answer, {| st_world := w; st_log := st_log st ++ [rq] |}).
End Run.

Arguments ret {world A} a.
Arguments bind {world A B} m k.
Arguments out_of_fuel {world A}.
Arguments http_get {world R} rq endpoint.

Notation "x <- m ;; k" := (bind m (fun x => k))
  (at level 61, m at next level, right associativity).

(** ** The job *)

Section Job.
Variable world : Type.
Variable src : source world.
(** [datetime.now()] formatted with ["%Y-%m-%d"], the day before, and
    ninety days before. *)
Variables today yesterday ninety_days_ago : string.

Local Abbreviation M := (M world).

(** [limit = 100] in each of the three fetchers. *)
Definition limit : nat := 100.

(** The shape the three [while True] loops share: request [page]; stop
    with what was gathered on a status other than 200; otherwise take the
    results in, and stop when the page is short, else go to the next
    page. *)
Fixpoint page_loop R A (get : Z -> M (option (list R)))
    (absorb : A -> list R -> A) (fuel : nat) (page : Z) (acc : A) : M A :=
  match fuel with
  | O => out_of_fuel
  | S fuel' =>
      response <- get page ;;
      match response with
      | None => ret acc
      | Some results =>
          let acc' := absorb acc results in
          if (List.length results <? limit)%nat then ret acc'
          else page_loop get absorb fuel' (page + 1)%Z acc'
      end
  end.

Definition property_map_t := Dict.t ident prop_info.

(** The body of [for prop in results] in [fetch_property_map]. *)
Definition add_active (property_map : property_map_t) (prop : property)
    : property_map_t :=
  if Py.eq_lit (p_status prop) "active" then
    Dict.set ident_eqb (p_id prop)
      {| name := Py.or_str (p_name prop) "Unnamed Property" |} property_map
  else property_map.

(** [requests.get] of one page of each resource. *)
Definition get_property_page (page : Z) : M (option (list property)) :=
  http_get (PropertyPage limit page) (property_page src limit page).

Definition get_reservation_page (date : string) (checkin : bool) (page : Z)
    : M (option (list reservation)) :=
  http_get (ReservationPage checkin date limit page)
    (reservation_page src checkin date limit page).

Definition get_task_page (home_id : ident) (date : string) (page : Z)
    : M (option (list task)) :=
  http_get (TaskPage home_id date limit page)
    (task_page_of src home_id date limit page).

Definition fetch_property_map (fuel : nat) : M property_map_t :=
  page_loop get_property_page
    (fun property_map results => fold_left add_active results property_map)
    fuel 1%Z [].

Definition fetch_reservations (date : string) (checkin : bool) (fuel : nat)
    : M (list reservation) :=
  page_loop (get_reservation_page date checkin)
    (fun reservations results => reservations ++ results) fuel 1%Z [].

Definition is_housekeeping (t : task) : bool :=
  Py.eq_lit (t_type_department t) "housekeeping".

Definition fetch_tasks (home_id : ident) (date : string) (fuel : nat)
    : M (list task) :=
  page_loop (get_task_page home_id date)
    (fun all_tasks results => all_tasks ++ filter is_housekeeping results)
    fuel 1%Z [].

(** *** The check-in cleaning status *)

(** [data.get(key, 1)] for a page number. *)
Definition default_page (v : option Z) : Z :=
  match v with
  | Some n => n
  | None => 1%Z
  end.

(** Step 1 of [get_checkin_cleaning_status]: the [while url] loop.  The
    URL is never empty, so the loop ends only at a [break]. *)
Fixpoint fetch_window (prop_id : ident) (last_checkout_date : string)
    (fuel : nat) (page : Z) (all_tasks : list task) : M (list task) :=
  match fuel with
  | O => out_of_fuel
  | S fuel' =>
      response <- http_get
        (TaskWindowPage prop_id last_checkout_date today page)
        (task_window_page src prop_id last_checkout_date today page) ;;
      match response with
      | None => ret all_tasks
      | Some data =>
          let all_tasks' := all_tasks ++ tp_results data in
          let total_pages := default_page (tp_total_pages data) in
          let current_page := default_page (tp_page data) in
          if (current_page >=? total_pages)%Z then ret all_tasks'
          else fetch_window prop_id last_checkout_date fuel'
                 (current_page + 1)%Z all_tasks'
      end
  end.

(** Step 2: one detail request per task that has an id; a failed request
    drops that task only. *)
Fixpoint fetch_details (all_tasks : list task) (detailed_tasks : list task)
    : M (list task) :=
  match all_tasks with
  | [] => ret detailed_tasks
  | t :: rest =>
      let task_id := t_id t in
      if negb (ident_truthy task_id) then fetch_details rest detailed_tasks
      else
        resp <- http_get (TaskDetail task_id) (task_detail src task_id) ;;
        match resp with
        | None => fetch_details rest detailed_tasks
        | Some detail => fetch_details rest (detailed_tasks ++ [detail])
        end
  end.

(** [task.get("type") or task.get("name") or "Unnamed Task"]. *)
Definition task_label (t : task) : string :=
  Py.or_str (t_type t) (Py.or_str (t_name t) "Unnamed Task").

Definition is_completed (t : task) : bool := Py.truthy (t_finished_at t).

(** The sort key [t.get("finished_at")]; it is only applied to completed
    tasks, whose [finished_at] is a non-empty string. *)
Definition finished_key (t : task) : string :=
  match t_finished_at t with
  | Some s => s
  | None => ""
  end.

(** The verdict line built from [last_task]. *)
Definition ready_line (last_task : task) : string :=
  let task_name := task_label last_task in
  let cleaner_name :=
    match t_assignments last_task with
    | a :: _ => Py.or_str (a_name a) "Unknown cleaner"
    | [] => "Unknown cleaner"
    end in
  let finished_date :=
    match t_finished_at last_task with
    | Some (String c s) => Py.take 10 (String c s)
    | _ => "Unknown date"
    end in
  Py.fstr ["Ready - "; task_name; " - Cleaned by "; cleaner_name;
           " - "; finished_date].

(** Step 3, from [if not detailed_tasks] to the end of the function. *)
Definition verdict_of_details (detailed_tasks : list task) : string :=
  if negb (Py.nonempty detailed_tasks) then "Dirty"
  else
    let completed_tasks := filter is_completed detailed_tasks in
    if negb (Py.nonempty completed_tasks) then "Dirty"
    else
      match Py.sort_desc finished_key completed_tasks with
      | last_task :: _ => ready_line last_task
      | [] => "Dirty" (* not reached: the sorted list is not empty *)
      end.

Definition get_checkin_cleaning_status (prop_id : ident)
    (last_checkout_date : string) (fuel : nat) : M string :=
  all_tasks <- fetch_window prop_id last_checkout_date fuel 1%Z [] ;;
  if negb (Py.nonempty all_tasks) then ret "Dirty"
  else
    detailed_tasks <- fetch_details all_tasks [] ;;
    ret (verdict_of_details detailed_tasks).

(** *** The check-ins section *)

(** A Python [set] of property names. *)
Definition name_set := set string.
Definition name_in (n : string) (s : name_set) : bool :=
  set_mem string_dec n s.
Definition name_add (n : string) (s : name_set) : name_set :=
  set_add string_dec n s.

(** [max(c.get("checkout_date") for c in all_checkouts)], or the date
    ninety days ago when the property has no check-out today. *)
Definition last_checkout_of (all_checkouts : list reservation) : string :=
  match map r_checkout_date all_checkouts with
  | [] => ninety_days_ago
  | d :: ds => Py.max_str d ds
  end.

(** [for res in checkins]. *)
Fixpoint checkin_loop (property_map : property_map_t) (fuel : nat)
    (checkins : list reservation) (printed : name_set)
    (output : list string) : M (list string) :=
  match checkins with
  | [] => ret output
  | res :: rest =>
      let prop_id := r_property_id res in
      match Dict.get ident_eqb prop_id property_map with
      | None => checkin_loop property_map fuel rest printed output
      | Some info =>
          let prop_name := name info in
          if name_in prop_name printed then
            checkin_loop property_map fuel rest printed output
          else
            checkouts <- fetch_reservations today false fuel ;;
            let all_checkouts :=
              filter (fun c => ident_eqb (r_property_id c) prop_id)
                checkouts in
            let last_checkout_date := last_checkout_of all_checkouts in
            prop_status <-
              get_checkin_cleaning_status prop_id last_checkout_date fuel ;;
            checkin_loop property_map fuel rest
              (name_add prop_name printed)
              (output ++ [Py.fstr ["- "; prop_name; " - "; prop_status]])
      end
  end.

(** *** The check-outs and pending-cleanings sections *)

Definition cleaning_map_t := Dict.t string (list string).

(** [cleaning_map[prop_name].append(line)]; the key is always present
    when the job gets here. *)
Definition cleaning_append (prop_name line : string)
    (cleaning_map : cleaning_map_t) : cleaning_map_t :=
  match Dict.get String.eqb prop_name cleaning_map with
  | Some lines =>
      Dict.set String.eqb prop_name (lines ++ [line]) cleaning_map
  | None => cleaning_map
  end.

Definition assignment_line (prop_name task_name : string) (a : assignment)
    : string :=
  let cleaner_name := Py.or_str (a_name a) "Not assigned" in
  let assignment_status :=
    Py.or_str (a_type_task_user_status a) "Unknown" in
  Py.fstr [prop_name; " - "; task_name; " - "; cleaner_name; " - ";
           assignment_status].

(** The body of [for task in tasks] when the cleaning map is built. *)
Definition add_task_lines (prop_name : string)
    (cleaning_map : cleaning_map_t) (t : task) : cleaning_map_t :=
  let task_name := task_label t in
  match t_assignments t with
  | [] =>
      cleaning_append prop_name
        (Py.fstr [prop_name; " - "; task_name; " - Not assigned"])
        cleaning_map
  | assignments =>
      fold_left
        (fun cm a =>
           cleaning_append prop_name
             (assignment_line prop_name task_name a) cm)
        assignments cleaning_map
  end.

(** [if tasks:] the entry of the property is reset to the empty list and
    then filled from its tasks. *)
Definition record_tasks (prop_name : string) (tasks : list task)
    (cleaning_map : cleaning_map_t) : cleaning_map_t :=
  if Py.nonempty tasks then
    fold_left (add_task_lines prop_name) tasks
      (Dict.set String.eqb prop_name [] cleaning_map)
  else cleaning_map.

(** [for prop_id, prop_info in property_map.items()]. *)
Fixpoint build_cleaning_map (fuel : nat)
    (items : list (ident * prop_info)) (cleaning_map : cleaning_map_t)
    : M cleaning_map_t :=
  match items with
  | [] => ret cleaning_map
  | (prop_id, info) :: rest =>
      let prop_name := name info in
      tasks <- fetch_tasks prop_id today fuel ;;
      build_cleaning_map fuel rest
        (record_tasks prop_name tasks cleaning_map)
  end.

(** [for res in checkouts]: the lines of the check-outs section and the
    set of names that had a check-out. *)
Fixpoint checkout_loop (property_map : property_map_t)
    (cleaning_map : cleaning_map_t) (checkouts : list reservation)
    (checkout_props : name_set) (output : list string)
    : list string * name_set :=
  match checkouts with
  | [] => (output, checkout_props)
  | res :: rest =>
      match Dict.get ident_eqb (r_property_id res) property_map with
      | None =>
          checkout_loop property_map cleaning_map rest checkout_props output
      | Some info =>
          let prop_name := name info in
          let checkout_props' := name_add prop_name checkout_props in
          match Dict.get String.eqb prop_name cleaning_map with
          | Some cleanings =>
              checkout_loop property_map cleaning_map rest checkout_props'
                (fold_left (fun out c => out ++ [Py.fstr ["- "; c]])
                   cleanings output)
          | None =>
              checkout_loop property_map cleaning_map rest checkout_props'
                (output ++ [Py.fstr ["- "; prop_name]])
          end
      end
  end.

(** [for prop_name, cleanings in cleaning_map.items()]: the output and the
    [has_pending] flag. *)
Fixpoint pending_loop (items : list (string * list string))
    (checkout_props : name_set) (output : list string) (has_pending : bool)
    : list string * bool :=
  match items with
  | [] => (output, has_pending)
  | (prop_name, cleanings) :: rest =>
      if negb (name_in prop_name checkout_props) then
        let '(output', has_pending') :=
          fold_left (fun '(out, _) c => (out ++ [c], true))
            cleanings (output, has_pending) in
        pending_loop rest checkout_props output' has_pending'
      else pending_loop rest checkout_props output has_pending
  end.

(** From [output.append("\nPending cleanings:")] to the placeholder. *)
Definition pending_section (cleaning_map : cleaning_map_t)
    (checkout_props : name_set) (output : list string) : list string :=
  let output := output ++ [Py.fstr [Py.nl; "Pending cleanings:"]] in
  let '(output, has_pending) :=
    pending_loop cleaning_map checkout_props output false in
  if negb has_pending then output ++ ["No pending cleanings today."]
  else output.

(** *** Yesterday's summary *)

Definition completion_status (t : task) (a : assignment) : string :=
  if Py.eq_lit (a_type_task_user_status a) "completed"
     || Py.truthy (t_finished_at t)
  then "Completed" else "Not completed".

(** The body of [for task in tasks] in [fetch_yesterday_cleanings]. *)
Definition yesterday_task (prop_name : string) (output : list string)
    (t : task) : list string :=
  if negb (Py.eq_lit (t_type_department t) "housekeeping") then output
  else
    let task_name := task_label t in
    let assignments := t_assignments t in
    if negb (Py.nonempty assignments) then output
    else
      fold_left
        (fun out a =>
           let cleaner_name := Py.or_str (a_name a) "Unknown" in
           let status := completion_status t a in
           out ++ [Py.fstr ["- "; prop_name; " - "; task_name; " - ";
                            cleaner_name; " - "; status]])
        assignments output.

Fixpoint yesterday_loop (fuel : nat) (items : list (ident * prop_info))
    (output : list string) : M (list string) :=
  match items with
  | [] => ret output
  | (prop_id, info) :: rest =>
      let prop_name := name info in
      tasks <- fetch_tasks prop_id yesterday fuel ;;
      if negb (Py.nonempty tasks) then yesterday_loop fuel rest output
      else
        yesterday_loop fuel rest
          (fold_left (yesterday_task prop_name) tasks output)
  end.

(** The [output] list of [fetch_yesterday_cleanings] before it is
    joined. *)
Definition yesterday_lines (fuel : nat) : M (list string) :=
  property_map <- fetch_property_map fuel ;;
  yesterday_loop fuel property_map
    [Py.fstr [Py.nl; "Yesterday’s Cleaning Summary ("; yesterday; ")"]].

Definition fetch_yesterday_cleanings (fuel : nat) : M string :=
  output <- yesterday_lines fuel ;;
  ret (Py.join Py.nl output).

(** *** The main block *)

(** The check-ins section: header, then one line per first-seen property
    or the placeholder. *)
Definition checkins_section (property_map : property_map_t) (fuel : nat)
    (output : list string) : M (list string) :=
  let output := output ++ ["Check-ins today:"] in
  checkins <- fetch_reservations today true fuel ;;
  if Py.nonempty checkins then
    checkin_loop property_map fuel checkins (empty_set string) output
  else ret (output ++ ["No check-ins today."]).

(** The check-outs section, given the reservations and the cleaning map
    fetched before it is rendered. *)
Definition checkouts_section (property_map : property_map_t)
    (cleaning_map : cleaning_map_t) (checkouts : list reservation)
    (output : list string) : list string * name_set :=
  if Py.nonempty checkouts then
    checkout_loop property_map cleaning_map checkouts (empty_set string)
      output
  else (output ++ ["No check-outs today."], empty_set string).

(** The lines of today's part of the message. *)
Definition today_lines (fuel : nat) : M (list string) :=
  let output := [Py.fstr ["Today’s Cleaning Summary ("; today; ")"; Py.nl]] in
  property_map <- fetch_property_map fuel ;;
  output <- checkins_section property_map fuel output ;;
  let output := output ++ [Py.fstr [Py.nl; "Check-outs today:"]] in
  checkouts <- fetch_reservations today false fuel ;;
  cleaning_map <- build_cleaning_map fuel property_map [] ;;
  let '(output, checkout_props) :=
    checkouts_section property_map cleaning_map checkouts output in
  ret (pending_section cleaning_map checkout_props output).

(** The job after the token was obtained: the text that is printed and
    handed to [send_to_telegram]. *)
Definition main (fuel : nat) : M string :=
  output <- today_lines fuel ;;
  let final_message := Py.join Py.nl output in
  yesterday_message <- fetch_yesterday_cleanings fuel ;;
  let combined_message :=
    Py.fstr [final_message; Py.nl; Py.nl; yesterday_message] in
  ret combined_message.

End Job.

(** ** The access token and its cache

    [save_token], [load_token] and [get_breezeway_token].  A point in time
    is the number of microseconds a naive [datetime] counts; the cache file
    is what [open] and [json.load] make of it, and an [expires_at] string is
    what [datetime.fromisoformat] makes of it ([isoformat] and
    [fromisoformat] are inverse on naive datetimes).  Exceptions the code
    does not catch are results of their own.  An [access_token], in the
    file and in the answer of the server, is a string or null when it is
    present, and [save_token] can write its file. *)

Module Token.

(** A key of a JSON object: absent, null, or holding a value. *)
Inductive field (A : Type) :=
| Absent
| Null
| Val (a : A).
Arguments Absent {A}.
Arguments Null {A}.
Arguments Val {A} a.

(** A string handed to [datetime.fromisoformat]: not a timestamp, a naive
    timestamp, or a timestamp with a UTC offset. *)
Inductive timestamp :=
| NotIso
| Iso (at_time : Z)
| IsoZoned (at_time : Z).

(** The file [breezeway_token.json]: missing; there but not to be opened
    (any [OSError] other than [FileNotFoundError]); bytes that [read]
    cannot decode; text that is not JSON; JSON that is not an object; an
    object.  For [expires_at], [Null] also stands for a value that is not
    a string. *)
Inductive token_file :=
| NoFile
| Unreadable
| NotText
| NotJson
| NotObject
| Object (access_token : field string) (expires_at : field timestamp).

Inductive exn :=
| KeyError
| TypeError
| ValueError
| OSError
| UnicodeDecodeError
| AttributeError.

Inductive outcome (A : Type) :=
| Returned (a : A)
| Raised (e : exn).
Arguments Returned {A} a.
Arguments Raised {A} e.

(** [timedelta(hours=23)]. *)
Definition hours_23 : Z := 23 * 3600 * 1000000.

(** [save_token(token_data)] at time [now]: the file it leaves. *)
Definition save_token (now : Z) (token_data : string) : token_file :=
  let expires_at := (now + hours_23)%Z in
  Object (Val token_data) (Val (Iso expires_at)).

(** [load_token()] at time [now].  Only [FileNotFoundError] and
    [json.JSONDecodeError] are caught.  Everything else raises: another
    error of [open], undecodable bytes, subscripting what is not an object,
    a missing key, an [expires_at] that is not a string or not a timestamp,
    and the comparison of a timestamp that has an offset with the naive
    [datetime.now()]. *)
Definition load_token (now : Z) (file : token_file)
    : outcome (option string) :=
  match file with
  | NoFile => Returned None
  | Unreadable => Raised OSError
  | NotText => Raised UnicodeDecodeError
  | NotJson => Returned None
  | NotObject => Raised TypeError
  | Object access_token expires_at =>
      match expires_at with
      | Absent => Raised KeyError
      | Null => Raised TypeError
      | Val NotIso => Raised ValueError
      | Val (IsoZoned _) => Raised TypeError
      | Val (Iso expires) =>
          if (expires >? now)%Z then
            match access_token with
            | Absent => Raised KeyError
            | Null => Returned None
            | Val token => Returned (Some token)
            end
          else Returned None
      end
  end.

(** The answer to the authentication request: an exception of
    [requests] (no connection, an error status for [raise_for_status], a
    body that [response.json()] cannot parse); a body that is JSON but not
    an object, on which [.get] raises [AttributeError]; or a JSON object
    and its [access_token]. *)
Inductive auth_response :=
| RequestFailed
| AuthNotObject
| AuthJson (access_token : option string).

(** The cache file and the number of authentication requests issued. *)
Record auth_state := { as_file : token_file; as_posts : nat }.

(** [get_breezeway_token()]: [load_token] runs at [now_load], and
    [save_token], when it runs, at [now_save].  Only a
    [RequestException] is caught.  A token that is absent, null or empty
    is not saved, and the function falls off its end. *)
Definition get_breezeway_token (now_load now_save : Z)
    (answer : auth_response) (st : auth_state)
    : outcome (option string) * auth_state :=
  match load_token now_load (as_file st) with
  | Raised e => (Raised e, st)
  | Returned cached =>
      if Py.truthy cached then (Returned cached, st)
      else
        let st := {| as_file := as_file st; as_posts := S (as_posts st) |} in
        match answer with
        | RequestFailed => (Returned None, st)
        | AuthNotObject => (Raised AttributeError, st)
        | AuthJson (Some (String c s)) =>
            let token := String c s in
            (Returned (Some token),
             {| as_file := save_token now_save token;
                as_posts := as_posts st |})
        | AuthJson _ => (Returned None, st)
        end
  end.

End Token.

(** ** Sources with fixed data

    A source that holds fixed collections and serves them a page at a time;
    it is used to run the job on concrete data. *)

(** Page [page] (counted from 1) of [records], [limit] records a page. *)
Definition paged R (records : list R) (limit : nat) (page : Z) : list R :=
  firstn limit (skipn ((Z.to_nat page - 1) * limit) records).

Record dataset := {
  ds_properties : list property;
  ds_checkins : list reservation;
  ds_checkouts : list reservation;
  ds_tasks : ident -> string -> list task;
  ds_window : ident -> list task;
  ds_details : ident -> option task
}.

(** The world of a fixed source has no state.  The task window comes as a
    single page that reports [page = 1] of [total_pages = 1]. *)
Definition static_source (d : dataset) : source unit := {|
  property_page := fun limit page w =>
    (Some (paged (ds_properties d) limit page), w);
  reservation_page := fun checkin date limit page w =>
    (Some (paged (if checkin then ds_checkins d else ds_checkouts d)
             limit page), w);
  task_page_of := fun home date limit page w =>
    (Some (paged (ds_tasks d home date) limit page), w);
  task_window_page := fun home date_from date_to page w =>
    (Some {| tp_results := ds_window d home;
             tp_total_pages := Some 1%Z; tp_page := Some 1%Z |}, w);
  task_detail := fun task_id w => (ds_details d task_id, w)
|}.

Definition start : state unit := {| st_world := tt; st_log := [] |}.

Definition no_data : dataset := {|
  ds_properties := [];
  ds_checkins := [];
  ds_checkouts := [];
  ds_tasks := fun _ _ => [];
  ds_window := fun _ => [];
  ds_details := fun _ => None
|}.

Definition villa : property :=
  {| p_id := Some 7%Z; p_name := Some "Villa"; p_status := Some "active" |}.

Definition anna : assignment :=
  {| a_name := Some "Anna"; a_type_task_user_status := Some "completed" |}.

Definition bob : assignment :=
  {| a_name := Some "Bob"; a_type_task_user_status := None |}.

Definition departure_clean : task :=
  {| t_id := Some 31%Z; t_type_department := Some "housekeeping";
     t_type := Some "Departure clean"; t_name := Some "Clean 31";
     t_finished_at := Some "2024-05-01T10:30:00"; t_assignments := [anna; bob] |}.

Definition linen_change : task :=
  {| t_id := Some 32%Z; t_type_department := Some "housekeeping";
     t_type := None; t_name := Some "Linen change";
     t_finished_at := None; t_assignments := [bob] |}.

Definition boiler_repair : task :=
  {| t_id := Some 33%Z; t_type_department := Some "maintenance";
     t_type := Some "Boiler repair"; t_name := None;
     t_finished_at := Some "2024-05-02T08:00:00"; t_assignments := [] |}.

Definition stay : reservation :=
  {| r_property_id := Some 7%Z; r_checkout_date := "2024-05-03" |}.

(** One active property with a check-in and a check-out today and two
    housekeeping tasks. *)
Definition one_villa : dataset := {|
  ds_properties := [villa];
  ds_checkins := [stay; stay];
  ds_checkouts := [stay];
  ds_tasks := fun _ _ => [departure_clean; boiler_repair; linen_change];
  ds_window := fun _ => [departure_clean; linen_change];
  ds_details := fun i =>
    if ident_eqb i (Some 31%Z) then Some departure_clean
    else if ident_eqb i (Some 32%Z) then Some linen_change
    else None
|}.

Definition the_day : string := "2024-05-03".
Definition the_day_before : string := "2024-05-02".
Definition the_sentinel : string := "2024-02-03".


Definition after_window (home : ident) (date : string) : state unit :=
  {| st_world := tt;
     st_log := [TaskWindowPage home date the_day 1] |}.

Definition after_details : state unit :=
  {| st_world := tt;
     st_log := [TaskWindowPage (Some 7%Z) the_sentinel the_day 1;
                TaskDetail (Some 31%Z); TaskDetail (Some 32%Z)] |}.

(** A completed task whose only assignment has an empty name. *)
Definition nameless_clean : task :=
  {| t_id := Some 41%Z; t_type_department := Some "housekeeping";
     t_type := Some "Departure clean"; t_name := None;
     t_finished_at := Some "2024-05-01T10:30:00";
     t_assignments :=
       [{| a_name := Some ""; a_type_task_user_status := Some "completed" |}]
  |}.

Definition nameless : dataset := {|
  ds_properties := [villa];
  ds_checkins := [stay];
  ds_checkouts := [];
  ds_tasks := fun _ _ => [nameless_clean];
  ds_window := fun _ => [nameless_clean];
  ds_details := fun _ => Some nameless_clean
|}.

(** Two completed records with the same [finished_at] and different
    types. *)
Definition morning_clean : task :=
  {| t_id := Some 51%Z; t_type_department := Some "housekeeping";
     t_type := Some "Morning clean"; t_name := None;
     t_finished_at := Some "2024-05-01T10:30:00"; t_assignments := [anna] |}.

Definition window_wash : task :=
  {| t_id := Some 52%Z; t_type_department := Some "housekeeping";
     t_type := Some "Window wash"; t_name := None;
     t_finished_at := Some "2024-05-01T10:30:00"; t_assignments := [bob] |}.

(** The property exists but is not active; it has a check-in and a
    check-out today. *)
Definition closed_villa : dataset := {|
  ds_properties :=
    [{| p_id := Some 7%Z; p_name := Some "Villa";
        p_status := Some "inactive" |}];
  ds_checkins := [stay; stay];
  ds_checkouts := [stay];
  ds_tasks := fun _ _ => [];
  ds_window := fun _ => [];
  ds_details := fun _ => None
|}.

Definition hundred_properties : dataset := {|
  ds_properties := repeat villa 100;
  ds_checkins := [];
  ds_checkouts := [];
  ds_tasks := fun _ _ => [];
  ds_window := fun _ => [];
  ds_details := fun _ => None
|}.

(** A source that does not honour the department filter of the window
    request and returns a maintenance task. *)
Definition unfiltered_window : dataset := {|
  ds_properties := [villa];
  ds_checkins := [stay];
  ds_checkouts := [];
  ds_tasks := fun _ _ => [boiler_repair];
  ds_window := fun _ => [boiler_repair];
  ds_details := fun _ => Some boiler_repair
|}.

Definition villa_map : property_map_t := [(Some 7%Z, {| name := "Villa" |})].

Definition beach_map : property_map_t :=
  [(Some 7%Z, {| name := "Villa" |}); (Some 9%Z, {| name := "Beach hut" |})].

Definition todays_cleanings : cleaning_map_t :=
  [("Villa", ["Villa - Departure clean - Anna - completed"]);
   ("Beach hut", ["Beach hut - Linen change - Bob - Unknown"])].

(** Two active properties that share the name ["Villa"]. *)
Definition two_villas : dataset := {|
  ds_properties :=
    [villa;
     {| p_id := Some 8%Z; p_name := Some "Villa"; p_status := Some "active" |}];
  ds_checkins := [];
  ds_checkouts := [];
  ds_tasks := fun home _ =>
    if ident_eqb home (Some 7%Z) then [departure_clean] else [linen_change];
  ds_window := fun _ => [];
  ds_details := fun _ => None
|}.

(** ** Notions used in the statements *)

Definition is_housekeeping_record (t : task) : Prop :=
  t_type_department t = Some "housekeeping".

(** The URL of the request carries the department filter. *)
Definition asks_for_housekeeping (rq : request) : Prop :=
  exists before after,
    request_url rq
    = (before ++ "&type_department=housekeeping" ++ after)%string.

(** [date] is the latest check-out date of the property among
    [checkouts], or the date ninety days ago when the property has no
    check-out among them. *)
Definition last_checkout_date_for (ninety_days_ago : string)
    (checkouts : list reservation) (prop_id : ident) (date : string)
    : Prop :=
  ((forall c, In c checkouts -> r_property_id c <> prop_id)
   /\ date = ninety_days_ago)
  \/ ((exists c,
          In c checkouts /\ r_property_id c = prop_id
          /\ r_checkout_date c = date)
      /\ forall c,
           In c checkouts -> r_property_id c = prop_id ->
           String.leb (r_checkout_date c) date = true).

(** A reservation of the list is for a property of the map with this
    name. *)
Definition has_reservation (property_map : property_map_t)
    (reservations : list reservation) (n : string) : Prop :=
  exists res info,
    In res reservations
    /\ Dict.get ident_eqb (r_property_id res) property_map = Some info
    /\ name info = n.

(** The entries of the cleaning map whose name had no check-out. *)
Definition without_checkout (checkout_props : name_set)
    (cleaning_map : cleaning_map_t) : cleaning_map_t :=
  filter (fun item => negb (name_in (fst item) checkout_props)) cleaning_map.

(** [first] is the first reservation of the list that resolves to the
    name [n]. *)
Definition first_seen_for (property_map : property_map_t)
    (checkins : list reservation) (n : string) (first : reservation) : Prop :=
  exists before after info,
    checkins = before ++ first :: after
    /\ Dict.get ident_eqb (r_property_id first) property_map = Some info
    /\ name info = n
    /\ forall r i, In r before ->
         Dict.get ident_eqb (r_property_id r) property_map = Some i ->
         name i <> n.

(** A line of the section, from the name and the status it shows. *)
Definition checkin_line (entry : string * string) : string :=
  Py.fstr ["- "; fst entry; " - "; snd entry].

(** The line of one assignment of a task. *)
Definition summary_line (prop_name : string) (t : task) (a : assignment)
    : string :=
  Py.fstr ["- "; prop_name; " - "; task_label t; " - ";
           Py.or_str (a_name a) "Unknown"; " - "; completion_status t a].

(** The lines one task contributes to the entry of its property. *)
Definition task_lines (prop_name : string) (t : task) : list string :=
  match t_assignments t with
  | [] => [Py.fstr [prop_name; " - "; task_label t; " - Not assigned"]]
  | assignments => map (assignment_line prop_name (task_label t)) assignments
  end.

(** [cm'] is [cm] with [lines] under [n]: same keys in the same order,
    the other names untouched. *)
Definition entry_set (n : string) (lines : list string)
    (cm cm' : cleaning_map_t) : Prop :=
  Dict.get String.eqb n cm' = Some lines
  /\ map fst cm' = map fst cm
  /\ forall m, m <> n -> Dict.get String.eqb m cm' = Dict.get String.eqb m cm.

(** The entry a list of fetched tasks leaves in the map, one property
    after the other. *)
Definition record_all (fetched : list (string * list task))
    (cm : cleaning_map_t) : cleaning_map_t :=
  fold_left (fun cm entry => record_tasks (fst entry) (snd entry) cm)
    fetched cm.

(** [entry] holds the name of [item] and tasks that [fetch_tasks] returned
    for it. *)
Definition fetched_for world (src : source world) (today : string)
    (fuel : nat) (item : ident * prop_info) (entry : string * list task)
    : Prop :=
  fst entry = name (snd item)
  /\ exists s s',
       fetch_tasks src (fst item) today fuel s = Some (snd entry, s').

(** [m] comes first when [xs] is sorted: no key of [xs] is greater. *)
Definition is_max A (key : A -> string) (m : A) (xs : list A) : Prop :=
  In m xs /\ forall y, In y xs -> Py.gtb (key y) (key m) = false.

(** [info] is what the property map stores under [id] for a record with
    [status == "active"] that satisfies [from_source]. *)
Definition stored_for (from_source : property -> Prop) (id : ident)
    (info : prop_info) : Prop :=
  exists prop,
    from_source prop
    /\ p_status prop = Some "active"
    /\ p_id prop = id
    /\ name info = Py.or_str (p_name prop) "Unnamed Property".

(** Page [page] of a task window held as [pages]: its tasks, the number
    of pages and the page number asked for. *)
Definition window_page (pages : list (list task)) (page : Z) : task_page :=
  {| tp_results := nth (Z.to_nat page - 1) pages [];
     tp_total_pages := Some (Z.of_nat (List.length pages));
     tp_page := Some page |}.

(** The lines one check-out reservation adds to the check-outs section. *)
Definition checkout_block (property_map : property_map_t)
    (cleaning_map : cleaning_map_t) (res : reservation) : list string :=
  match Dict.get ident_eqb (r_property_id res) property_map with
  | None => []
  | Some info =>
      match Dict.get String.eqb (name info) cleaning_map with
      | Some cleanings => map (fun c => Py.fstr ["- "; c]) cleanings
      | None => [Py.fstr ["- "; name info]]
      end
  end.

(** ** More fixed data *)

(** A source whose task window is held as pages and reported with
    consistent metadata. *)
Definition window_source (pages : list (list task)) : source unit := {|
  property_page := fun limit page w => (Some [], w);
  reservation_page := fun checkin date limit page w => (Some [], w);
  task_page_of := fun home date limit page w => (Some [], w);
  task_window_page := fun home date_from date_to page w =>
    (Some (window_page pages page), w);
  task_detail := fun task_id w => (None, w)
|}.

(** A source that reports page 1 of 2 whatever page it is asked for, and
    whose other collections never end. *)
Definition endless_source : source unit := {|
  property_page := fun limit page w => (Some (repeat villa 100), w);
  reservation_page := fun checkin date limit page w =>
    (Some (repeat stay 100), w);
  task_page_of := fun home date limit page w =>
    (Some (repeat linen_change 100), w);
  task_window_page := fun home date_from date_to page w =>
    (Some {| tp_results := [linen_change];
             tp_total_pages := Some 2%Z; tp_page := Some 1%Z |}, w);
  task_detail := fun task_id w => (None, w)
|}.

(** The same id twice, under two names, and an inactive record. *)
Definition villa_rosa : property :=
  {| p_id := Some 7%Z; p_name := Some "Villa Rosa";
     p_status := Some "active" |}.

Definition old_mill : property :=
  {| p_id := Some 5%Z; p_name := Some "Old mill";
     p_status := Some "inactive" |}.

Definition renamed_villa : dataset := {|
  ds_properties := [villa; old_mill; villa_rosa];
  ds_checkins := [];
  ds_checkouts := [];
  ds_tasks := fun _ _ => [];
  ds_window := fun _ => [];
  ds_details := fun _ => None
|}.

(** A source whose collections come as one full page of 100 records; it
    refuses every later page. *)
Definition second_page_refused : source unit := {|
  property_page := fun limit page w =>
    (if (page =? 1)%Z then Some (repeat villa 100) else None, w);
  reservation_page := fun checkin date limit page w =>
    (if (page =? 1)%Z then Some (repeat stay 100) else None, w);
  task_page_of := fun home date limit page w =>
    (if (page =? 1)%Z then Some (boiler_repair :: repeat linen_change 99)
     else None, w);
  task_window_page := fun home date_from date_to page w => (None, w);
  task_detail := fun task_id w => (None, w)
|}.

(** Today's check-outs: two of the villa, and a later one of another
    property between them. *)
Definition early_stay : reservation :=
  {| r_property_id := Some 7%Z; r_checkout_date := "2024-05-01" |}.

Definition beach_stay : reservation :=
  {| r_property_id := Some 9%Z; r_checkout_date := "2024-05-09" |}.

Definition mixed_checkouts : dataset := {|
  ds_properties := [villa];
  ds_checkins := [stay];
  ds_checkouts := [early_stay; beach_stay; stay];
  ds_tasks := fun _ _ => [];
  ds_window := fun _ => [departure_clean];
  ds_details := fun _ => Some departure_clean
|}.


Definition no_cache : Token.auth_state :=
  {| Token.as_file := Token.NoFile; Token.as_posts := 0 |}.

(** * Properties *)

(** ** The order on strings and the descending sort *)

Module PyFacts.
Import Py.

Lemma gtb_lt a b : gtb a b = true <-> String_as_OT.lt b a.
Proof.
  unfold gtb, String.ltb. rewrite <- String_as_OT.cmp_lt.
  unfold String_as_OT.cmp. destruct (String.compare b a); split; congruence.
Qed.

Lemma gtb_irrefl a : gtb a a = false.
Proof.
  destruct (gtb a a) eqn:E; [|reflexivity].
  apply gtb_lt in E. exfalso. exact (String_as_OT.lt_not_eq _ _ E eq_refl).
Qed.

Lemma gtb_asym a b : gtb a b = true -> gtb b a = false.
Proof.
  intros H. destruct (gtb b a) eqn:E; [|reflexivity].
  apply gtb_lt in H. apply gtb_lt in E.
  exfalso. exact (String_as_OT.lt_not_eq _ _ (String_as_OT.lt_trans _ _ _ H E) eq_refl).
Qed.

(** Two strings neither of which is greater are the same string. *)
Lemma gtb_antisym a b : gtb a b = false -> gtb b a = false -> a = b.
Proof.
  unfold gtb, String.ltb. intros H1 H2.
  rewrite String.compare_antisym in H2.
  destruct (String.compare b a) eqn:E; simpl in *; try discriminate.
  symmetry. now apply String.compare_eq_iff.
Qed.

Lemma gtb_trans a b c : gtb a b = true -> gtb b c = true -> gtb a c = true.
Proof.
  rewrite !gtb_lt. intros H1 H2. exact (String_as_OT.lt_trans _ _ _ H2 H1).
Qed.

(** "Not greater" is transitive. *)
Lemma not_gtb_trans a b c :
  gtb a b = false -> gtb b c = false -> gtb a c = false.
Proof.
  intros H1 H2. destruct (gtb a c) eqn:E; [|reflexivity].
  destruct (gtb c b) eqn:Ecb.
  - rewrite (gtb_trans _ _ _ E Ecb) in H1. discriminate.
  - assert (b = c) by now apply gtb_antisym. subst. congruence.
Qed.

Lemma not_gtb_leb a b : gtb a b = false -> String.leb a b = true.
Proof.
  unfold gtb, String.ltb, String.leb. rewrite (String.compare_antisym a b).
  destruct (String.compare b a); simpl; congruence.
Qed.

Section SortFacts.
Variables (A : Type) (key : A -> string).

Lemma insert_desc_head x sorted :
  exists rest,
    insert_desc key x sorted =
    match sorted with
    | [] => x
    | y :: _ => if gtb (key y) (key x) then y else x
    end :: rest.
Proof.
  destruct sorted as [|y sorted]; simpl; [now exists []|].
  destruct (gtb (key y) (key x)); eauto.
Qed.

Lemma insert_desc_perm x sorted :
  Permutation (x :: sorted) (insert_desc key x sorted).
Proof.
  induction sorted as [|y sorted IH]; simpl; [reflexivity|].
  destruct (gtb (key y) (key x)); [|reflexivity].
  rewrite perm_swap. now apply perm_skip.
Qed.

Lemma sort_desc_perm xs : Permutation xs (sort_desc key xs).
Proof.
  induction xs as [|x xs IH]; simpl; [reflexivity|].
  rewrite <- insert_desc_perm. now apply perm_skip.
Qed.

(** The head of the sorted list is a maximum of the list. *)
Lemma sort_desc_head x xs :
  exists m rest, sort_desc key (x :: xs) = m :: rest /\ is_max key m (x :: xs).
Proof.
  revert x. induction xs as [|x' xs IH]; intros x.
  - exists x, []. simpl. split; [reflexivity|]. split; [now left|].
    intros y [<-|[]]. apply gtb_irrefl.
  - destruct (IH x') as (m & rest & Hs & Hin & Hmax).
    change (sort_desc key (x :: x' :: xs))
      with (insert_desc key x (sort_desc key (x' :: xs))).
    rewrite Hs. destruct (insert_desc_head x (m :: rest)) as [rest' ->].
    destruct (gtb (key m) (key x)) eqn:E.
    + exists m, rest'. split; [reflexivity|]. split; [now right|].
      intros y [<-|Hy]; [now apply gtb_asym | now apply Hmax].
    + exists x, rest'. split; [reflexivity|]. split; [now left|].
      intros y [<-|Hy]; [apply gtb_irrefl|].
      eapply not_gtb_trans; [apply Hmax, Hy | exact E].
Qed.

(** All maxima of a list have the same key. *)
Lemma is_max_key m m' xs xs' :
  Permutation xs xs' -> is_max key m xs -> is_max key m' xs' -> key m = key m'.
Proof.
  intros P [Hin Hmax] [Hin' Hmax'].
  apply gtb_antisym.
  - apply Hmax'. now apply (Permutation_in _ P).
  - apply Hmax. now apply (Permutation_in _ (Permutation_sym P)).
Qed.
End SortFacts.

End PyFacts.

(** ** The check-in cleaning status *)

Section StatusFacts.
Variable world : Type.
Variable src : source world.
Variable today : string.

Lemma filter_perm A (f : A -> bool) (xs ys : list A) :
  Permutation xs ys -> Permutation (filter f xs) (filter f ys).
Proof.
  induction 1 as [|x xs ys P IH|x y xs|xs ys zs P1 IH1 P2 IH2]; simpl.
  - constructor.
  - destruct (f x); [now apply perm_skip | exact IH].
  - destruct (f x), (f y); try reflexivity. apply perm_swap.
  - now transitivity (filter f ys).
Qed.

Lemma completed_key t :
  is_completed t = true -> t_finished_at t = Some (finished_key t).
Proof.
  unfold is_completed, finished_key.
  destruct (t_finished_at t) as [s|]; simpl; [reflexivity | discriminate].
Qed.

(** Without a completed record the verdict is ["Dirty"]. *)
Lemma verdict_without_completed detailed :
  filter is_completed detailed = [] -> verdict_of_details detailed = "Dirty".
Proof.
  unfold verdict_of_details. intros ->.
  destruct detailed; reflexivity.
Qed.

(** With one, it is the line of a completed record with a greatest
    [finished_at]. *)
Lemma verdict_with_completed detailed :
  filter is_completed detailed <> [] ->
  exists m,
    is_max finished_key m (filter is_completed detailed) /\
    verdict_of_details detailed = ready_line m.
Proof.
  unfold verdict_of_details. intros Hne.
  destruct detailed as [|d detailed]; [now elim Hne|].
  destruct (filter is_completed (d :: detailed)) as [|c cs] eqn:E;
    [now elim Hne|].
  destruct (PyFacts.sort_desc_head finished_key c cs) as (m & rest & -> & Hm).
  now exists m.
Qed.

(** The detail requests never run out of fuel. *)
Lemma fetch_details_total all_tasks :
  forall detailed_tasks st,
    exists detailed st',
      fetch_details src all_tasks detailed_tasks st = Some (detailed, st').
Proof.
  induction all_tasks as [|t rest IH]; intros acc st; simpl.
  - now exists acc, st.
  - destruct (ident_truthy (t_id t)); simpl; [|apply IH].
    unfold bind, http_get.
    destruct (task_detail src (t_id t) (st_world st)) as [[d|] w]; apply IH.
Qed.


(** The early return on an empty window agrees with the general path. *)
Lemma status_run prop_id date fuel st all_tasks st1 detailed st2 :
  fetch_window src today prop_id date fuel 1 [] st = Some (all_tasks, st1) ->
  fetch_details src all_tasks [] st1 = Some (detailed, st2) ->
  get_checkin_cleaning_status src today prop_id date fuel st
  = Some (verdict_of_details detailed, st2).
Proof.
  intros Hw Hd. unfold get_checkin_cleaning_status, bind. rewrite Hw.
  destruct all_tasks as [|t rest]; simpl.
  - simpl in Hd. unfold ret in *. now inversion Hd.
  - simpl in Hd. destruct (ident_truthy (t_id t)); simpl in *.
    + unfold bind in *. destruct (http_get _ _ st1) as [[r s]|];
        [|discriminate]. destruct r; now rewrite Hd.
    + now rewrite Hd.
Qed.

(** The window loop returns when the source reports its pagination
    consistently: each page carries the number it was asked under, and
    the total never exceeds [last_page]. *)
Lemma fetch_window_returns prop_id date (last_page : Z) :
  (forall page w data,
      fst (task_window_page src prop_id date today page w) = Some data ->
      default_page (tp_page data) = page
      /\ (default_page (tp_total_pages data) <= last_page)%Z) ->
  forall fuel page all_tasks st,
    Z.to_nat (last_page - page) < fuel ->
    exists result st',
      fetch_window src today prop_id date fuel page all_tasks st
      = Some (result, st').
Proof.
  intros Hsrc. induction fuel as [|fuel IH]; intros page acc st Hfuel;
    [lia|].
  simpl. unfold bind, http_get.
  specialize (Hsrc page (st_world st)).
  destruct (task_window_page src prop_id date today page (st_world st))
    as [[data|] w]; simpl in Hsrc; [|now eexists; eexists].
  destruct (Hsrc data eq_refl) as [Hpage Htotal]. rewrite Hpage.
  destruct (Z.geb_spec page (default_page (tp_total_pages data)));
    [now eexists; eexists|].
  apply IH. lia.
Qed.

(** With such a source the status is returned for every property and
    date, given fuel for [last_page] requests. *)
Lemma status_returns prop_id date (last_page : Z) st :
  (forall page w data,
      fst (task_window_page src prop_id date today page w) = Some data ->
      default_page (tp_page data) = page
      /\ (default_page (tp_total_pages data) <= last_page)%Z) ->
  exists verdict st',
    get_checkin_cleaning_status src today prop_id date
      (S (Z.to_nat last_page)) st = Some (verdict, st').
Proof.
  intros Hsrc.
  destruct (fetch_window_returns prop_id date Hsrc
              (fuel := S (Z.to_nat last_page)) 1%Z [] st ltac:(lia))
    as (all_tasks & st1 & Hw).
  destruct (fetch_details_total all_tasks [] st1) as (detailed & st2 & Hd).
  exists (verdict_of_details detailed), st2.
  now apply status_run with all_tasks st1.
Qed.

Lemma or_str_cases v default :
  (v = Some (Py.or_str v default) /\ Py.or_str v default <> ""
   /\ Py.truthy v = true)
  \/ (Py.truthy v = false /\ Py.or_str v default = default).
Proof.
  destruct v as [[|c s]|]; simpl; auto.
  left. repeat split; discriminate.
Qed.

Lemma truthy_some v : Py.truthy v = true <-> exists s, v = Some s /\ s <> "".
Proof.
  destruct v as [[|c s]|]; simpl; split; try discriminate.
  - intros (s & [= <-] & H). now elim H.
  - intros _. exists (String c s). split; [reflexivity | discriminate].
  - reflexivity.
  - intros (s & [=] & _).
Qed.

Lemma no_completed detailed :
  (forall t, In t detailed -> Py.truthy (t_finished_at t) = false) ->
  filter is_completed detailed = [].
Proof.
  induction detailed as [|d ds IH]; intros Hnone; [reflexivity|]. simpl.
  unfold is_completed at 1. rewrite (Hnone d (or_introl eq_refl)).
  apply IH. intros t Ht. apply Hnone. now right.
Qed.


(** C2 (amended). Whenever at least one fetched detail record has a
    non-empty [finished_at], the status is
    ["Ready - {label} - Cleaned by {cleaner} - {first 10 characters of
    finished_at}"], built from a completed record whose [finished_at] is
    lexicographically largest.  The label is its type, else its name, else
    ["Unnamed Task"]; the cleaner is the first assignment's name when
    there is an assignment and that name is not empty, else
    ["Unknown cleaner"]. *)
Theorem status_ready_from_latest_completed
    prop_id last_checkout_date fuel st all_tasks st1 detailed st2 :
  fetch_window src today prop_id last_checkout_date fuel 1 [] st
  = Some (all_tasks, st1) ->
  fetch_details src all_tasks [] st1 = Some (detailed, st2) ->
  (exists t, In t detailed /\ Py.truthy (t_finished_at t) = true) ->
  exists last_task finished_at label cleaner,
    In last_task detailed
    /\ t_finished_at last_task = Some finished_at
    /\ finished_at <> ""
    /\ (forall t fa, In t detailed -> t_finished_at t = Some fa ->
          fa <> "" -> String.leb fa finished_at = true)
    /\ ((t_type last_task = Some label /\ label <> "")
        \/ (Py.truthy (t_type last_task) = false
            /\ t_name last_task = Some label /\ label <> "")
        \/ (Py.truthy (t_type last_task) = false
            /\ Py.truthy (t_name last_task) = false
            /\ label = "Unnamed Task"))
    /\ ((exists a rest, t_assignments last_task = a :: rest
           /\ a_name a = Some cleaner /\ cleaner <> "")
        \/ (exists a rest, t_assignments last_task = a :: rest
              /\ Py.truthy (a_name a) = false
              /\ cleaner = "Unknown cleaner")
        \/ (t_assignments last_task = [] /\ cleaner = "Unknown cleaner"))
    /\ get_checkin_cleaning_status src today prop_id last_checkout_date
         fuel st
       = Some (Py.fstr ["Ready - "; label; " - Cleaned by "; cleaner;
                        " - "; substring 0 10 finished_at], st2).
Proof.
  intros Hw Hd (t0 & Hin0 & Hfin0).
  rewrite (status_run _ _ _ _ Hw Hd).
  destruct (verdict_with_completed detailed) as (m & [Hm Hmax] & ->).
  { intros E. assert (H : In t0 (filter is_completed detailed))
      by (apply filter_In; now split).
    rewrite E in H. exact H. }
  apply filter_In in Hm. destruct Hm as [Hin Hc].
  pose proof (completed_key m Hc) as Hkey.
  assert (Hne : finished_key m <> "").
  { unfold is_completed in Hc. rewrite Hkey in Hc.
    destruct (finished_key m); [discriminate | discriminate]. }
  exists m, (finished_key m), (task_label m),
    (match t_assignments m with
     | a :: _ => Py.or_str (a_name a) "Unknown cleaner"
     | [] => "Unknown cleaner"
     end).
  split; [exact Hin|]. split; [exact Hkey|]. split; [exact Hne|].
  split; [|split; [|split]].
  - intros t fa Ht Hfa Hnz. apply PyFacts.not_gtb_leb.
    assert (Hct : is_completed t = true).
    { unfold is_completed. rewrite Hfa. destruct fa; [now elim Hnz|reflexivity]. }
    replace fa with (finished_key t)
      by (unfold finished_key; now rewrite Hfa).
    apply Hmax. apply filter_In. now split.
  - unfold task_label.
    destruct (or_str_cases (t_type m)
                (Py.or_str (t_name m) "Unnamed Task")) as [(H1 & H2 & _)|[H1 H2]].
    + left. now split.
    + right. rewrite H2.
      destruct (or_str_cases (t_name m) "Unnamed Task")
        as [(H3 & H4 & _)|[H3 H4]].
      * left. now repeat split.
      * right. now repeat split.
  - destruct (t_assignments m) as [|a rest].
    + right. right. now split.
    + destruct (or_str_cases (a_name a) "Unknown cleaner")
        as [(H1 & H2 & _)|[H1 H2]].
      * left. exists a, rest. now repeat split.
      * right. left. exists a, rest. now repeat split.
  - unfold ready_line. rewrite Hkey.
    destruct (finished_key m); [now elim Hne | reflexivity].
Qed.

(** C6 (amended). The verdict does not depend on the order in which the
    detail records were gathered, provided completed records that share a
    [finished_at] string yield the same verdict line (in particular when
    the completed records have pairwise different [finished_at]): every
    permutation of the list gives the same verdict. *)
Theorem verdict_order_independent (detailed detailed' : list task) :
  Permutation detailed detailed' ->
  (forall t1 t2,
      In t1 detailed -> In t2 detailed ->
      is_completed t1 = true -> is_completed t2 = true ->
      t_finished_at t1 = t_finished_at t2 ->
      ready_line t1 = ready_line t2) ->
  verdict_of_details detailed = verdict_of_details detailed'.
Proof.
  intros P Hties.
  pose proof (filter_perm is_completed P) as Pc.
  destruct (filter is_completed detailed) as [|c cs] eqn:E.
  - apply Permutation_nil in Pc.
    rewrite (verdict_without_completed detailed E).
    now rewrite (verdict_without_completed detailed' Pc).
  - destruct (verdict_with_completed detailed) as (m & Hm & ->);
      [now rewrite E|].
    destruct (verdict_with_completed detailed') as (m' & Hm' & ->).
    { intros E'. rewrite E' in Pc. symmetry in Pc.
      now apply Permutation_nil in Pc. }
    rewrite E in Hm.
    pose proof (PyFacts.is_max_key Pc Hm Hm') as Hk.
    destruct Hm as [Hin _], Hm' as [Hin' _].
    rewrite <- E in Hin. apply filter_In in Hin, Hin'.
    destruct Hin as [Hin Hc], Hin' as [Hin' Hc'].
    apply Hties; trivial.
    + now apply (Permutation_in _ (Permutation_sym P)).
    + rewrite (completed_key m Hc), (completed_key m' Hc'). now f_equal.
Qed.

End StatusFacts.

(** ** The page loops *)

Section PageFacts.
Variable world : Type.
Variables (R A : Type).
Variable get : Z -> M world (option (list R)).
Variable absorb : A -> list R -> A.

Lemma limit_pos : 0 < limit.
Proof. unfold limit. lia. Qed.

(** A status other than 200 ends the loop with what was gathered. *)
Lemma page_loop_failure fuel page acc st st' :
  get page st = Some (None, st') ->
  page_loop get absorb (S fuel) page acc st = Some (acc, st').
Proof. intros H. simpl. unfold bind. now rewrite H. Qed.

(** A short page ends the loop after it was taken in. *)
Lemma page_loop_short fuel page acc st results st' :
  get page st = Some (Some results, st') ->
  List.length results < limit ->
  page_loop get absorb (S fuel) page acc st
  = Some (absorb acc results, st').
Proof.
  intros H Hlen. simpl. unfold bind. rewrite H.
  apply Nat.ltb_lt in Hlen. now rewrite Hlen.
Qed.

(** A full page sends the loop to the next page. *)
Lemma page_loop_full fuel page acc st results st' :
  get page st = Some (Some results, st') ->
  limit <= List.length results ->
  page_loop get absorb (S fuel) page acc st
  = page_loop get absorb fuel (page + 1)%Z (absorb acc results) st'.
Proof.
  intros H Hlen. simpl. unfold bind. rewrite H.
  apply Nat.ltb_ge in Hlen. now rewrite Hlen.
Qed.

(** What holds of the accumulator and is kept by every page holds of the
    result. *)
Lemma page_loop_invariant (P : A -> Prop) :
  (forall acc results, P acc -> P (absorb acc results)) ->
  forall fuel page acc st acc' st',
    P acc ->
    page_loop get absorb fuel page acc st = Some (acc', st') ->
    P acc'.
Proof.
  intros Hstep. induction fuel as [|fuel IH]; intros page acc st acc' st' Hacc;
    simpl; [discriminate|].
  unfold bind. destruct (get page st) as [[[results|] st1]|];
    [| |discriminate].
  - destruct (List.length results <? limit)%nat.
    + unfold ret. intros [= <- <-]. now apply Hstep.
    + apply IH. now apply Hstep.
  - unfold ret. now intros [= <- <-].
Qed.

Lemma firstn_add T (a b : nat) (l : list T) :
  firstn (a + b) l = firstn a l ++ firstn b (skipn a l).
Proof.
  revert l. induction a as [|a IH]; intros l; [reflexivity|].
  destruct l as [|x l]; simpl; [now rewrite firstn_nil|].
  now rewrite IH.
Qed.

(** The first [full_pages] pages are served in full and the next request
    is refused: starting at page [i + 1] with [d] of the full pages left,
    the loop takes these in, issues [d + 1] requests and returns what it
    has. *)
Lemma page_loop_until_failure (records : list R) (rq : Z -> request)
    (full_pages : nat) :
  (forall acc, absorb acc [] = acc) ->
  (forall acc xs ys, absorb (absorb acc xs) ys = absorb acc (xs ++ ys)) ->
  (forall p st,
      p < full_pages ->
      exists st',
        get (Z.of_nat (S p)) st
        = Some (Some (paged records limit (Z.of_nat (S p))), st')
        /\ st_log st' = st_log st ++ [rq (Z.of_nat (S p))]) ->
  full_pages * limit <= List.length records ->
  (forall st,
      exists st',
        get (Z.of_nat (S full_pages)) st = Some (None, st')
        /\ st_log st' = st_log st ++ [rq (Z.of_nat (S full_pages))]) ->
  forall d i acc st fuel,
    i + d = full_pages ->
    d < fuel ->
    exists st',
      page_loop get absorb fuel (Z.of_nat (S i)) acc st
      = Some (absorb acc (firstn (d * limit) (skipn (i * limit) records)),
              st')
      /\ st_log st'
         = st_log st ++ map (fun p => rq (Z.of_nat p)) (seq (S i) (S d)).
Proof.
  intros Hnil Happ Hfull Hlen Hfail.
  induction d as [|d IH]; intros i acc st fuel Hi Hfuel;
    (destruct fuel as [|fuel]; [lia|]).
  - replace i with full_pages by lia.
    destruct (Hfail st) as (st' & Hget & Hlog).
    exists st'. split; [|exact Hlog].
    rewrite (page_loop_failure _ _ Hget). simpl. now rewrite Hnil.
  - destruct (Hfull i st ltac:(lia)) as (st1 & Hget & Hlog).
    assert (Hpage : paged records limit (Z.of_nat (S i))
                    = firstn limit (skipn (i * limit) records))
      by (unfold paged; rewrite Nat2Z.id;
          now replace (S i - 1) with i by lia).
    rewrite (page_loop_full _ _ Hget)
      by (rewrite Hpage, length_firstn, length_skipn; nia).
    replace (Z.of_nat (S i) + 1)%Z with (Z.of_nat (S (S i))) by lia.
    destruct (IH (S i) (absorb acc (paged records limit (Z.of_nat (S i))))
                st1 fuel ltac:(lia) ltac:(lia)) as (st' & Hrun & Hlog').
    exists st'. split.
    + rewrite Hrun, Happ, Hpage. f_equal. f_equal. f_equal.
      replace (S d * limit) with (limit + d * limit) by lia.
      rewrite firstn_add, skipn_skipn.
      now replace (limit + i * limit) with (S i * limit) by lia.
    + rewrite Hlog', Hlog, <- app_assoc. reflexivity.
Qed.

(** *** A source that holds [records] and serves them a page at a time *)

Variable records : list R.
Variable rq : Z -> request.

Hypothesis get_page :
  forall page st,
    exists st',
      get page st = Some (Some (paged records limit page), st')
      /\ st_log st' = st_log st ++ [rq page].

Hypothesis absorb_app :
  forall acc xs ys, absorb (absorb acc xs) ys = absorb acc (xs ++ ys).

Let total := List.length records.

Lemma paged_length i :
  List.length (paged records limit (Z.of_nat (S i)))
  = Nat.min limit (total - i * limit).
Proof.
  unfold paged. rewrite Nat2Z.id, length_firstn, length_skipn.
  replace (S i - 1) with i by lia. reflexivity.
Qed.

(** Starting at page [i + 1] with [d] full pages left, the loop issues
    [d + 1] requests: the full pages and the short page that ends it. *)
Lemma page_loop_served d :
  forall i acc st fuel,
    i + d = total / limit ->
    d < fuel ->
    exists st',
      page_loop get absorb fuel (Z.of_nat (S i)) acc st
      = Some (absorb acc (skipn (i * limit) records), st')
      /\ st_log st'
         = st_log st ++ map (fun p => rq (Z.of_nat p)) (seq (S i) (S d)).
Proof.
  pose proof limit_pos as Hpos.
  pose proof (Nat.div_mod_eq total limit) as Hdm.
  pose proof (Nat.mod_upper_bound total limit ltac:(lia)) as Hmod.
  induction d as [|d IH]; intros i acc st fuel Hi Hfuel;
    (destruct fuel as [|fuel]; [lia|]);
    destruct (get_page (Z.of_nat (S i)) st) as (st1 & Hget & Hlog).
  - exists st1. split; [|now rewrite Hlog].
    rewrite (page_loop_short _ _ Hget).
    + f_equal. f_equal. f_equal. unfold paged. rewrite Nat2Z.id.
      replace (S i - 1) with i by lia.
      apply firstn_all2. rewrite length_skipn. fold total. nia.
    + rewrite paged_length. nia.
  - rewrite (page_loop_full _ _ Hget) by (rewrite paged_length; nia).
    replace (Z.of_nat (S i) + 1)%Z with (Z.of_nat (S (S i))) by lia.
    destruct (IH (S i) (absorb acc (paged records limit (Z.of_nat (S i))))
                st1 fuel ltac:(lia) ltac:(lia)) as (st' & Hrun & Hlog').
    exists st'. split.
    + rewrite Hrun, absorb_app. f_equal. f_equal. f_equal.
      unfold paged. rewrite Nat2Z.id. replace (S i - 1) with i by lia.
      replace (S i * limit) with (limit + i * limit) by lia.
      rewrite <- skipn_skipn. apply firstn_skipn.
    + rewrite Hlog', Hlog, <- app_assoc. reflexivity.
Qed.

(** From page 1 the loop takes in all the records with exactly
    [total / limit + 1] requests. *)
Lemma page_loop_all acc st fuel :
  total / limit < fuel ->
  exists st',
    page_loop get absorb fuel 1%Z acc st = Some (absorb acc records, st')
    /\ st_log st'
       = st_log st
         ++ map (fun p => rq (Z.of_nat p)) (seq 1 (total / limit + 1)).
Proof.
  intros Hfuel.
  destruct (page_loop_served (d := total / limit) 0 acc st
              ltac:(lia) Hfuel) as (st' & Hrun & Hlog).
  exists st'. split; [exact Hrun|].
  rewrite Hlog. now replace (total / limit + 1) with (S (total / limit)) by lia.
Qed.

End PageFacts.

(** ** The three fetchers and the task window *)

Section FetcherFacts.
Variable world : Type.
Variable src : source world.

Lemma http_get_answer R (rq : request)
    (endpoint : world -> option R * world) (st : state world) :
  exists st',
    http_get rq endpoint st = Some (fst (endpoint (st_world st)), st')
    /\ st_log st' = st_log st ++ [rq].
Proof.
  unfold http_get. destruct (endpoint (st_world st)) as [answer w].
  eexists. split; reflexivity.
Qed.

Lemma http_get_served R (rq : request)
    (endpoint : world -> option R * world) (answer : option R) :
  (forall w, fst (endpoint w) = answer) ->
  forall st, exists st',
    http_get rq endpoint st = Some (answer, st')
    /\ st_log st' = st_log st ++ [rq].
Proof.
  intros H st. destruct (http_get_answer rq endpoint st) as (st' & Hrun & Hlog).
  exists st'. now rewrite <- (H (st_world st)).
Qed.

Lemma is_housekeeping_true t :
  is_housekeeping t = true <-> is_housekeeping_record t.
Proof.
  unfold is_housekeeping, is_housekeeping_record, Py.eq_lit.
  destruct (t_type_department t) as [s|]; [|split; discriminate].
  rewrite String.eqb_eq. split; congruence.
Qed.

(** [fetch_tasks] returns housekeeping records only. *)
Lemma fetch_tasks_housekeeping home_id date fuel st tasks st' :
  fetch_tasks src home_id date fuel st = Some (tasks, st') ->
  Forall is_housekeeping_record tasks.
Proof.
  unfold fetch_tasks.
  apply page_loop_invariant with (P := Forall is_housekeeping_record);
    [|constructor].
  intros acc results Hacc. apply Forall_app. split; [exact Hacc|].
  apply Forall_forall. intros t Ht. apply filter_In in Ht.
  now apply is_housekeeping_true.
Qed.

Variable today : string.

(** The window loop issues window requests only, which all carry the
    department filter. *)
Lemma fetch_window_log prop_id date fuel :
  forall page all_tasks st result st',
    fetch_window src today prop_id date fuel page all_tasks st
    = Some (result, st') ->
    exists pages,
      st_log st'
      = st_log st ++ map (TaskWindowPage prop_id date today) pages.
Proof.
  induction fuel as [|fuel IH]; intros page acc st result st'; simpl;
    [discriminate|].
  unfold bind.
  destruct (http_get_answer (TaskWindowPage prop_id date today page)
              (task_window_page src prop_id date today page) st)
    as (st1 & -> & Hlog).
  destruct (fst _) as [data|].
  - destruct (_ >=? _)%Z.
    + intros [= <- <-]. exists [page]. exact Hlog.
    + intros Hrun. destruct (IH _ _ _ _ _ Hrun) as (pages & Hlog').
      exists (page :: pages). rewrite Hlog', Hlog, <- app_assoc.
      reflexivity.
  - intros [= <- <-]. exists [page]. exact Hlog.
Qed.

(** What holds of every record the source puts in a window page holds of
    every task of the window. *)
Lemma fetch_window_invariant (Q : task -> Prop) prop_id date :
  (forall page w data,
      fst (task_window_page src prop_id date today page w) = Some data ->
      Forall Q (tp_results data)) ->
  forall fuel page all_tasks st result st',
    Forall Q all_tasks ->
    fetch_window src today prop_id date fuel page all_tasks st
    = Some (result, st') ->
    Forall Q result.
Proof.
  intros Hsrc. induction fuel as [|fuel IH];
    intros page acc st result st' Hacc; simpl; [discriminate|].
  unfold bind.
  destruct (http_get_answer (TaskWindowPage prop_id date today page)
              (task_window_page src prop_id date today page) st)
    as (st1 & -> & _).
  specialize (Hsrc page (st_world st)).
  destruct (fst _) as [data|].
  - assert (Hacc' : Forall Q (acc ++ tp_results data))
      by (apply Forall_app; split; [exact Hacc | now apply Hsrc]).
    destruct (_ >=? _)%Z.
    + now intros [= <- <-].
    + now apply IH.
  - now intros [= <- <-].
Qed.

(** C4 (amended). For each of the three fetch loops, when the source
    holds [records] and serves them [limit] at a time, the loop returns
    after exactly [total / limit + 1] page requests, for pages 1, 2, ...
    in order: one request per full page and one for the short page that
    ends the loop.  That is [ceil(total / limit)] requests unless [total]
    is a multiple of [limit] (zero included), where it is one more.  When
    the source serves the first [full_pages] pages in full and answers the
    next request with a status other than 200, the loop returns at once
    what it gathered from those pages: the map built from their records,
    the records themselves, or the housekeeping tasks among them, after
    exactly [full_pages + 1] requests. *)
Theorem fetch_loops_request_count :
  (forall (records : list property) fuel st,
      (forall page w,
          fst (property_page src limit page w)
          = Some (paged records limit page)) ->
      List.length records / limit < fuel ->
      exists st',
        fetch_property_map src fuel st
        = Some (fold_left add_active records [], st')
        /\ st_log st'
           = st_log st
             ++ map (fun p => PropertyPage limit (Z.of_nat p))
                  (seq 1 (List.length records / limit + 1)))
  /\ (forall date checkin (records : list reservation) fuel st,
         (forall page w,
             fst (reservation_page src checkin date limit page w)
             = Some (paged records limit page)) ->
         List.length records / limit < fuel ->
         exists st',
           fetch_reservations src date checkin fuel st
           = Some (records, st')
           /\ st_log st'
              = st_log st
                ++ map (fun p => ReservationPage checkin date limit
                                   (Z.of_nat p))
                     (seq 1 (List.length records / limit + 1)))
  /\ (forall home_id date (records : list task) fuel st,
         (forall page w,
             fst (task_page_of src home_id date limit page w)
             = Some (paged records limit page)) ->
         List.length records / limit < fuel ->
         exists st',
           fetch_tasks src home_id date fuel st
           = Some (filter is_housekeeping records, st')
           /\ st_log st'
              = st_log st
                ++ map (fun p => TaskPage home_id date limit (Z.of_nat p))
                     (seq 1 (List.length records / limit + 1)))
  /\ (forall (records : list property) full_pages fuel st,
         (forall p w,
             p < full_pages ->
             fst (property_page src limit (Z.of_nat (S p)) w)
             = Some (paged records limit (Z.of_nat (S p)))) ->
         full_pages * limit <= List.length records ->
         (forall w,
             fst (property_page src limit (Z.of_nat (S full_pages)) w)
             = None) ->
         full_pages < fuel ->
         exists st',
           fetch_property_map src fuel st
           = Some (fold_left add_active
                     (firstn (full_pages * limit) records) [], st')
           /\ st_log st'
              = st_log st
                ++ map (fun p => PropertyPage limit (Z.of_nat p))
                     (seq 1 (full_pages + 1)))
  /\ (forall date checkin (records : list reservation) full_pages fuel st,
         (forall p w,
             p < full_pages ->
             fst (reservation_page src checkin date limit
                    (Z.of_nat (S p)) w)
             = Some (paged records limit (Z.of_nat (S p)))) ->
         full_pages * limit <= List.length records ->
         (forall w,
             fst (reservation_page src checkin date limit
                    (Z.of_nat (S full_pages)) w)
             = None) ->
         full_pages < fuel ->
         exists st',
           fetch_reservations src date checkin fuel st
           = Some (firstn (full_pages * limit) records, st')
           /\ st_log st'
              = st_log st
                ++ map (fun p => ReservationPage checkin date limit
                                   (Z.of_nat p))
                     (seq 1 (full_pages + 1)))
  /\ (forall home_id date (records : list task) full_pages fuel st,
         (forall p w,
             p < full_pages ->
             fst (task_page_of src home_id date limit (Z.of_nat (S p)) w)
             = Some (paged records limit (Z.of_nat (S p)))) ->
         full_pages * limit <= List.length records ->
         (forall w,
             fst (task_page_of src home_id date limit
                    (Z.of_nat (S full_pages)) w)
             = None) ->
         full_pages < fuel ->
         exists st',
           fetch_tasks src home_id date fuel st
           = Some (filter is_housekeeping
                     (firstn (full_pages * limit) records), st')
           /\ st_log st'
              = st_log st
                ++ map (fun p => TaskPage home_id date limit (Z.of_nat p))
                     (seq 1 (full_pages + 1))).
Proof.
  repeat apply conj.
  - intros records fuel st Hsrc Hfuel. unfold fetch_property_map.
    apply page_loop_all with (rq := PropertyPage limit) (records := records);
      [| |exact Hfuel].
    + intros page st0. now apply http_get_served.
    + intros acc xs ys. symmetry. apply fold_left_app.
  - intros date checkin records fuel st Hsrc Hfuel. unfold fetch_reservations.
    assert (Hget : forall page st0, exists st',
               get_reservation_page src date checkin page st0
               = Some (Some (paged records limit page), st')
               /\ st_log st' = st_log st0
                               ++ [ReservationPage checkin date limit page])
      by (intros page st0; now apply http_get_served).
    assert (Habs : forall acc xs ys : list reservation,
               (acc ++ xs) ++ ys = acc ++ xs ++ ys)
      by (intros; symmetry; apply app_assoc).
    destruct (page_loop_all (get_reservation_page src date checkin)
                (fun reservations results => reservations ++ results)
                records (ReservationPage checkin date limit)
                Hget Habs [] st Hfuel)
      as (st' & Hrun & Hlog).
    exists st'. now split.
  - intros home_id date records fuel st Hsrc Hfuel. unfold fetch_tasks.
    assert (Hget : forall page st0, exists st',
               get_task_page src home_id date page st0
               = Some (Some (paged records limit page), st')
               /\ st_log st' = st_log st0
                               ++ [TaskPage home_id date limit page])
      by (intros page st0; now apply http_get_served).
    assert (Habs : forall acc xs ys : list task,
               (acc ++ filter is_housekeeping xs) ++ filter is_housekeeping ys
               = acc ++ filter is_housekeeping (xs ++ ys))
      by (intros; rewrite filter_app; symmetry; apply app_assoc).
    destruct (page_loop_all (get_task_page src home_id date)
                (fun all_tasks results =>
                   all_tasks ++ filter is_housekeeping results)
                records (TaskPage home_id date limit)
                Hget Habs [] st Hfuel)
      as (st' & Hrun & Hlog).
    exists st'. now split.
  - intros records full_pages fuel st Hfull Hlen Hfail Hfuel.
    unfold fetch_property_map.
    destruct (page_loop_until_failure (get_property_page src)
                (fun property_map results =>
                   fold_left add_active results property_map)
                records (PropertyPage limit) (full_pages := full_pages)
                (fun acc => eq_refl)
                (fun acc xs ys => eq_sym (fold_left_app _ xs ys acc))
                (fun p st0 Hp =>
                   http_get_served _ _ (fun w => Hfull p w Hp) st0)
                Hlen (http_get_served _ _ Hfail)
                (d := full_pages) 0 [] st ltac:(lia) Hfuel)
      as (st' & Hrun & Hlog).
    exists st'. split; [exact Hrun|].
    now replace (full_pages + 1) with (S full_pages) by lia.
  - intros date checkin records full_pages fuel st Hfull Hlen Hfail Hfuel.
    unfold fetch_reservations.
    destruct (page_loop_until_failure
                (get_reservation_page src date checkin)
                (fun reservations results => reservations ++ results)
                records (ReservationPage checkin date limit)
                (full_pages := full_pages)
                (fun acc => app_nil_r acc)
                (fun acc xs ys => eq_sym (app_assoc acc xs ys))
                (fun p st0 Hp =>
                   http_get_served _ _ (fun w => Hfull p w Hp) st0)
                Hlen (http_get_served _ _ Hfail)
                (d := full_pages) 0 [] st ltac:(lia) Hfuel)
      as (st' & Hrun & Hlog).
    exists st'. split; [exact Hrun|].
    now replace (full_pages + 1) with (S full_pages) by lia.
  - intros home_id date records full_pages fuel st Hfull Hlen Hfail Hfuel.
    unfold fetch_tasks.
    assert (Habs : forall acc xs ys : list task,
               (acc ++ filter is_housekeeping xs) ++ filter is_housekeeping ys
               = acc ++ filter is_housekeeping (xs ++ ys))
      by (intros; rewrite filter_app; symmetry; apply app_assoc).
    destruct (page_loop_until_failure (get_task_page src home_id date)
                (fun all_tasks results =>
                   all_tasks ++ filter is_housekeeping results)
                records (TaskPage home_id date limit)
                (full_pages := full_pages)
                (fun acc => app_nil_r acc)
                Habs
                (fun p st0 Hp =>
                   http_get_served _ _ (fun w => Hfull p w Hp) st0)
                Hlen (http_get_served _ _ Hfail)
                (d := full_pages) 0 [] st ltac:(lia) Hfuel)
      as (st' & Hrun & Hlog).
    exists st'. split; [exact Hrun|].
    now replace (full_pages + 1) with (S full_pages) by lia.
Qed.

Lemma append_assoc (a b c : string) :
  ((a ++ b) ++ c = a ++ b ++ c)%string.
Proof. induction a as [|x a IH]; simpl; [reflexivity | now rewrite IH]. Qed.

(** The two URLs of the window loop carry the department filter. *)
Lemma window_request_asks_for_housekeeping prop_id date page :
  asks_for_housekeeping (TaskWindowPage prop_id date today page).
Proof.
  exists (Py.fstr [BASE_TASK_URL; "?home_id="; str_ident prop_id]),
         (Py.fstr ["&scheduled_date="; date; ","; today;
                   "&limit=100&page="; Py.str_int page]).
  unfold request_url, Py.fstr. cbn [String.concat].
  rewrite !append_assoc. reflexivity.
Qed.

(** Every record the detail loop adds is the answer to the detail request
    for the id of one of the tasks. *)
Lemma fetch_details_from all_tasks :
  forall detailed_tasks st detailed st',
    fetch_details src all_tasks detailed_tasks st = Some (detailed, st') ->
    forall d,
      In d detailed ->
      In d detailed_tasks
      \/ exists t w,
           In t all_tasks /\ fst (task_detail src (t_id t) w) = Some d.
Proof.
  induction all_tasks as [|t rest IH]; intros acc st detailed st'; simpl.
  - unfold ret. intros [= <- <-] d Hd. now left.
  - assert (Hrest : forall acc0 st0,
               fetch_details src rest acc0 st0 = Some (detailed, st') ->
               (forall d, In d acc0 ->
                  In d acc
                  \/ exists t0 w,
                       (t = t0 \/ In t0 rest)
                       /\ fst (task_detail src (t_id t0) w) = Some d) ->
               forall d, In d detailed ->
                 In d acc
                 \/ exists t0 w,
                      (t = t0 \/ In t0 rest)
                      /\ fst (task_detail src (t_id t0) w) = Some d).
    { intros acc0 st0 Hrun Hacc d Hd.
      destruct (IH _ _ _ _ Hrun d Hd) as [Hin|(t0 & w & Hin & Hw)].
      - now apply Hacc.
      - right. exists t0, w. split; [now right | exact Hw]. }
    destruct (ident_truthy (t_id t)); simpl.
    + unfold bind.
      destruct (http_get_answer (TaskDetail (t_id t))
                  (task_detail src (t_id t)) st) as (st1 & -> & _).
      destruct (fst (task_detail src (t_id t) (st_world st))) as [x|] eqn:E.
      * intros Hrun. apply (Hrest _ _ Hrun).
        intros d Hd. apply in_app_or in Hd.
        destruct Hd as [Hd|[<-|[]]]; [now left|].
        right. exists t, (st_world st). split; [now left | exact E].
      * intros Hrun. apply (Hrest _ _ Hrun). intros d Hd. now left.
    + intros Hrun. apply (Hrest _ _ Hrun). intros d Hd. now left.
Qed.

(** A returned status is the verdict on the details of the window. *)
Lemma status_inv prop_id date fuel st verdict st' :
  get_checkin_cleaning_status src today prop_id date fuel st
  = Some (verdict, st') ->
  exists all_tasks st1 detailed,
    fetch_window src today prop_id date fuel 1 [] st = Some (all_tasks, st1)
    /\ fetch_details src all_tasks [] st1 = Some (detailed, st')
    /\ verdict = verdict_of_details detailed.
Proof.
  intros Hrun.
  destruct (fetch_window src today prop_id date fuel 1 [] st)
    as [[all_tasks st1]|] eqn:Hw;
    [|unfold get_checkin_cleaning_status, bind in Hrun;
      now rewrite Hw in Hrun].
  destruct (fetch_details_total src all_tasks [] st1)
    as (detailed & st2 & Hd).
  pose proof Hw as Hs. eapply status_run in Hs; [|exact Hd].
  rewrite Hs in Hrun.
  injection Hrun as <- <-.
  now exists all_tasks, st1, detailed.
Qed.

(** C5 (amended). No record whose [type_department] differs from
    ["housekeeping"] appears in the output of [fetch_tasks].
    [get_checkin_cleaning_status] checks no department itself: each
    request of its task window carries [type_department=housekeeping] in
    its URL, and the verdict is computed from the detail records fetched
    for the ids of the tasks of that window.  When the source honours the
    filter every task of the window is a housekeeping record; when, in
    addition, the detail of a task has the department of the task, so is
    every record the verdict is built from. *)
Theorem housekeeping_records_only :
  (forall home_id date fuel st tasks st',
      fetch_tasks src home_id date fuel st = Some (tasks, st') ->
      forall t, In t tasks -> t_type_department t = Some "housekeeping")
  /\ (forall prop_id last_checkout_date fuel st verdict st',
         get_checkin_cleaning_status src today prop_id last_checkout_date
           fuel st = Some (verdict, st') ->
         exists all_tasks st1 detailed,
           fetch_window src today prop_id last_checkout_date fuel 1 [] st
           = Some (all_tasks, st1)
           /\ fetch_details src all_tasks [] st1 = Some (detailed, st')
           /\ verdict = verdict_of_details detailed
           /\ (exists pages,
                  st_log st1
                  = st_log st
                    ++ map (TaskWindowPage prop_id last_checkout_date today)
                         pages
                  /\ forall page,
                       In page pages ->
                       asks_for_housekeeping
                         (TaskWindowPage prop_id last_checkout_date today
                            page))
           /\ (forall d,
                  In d detailed ->
                  exists t w,
                    In t all_tasks
                    /\ fst (task_detail src (t_id t) w) = Some d)
           /\ ((forall page w data,
                   fst (task_window_page src prop_id last_checkout_date
                          today page w) = Some data ->
                   forall t, In t (tp_results data) ->
                             t_type_department t = Some "housekeeping") ->
               (forall t, In t all_tasks ->
                          t_type_department t = Some "housekeeping")
               /\ ((forall t w d,
                       In t all_tasks ->
                       fst (task_detail src (t_id t) w) = Some d ->
                       t_type_department d = t_type_department t) ->
                   forall d, In d detailed ->
                             t_type_department d = Some "housekeeping"))).
Proof.
  split.
  - intros home_id date fuel st tasks st' Hrun.
    apply Forall_forall. exact (fetch_tasks_housekeeping _ _ _ _ Hrun).
  - intros prop_id date fuel st verdict st' Hrun.
    destruct (status_inv _ _ _ _ Hrun)
      as (all_tasks & st1 & detailed & Hw & Hd & Hv).
    exists all_tasks, st1, detailed.
    assert (Hfrom : forall d, In d detailed ->
               exists t w,
                 In t all_tasks
                 /\ fst (task_detail src (t_id t) w) = Some d).
    { intros d Hin.
      destruct (fetch_details_from _ _ _ Hd d Hin) as [[]|H]. exact H. }
    repeat apply conj; trivial.
    + destruct (fetch_window_log _ _ _ _ _ _ Hw) as (pages & Hlog).
      exists pages. split; [exact Hlog|].
      intros page _. apply window_request_asks_for_housekeeping.
    + intros Hsrc.
      assert (Hwindow : forall t, In t all_tasks ->
                 t_type_department t = Some "housekeeping").
      { apply Forall_forall.
        assert (Hq : forall page w data,
                   fst (task_window_page src prop_id date today page w)
                   = Some data ->
                   Forall is_housekeeping_record (tp_results data))
          by (intros page w data Hdata; apply Forall_forall;
              exact (Hsrc page w data Hdata)).
        eapply fetch_window_invariant; [exact Hq | | exact Hw].
        constructor. }
      split; [exact Hwindow|].
      intros Hsame d Hin. destruct (Hfrom d Hin) as (t & w & Ht & Hdetail).
      rewrite (Hsame t w d Ht Hdetail). now apply Hwindow.
Qed.

End FetcherFacts.

(** ** Dictionaries and name sets *)

Module DictFacts.
Section DictFacts.
Variables (K V : Type) (eqb : K -> K -> bool).
Hypothesis eqb_spec : forall a b, reflect (a = b) (eqb a b).

Lemma get_set_same k v (d : Dict.t K V) :
  Dict.get eqb k (Dict.set eqb k v d) = Some v.
Proof.
  induction d as [|[k' v'] d IH]; simpl.
  - destruct (eqb_spec k k); [reflexivity | congruence].
  - destruct (eqb k k') eqn:E; simpl; rewrite E; [reflexivity | exact IH].
Qed.

Lemma get_set_other k k' v (d : Dict.t K V) :
  k <> k' -> Dict.get eqb k' (Dict.set eqb k v d) = Dict.get eqb k' d.
Proof.
  intros Hne. induction d as [|[k0 v0] d IH]; simpl.
  - destruct (eqb_spec k' k); [congruence | reflexivity].
  - destruct (eqb_spec k k0) as [->|Hk]; simpl.
    + destruct (eqb_spec k' k0); [congruence | reflexivity].
    + destruct (eqb k' k0); [reflexivity | exact IH].
Qed.

(** Assigning a key that is present keeps the keys and their order. *)
Lemma keys_set_present k v v0 (d : Dict.t K V) :
  Dict.get eqb k d = Some v0 ->
  map fst (Dict.set eqb k v d) = map fst d.
Proof.
  induction d as [|[k' v'] d IH]; simpl; [discriminate|].
  destruct (eqb k k'); simpl; [reflexivity|].
  intros H. now rewrite IH.
Qed.

Lemma keys_set_absent k v (d : Dict.t K V) :
  Dict.get eqb k d = None ->
  map fst (Dict.set eqb k v d) = map fst d ++ [k].
Proof.
  induction d as [|[k' v'] d IH]; simpl; [reflexivity|].
  destruct (eqb k k'); simpl; [discriminate|].
  intros H. now rewrite IH.
Qed.

Lemma get_none_keys k (d : Dict.t K V) :
  Dict.get eqb k d = None <-> ~ In k (map fst d).
Proof.
  induction d as [|[k' v'] d IH]; simpl; [tauto|].
  destruct (eqb_spec k k') as [->|Hne].
  - split; [discriminate|]. intros H. elim H. now left.
  - rewrite IH. split; [|tauto]. intros H [Heq|Hin]; [congruence | tauto].
Qed.
End DictFacts.
End DictFacts.

Lemma name_in_true n s : name_in n s = true <-> set_In n s.
Proof.
  unfold name_in. split.
  - apply set_mem_correct1.
  - apply set_mem_correct2.
Qed.

Lemma name_in_false n s : name_in n s = false <-> ~ set_In n s.
Proof.
  rewrite <- name_in_true. destruct (name_in n s); split; congruence.
Qed.

Lemma name_add_in n m s : set_In n (name_add m s) <-> n = m \/ set_In n s.
Proof. unfold name_add. apply set_add_iff. Qed.

(** Appending one line at a time is appending the mapped list. *)
Lemma fold_left_snoc A B (f : A -> B) (xs : list A) :
  forall out, fold_left (fun out x => out ++ [f x]) xs out = out ++ map f xs.
Proof.
  induction xs as [|x xs IH]; intros out; simpl.
  - now rewrite app_nil_r.
  - now rewrite IH, <- app_assoc.
Qed.

Lemma nonempty_app A (xs ys : list A) :
  Py.nonempty (xs ++ ys) = Py.nonempty xs || Py.nonempty ys.
Proof. destruct xs; reflexivity. Qed.

(** ** The check-outs and pending-cleanings sections *)

Section PendingFacts.

Lemma checkout_loop_names property_map cleaning_map checkouts :
  forall checkout_props output n,
    set_In n (snd (checkout_loop property_map cleaning_map checkouts
                     checkout_props output))
    <-> set_In n checkout_props
        \/ has_reservation property_map checkouts n.
Proof.
  unfold has_reservation.
  induction checkouts as [|res rest IH]; intros cp output n; simpl.
  - split; [now left|]. intros [H|(res & info & [] & _)]. exact H.
  - destruct (Dict.get ident_eqb (r_property_id res) property_map)
      as [info|] eqn:E.
    + assert (Hstep : forall out,
                 set_In n (snd (checkout_loop property_map cleaning_map rest
                                  (name_add (name info) cp) out))
                 <-> set_In n cp
                     \/ exists res0 info0,
                          (res = res0 \/ In res0 rest)
                          /\ Dict.get ident_eqb (r_property_id res0)
                               property_map = Some info0
                          /\ name info0 = n).
      { intros out. rewrite IH, name_add_in. split.
        - intros [[->|H]|(r & i & Hr & Hg & Hn)]; eauto 8.
        - intros [H|(r & i & [<-|Hr] & Hg & Hn)]; eauto 8.
          rewrite E in Hg. injection Hg as <-. auto. }
      destruct (Dict.get String.eqb (name info) cleaning_map); apply Hstep.
    + rewrite IH. split.
      * intros [H|(r & i & Hr & Hg & Hn)]; eauto 8.
      * intros [H|(r & i & [<-|Hr] & Hg & Hn)]; eauto 8. congruence.
Qed.

Lemma pending_inner cleanings :
  forall output has_pending,
    fold_left (fun '(out, _) (c : string) => (out ++ [c], true))
      cleanings (output, has_pending)
    = (output ++ cleanings, has_pending || Py.nonempty cleanings).
Proof.
  induction cleanings as [|c cs IH]; intros output hp; simpl.
  - now rewrite app_nil_r, orb_false_r.
  - now rewrite IH, <- app_assoc, orb_true_r.
Qed.

Lemma pending_loop_lines items checkout_props :
  forall output has_pending,
    pending_loop items checkout_props output has_pending
    = (output ++ flat_map snd (without_checkout checkout_props items),
       has_pending
       || Py.nonempty (flat_map snd (without_checkout checkout_props items))).
Proof.
  unfold without_checkout.
  induction items as [|[n cleanings] items IH]; intros output hp; simpl.
  - now rewrite app_nil_r, orb_false_r.
  - destruct (name_in n checkout_props); simpl; [apply IH|].
    rewrite pending_inner, IH, nonempty_app, <- app_assoc, orb_assoc.
    reflexivity.
Qed.

(** C7. In every run, with [checkout_props] the set of names of the
    properties that have a check-out reservation today: the lines of the
    pending-cleanings section are exactly the lines the cleaning map holds
    for the names that are not in [checkout_props], in the order of the
    map (or the placeholder when there is none); no entry of a name in
    [checkout_props] is among them. *)
Theorem pending_excludes_checkouts
    (property_map : property_map_t) (cleaning_map : cleaning_map_t)
    (checkouts : list reservation) (output0 output : list string) :
  let checkout_props :=
    snd (checkouts_section property_map cleaning_map checkouts output0) in
  let pending := without_checkout checkout_props cleaning_map in
  (forall n, set_In n checkout_props
             <-> has_reservation property_map checkouts n)
  /\ (forall n lines, In (n, lines) pending
                      <-> In (n, lines) cleaning_map
                          /\ ~ set_In n checkout_props)
  /\ pending_section cleaning_map checkout_props output
     = output ++ [Py.fstr [Py.nl; "Pending cleanings:"]]
       ++ (if Py.nonempty (flat_map snd pending) then flat_map snd pending
           else ["No pending cleanings today."]).
Proof.
  intros checkout_props pending. repeat apply conj.
  - intros n. subst checkout_props. unfold checkouts_section.
    destruct checkouts as [|res rest].
    + simpl. unfold has_reservation. split; [intros []|].
      intros (r & i & [] & _).
    + change (Py.nonempty (res :: rest)) with true. cbv iota.
      rewrite checkout_loop_names. split; [|now right].
      now intros [[]|H].
  - intros n lines. subst pending. unfold without_checkout.
    rewrite filter_In. simpl. rewrite negb_true_iff, name_in_false.
    reflexivity.
  - unfold pending_section. rewrite pending_loop_lines. fold pending.
    destruct (flat_map snd pending) as [|line lines]; simpl.
    + now rewrite app_nil_r, <- app_assoc.
    + now rewrite <- app_assoc.
Qed.

End PendingFacts.

(** ** The check-ins section *)

Section CheckinFacts.
Variable world : Type.
Variable src : source world.
Variables today ninety_days_ago : string.
Variable property_map : property_map_t.

Lemma first_seen_for_cons res rest n first :
  first_seen_for property_map rest n first ->
  (forall i, Dict.get ident_eqb (r_property_id res) property_map = Some i ->
             name i <> n) ->
  first_seen_for property_map (res :: rest) n first.
Proof.
  intros (before & after & info & -> & Hg & Hn & Hfirst) Hres.
  exists (res :: before), after, info. repeat split; trivial.
  intros r i [<-|Hr]; [apply Hres | now apply Hfirst].
Qed.

(** The loop appends one line per name that is not printed yet and that
    a reservation of a property of the map resolves to; no name twice; and
    the status on the line of a name was computed for the property id of
    the first reservation that resolves to that name. *)
Lemma checkin_loop_entries fuel checkins :
  forall printed output st out st',
    checkin_loop src today ninety_days_ago property_map fuel checkins
      printed output st = Some (out, st') ->
    exists entries : list (string * string),
      out = output ++ map checkin_line entries
      /\ NoDup (map fst entries)
      /\ (forall n, In n (map fst entries)
                    <-> ~ set_In n printed
                        /\ has_reservation property_map checkins n)
      /\ forall n status,
           In (n, status) entries ->
           exists first date s s',
             first_seen_for property_map checkins n first
             /\ get_checkin_cleaning_status src today (r_property_id first)
                  date fuel s = Some (status, s').
Proof.
  unfold has_reservation.
  induction checkins as [|res rest IH]; intros printed output st out st';
    simpl.
  - intros [= <- <-]. exists []. simpl. rewrite app_nil_r.
    split; [reflexivity|]. split; [constructor|]. split; [|intros n status []].
    intros n. split; [intros []|]. intros (_ & r & i & [] & _).
  - destruct (Dict.get ident_eqb (r_property_id res) property_map)
      as [info|] eqn:E.
    + destruct (name_in (name info) printed) eqn:Hin.
      * intros Hrun.
        destruct (IH _ _ _ _ _ Hrun) as (entries & -> & Hnd & Hn & Hfirst).
        exists entries. split; [reflexivity|]. split; [exact Hnd|].
        apply name_in_true in Hin. split.
        -- intros n. rewrite Hn. split.
           ++ intros (Hp & r & i & Hr & Hg & Hi); eauto 8.
           ++ intros (Hp & r & i & [<-|Hr] & Hg & Hi); eauto 8.
              rewrite E in Hg. injection Hg as <-. subst n. now elim Hp.
        -- intros n status Hentry.
           destruct (Hfirst n status Hentry) as (first & date & s & s' & Hf & Hs).
           exists first, date, s, s'. split; [|exact Hs].
           apply first_seen_for_cons; [exact Hf|].
           intros i Hi. rewrite E in Hi. injection Hi as <-. intros Heq.
           assert (Hnames : In n (map fst entries))
             by (apply in_map_iff; now exists (n, status)).
           apply Hn in Hnames. destruct Hnames as [Hp _]. congruence.
      * unfold bind at 1.
        destruct (fetch_reservations src today false fuel st)
          as [[checkouts s1]|]; [|discriminate].
        unfold bind at 1.
        destruct (get_checkin_cleaning_status src today
                    (r_property_id res) _ fuel s1)
          as [[prop_status s2]|] eqn:Hstatus; [|discriminate].
        intros Hrun.
        destruct (IH _ _ _ _ _ Hrun) as (entries & -> & Hnd & Hn & Hfirst).
        apply name_in_false in Hin.
        exists ((name info, prop_status) :: entries).
        split; [simpl; now rewrite <- app_assoc|].
        split; [|split].
        -- simpl. constructor; [|exact Hnd].
           intros Hc. apply Hn in Hc. destruct Hc as [Hc _].
           apply Hc, name_add_in. now left.
        -- intros n. simpl. rewrite Hn, name_add_in. split.
           ++ intros [<-|(Hp & r & i & Hr & Hg & Hi)]; [eauto 8|].
              split; [tauto | eauto 8].
           ++ intros (Hp & r & i & [<-|Hr] & Hg & Hi).
              ** left. rewrite E in Hg. now injection Hg as <-.
              ** destruct (string_dec (name info) n) as [Heq|Hne];
                   [now left | right].
                 split; [intros [Hc|Hc]; congruence | eauto 8].
        -- intros n status [[= <- <-]|Hentry].
           ++ exists res. do 3 eexists. split; [|exact Hstatus].
              exists [], rest, info. repeat split; trivial.
              intros r i [].
           ++ destruct (Hfirst n status Hentry)
                as (first & date & s & s' & Hf & Hs).
              exists first, date, s, s'. split; [|exact Hs].
              apply first_seen_for_cons; [exact Hf|].
              intros i Hi. rewrite E in Hi. injection Hi as <-. intros Heq.
              assert (Hnames : In n (map fst entries))
                by (apply in_map_iff; now exists (n, status)).
              apply Hn in Hnames. destruct Hnames as [Hp _].
              apply Hp, name_add_in. now left.
    + intros Hrun.
      destruct (IH _ _ _ _ _ Hrun) as (entries & -> & Hnd & Hn & Hfirst).
      exists entries. split; [reflexivity|]. split; [exact Hnd|]. split.
      * intros n. rewrite Hn. split.
        -- intros (Hp & r & i & Hr & Hg & Hi); eauto 8.
        -- intros (Hp & r & i & [<-|Hr] & Hg & Hi); eauto 8. congruence.
      * intros n status Hentry.
        destruct (Hfirst n status Hentry) as (first & date & s & s' & Hf & Hs).
        exists first, date, s, s'. split; [|exact Hs].
        apply first_seen_for_cons; [exact Hf|].
        intros i Hi. congruence.
Qed.

(** C8 (amended). For every list of check-in reservations that contains
    one or more reservations for a property of the property map (an
    active property), the check-ins loop emits exactly one verdict line
    for that property's name, and no name gets two lines: the loop
    deduplicates by name.  The first-seen reservation wins: the status on
    that line was computed for the property id of the first reservation
    of the list that resolves to the name.  Reservations for a property
    that is not in the map get no line. *)
Theorem checkins_one_line_per_property
    fuel checkins output st out st' res info :
  In res checkins ->
  Dict.get ident_eqb (r_property_id res) property_map = Some info ->
  checkin_loop src today ninety_days_ago property_map fuel checkins
    (empty_set string) output st = Some (out, st') ->
  exists entries : list (string * string),
    out = output
          ++ map (fun e => Py.fstr ["- "; fst e; " - "; snd e]) entries
    /\ count_occ string_dec (map fst entries) (name info) = 1
    /\ NoDup (map fst entries)
    /\ (forall n, In n (map fst entries) ->
                  exists res' info',
                    In res' checkins
                    /\ Dict.get ident_eqb (r_property_id res') property_map
                       = Some info'
                    /\ name info' = n)
    /\ exists status before first after first_info date s s',
         In (name info, status) entries
         /\ checkins = before ++ first :: after
         /\ Dict.get ident_eqb (r_property_id first) property_map
            = Some first_info
         /\ name first_info = name info
         /\ (forall r i, In r before ->
               Dict.get ident_eqb (r_property_id r) property_map = Some i ->
               name i <> name info)
         /\ get_checkin_cleaning_status src today (r_property_id first)
              date fuel s = Some (status, s').
Proof.
  intros Hres Hget Hrun.
  destruct (checkin_loop_entries _ _ _ _ _ Hrun)
    as (entries & -> & Hnd & Hn & Hfirst).
  assert (Hin : In (name info) (map fst entries))
    by (apply Hn; split; [intros [] | now exists res, info]).
  exists entries. split; [reflexivity|].
  split; [now apply NoDup_count_occ'|]. split; [exact Hnd|]. split.
  - intros n Hn'. now apply Hn in Hn'.
  - apply in_map_iff in Hin. destruct Hin as ([n status] & Hfst & Hentry).
    simpl in Hfst. subst n.
    destruct (Hfirst _ _ Hentry)
      as (first & date & s & s' & (before & after & i & Hc & Hg & Hi & Hb) & Hs).
    exists status, before, first, after, i, date, s, s'.
    repeat split; trivial.
Qed.

End CheckinFacts.

(** ** Yesterday's summary *)

Section YesterdayFacts.
Variable world : Type.
Variable src : source world.
Variable yesterday : string.

Lemma yesterday_task_lines prop_name output t :
  is_housekeeping t = true ->
  yesterday_task prop_name output t
  = output ++ map (summary_line prop_name t) (t_assignments t).
Proof.
  intros Hk. unfold yesterday_task.
  change (Py.eq_lit (t_type_department t) "housekeeping")
    with (is_housekeeping t).
  rewrite Hk. simpl negb. cbv iota.
  destruct (t_assignments t) as [|a rest] eqn:E.
  - simpl. now rewrite app_nil_r.
  - change (Py.nonempty (a :: rest)) with true. simpl negb. cbv iota.
    apply (fold_left_snoc (summary_line prop_name t)).
Qed.

Lemma yesterday_tasks_lines prop_name tasks :
  Forall (fun t => is_housekeeping t = true) tasks ->
  forall output,
    fold_left (yesterday_task prop_name) tasks output
    = output
      ++ flat_map (fun t => map (summary_line prop_name t) (t_assignments t))
           tasks.
Proof.
  induction 1 as [|t tasks Ht Hts IH]; intros output; simpl.
  - now rewrite app_nil_r.
  - rewrite yesterday_task_lines by exact Ht.
    now rewrite IH, <- app_assoc.
Qed.

Lemma completion_status_completed t a :
  completion_status t a = "Completed"
  <-> a_type_task_user_status a = Some "completed"
      \/ exists finished_at,
           t_finished_at t = Some finished_at /\ finished_at <> "".
Proof.
  unfold completion_status.
  rewrite <- (truthy_some (t_finished_at t)).
  assert (Hs : Py.eq_lit (a_type_task_user_status a) "completed" = true
               <-> a_type_task_user_status a = Some "completed").
  { unfold Py.eq_lit. destruct (a_type_task_user_status a) as [s|];
      [|split; discriminate].
    rewrite String.eqb_eq. split; congruence. }
  rewrite <- Hs.
  destruct (Py.eq_lit (a_type_task_user_status a) "completed"),
    (Py.truthy (t_finished_at t)); simpl; split; auto;
    try discriminate; now intros [H|H].
Qed.

Lemma completion_status_cases t a :
  completion_status t a = "Completed"
  \/ completion_status t a = "Not completed".
Proof. unfold completion_status. destruct (_ || _); auto. Qed.

(** C9. In the yesterday's-summary section, for the tasks fetched for a
    property, a task with zero assignments adds no line, and a task with
    assignments adds exactly one line per assignment, in order; the
    status on the line is ["Completed"] if and only if the assignment's
    status equals ["completed"] or the task has a non-empty
    [finished_at], and ["Not completed"] otherwise. *)
Theorem yesterday_one_line_per_assignment
    fuel prop_id info rest output st tasks st1 :
  fetch_tasks src prop_id yesterday fuel st = Some (tasks, st1) ->
  yesterday_loop src yesterday fuel ((prop_id, info) :: rest) output st
  = yesterday_loop src yesterday fuel rest
      (output
       ++ flat_map
            (fun t =>
               map (fun a =>
                      Py.fstr ["- "; name info; " - "; task_label t; " - ";
                               Py.or_str (a_name a) "Unknown"; " - ";
                               completion_status t a])
                 (t_assignments t))
            tasks)
      st1
  /\ (forall t out, In t tasks ->
        t_assignments t = [] -> yesterday_task (name info) out t = out)
  /\ (forall t out, In t tasks ->
        exists lines,
          yesterday_task (name info) out t = out ++ lines
          /\ List.length lines = List.length (t_assignments t))
  /\ (forall t a,
        (completion_status t a = "Completed"
         <-> a_type_task_user_status a = Some "completed"
             \/ exists finished_at,
                  t_finished_at t = Some finished_at /\ finished_at <> "")
        /\ (completion_status t a = "Not completed"
            <-> ~ (a_type_task_user_status a = Some "completed"
                   \/ exists finished_at,
                        t_finished_at t = Some finished_at
                        /\ finished_at <> ""))).
Proof.
  intros Hrun.
  assert (Hk : Forall (fun t => is_housekeeping t = true) tasks).
  { eapply Forall_impl; [|eapply fetch_tasks_housekeeping; exact Hrun].
    intros t. apply is_housekeeping_true. }
  repeat apply conj.
  - simpl. unfold bind at 1. rewrite Hrun.
    destruct tasks as [|t tasks]; simpl negb; cbv iota.
    + simpl. now rewrite app_nil_r.
    + now rewrite yesterday_tasks_lines by exact Hk.
  - intros t out Hin Hnone.
    rewrite yesterday_task_lines
      by (exact (proj1 (Forall_forall _ _) Hk t Hin)).
    rewrite Hnone. simpl. apply app_nil_r.
  - intros t out Hin. eexists. split.
    + apply yesterday_task_lines.
      exact (proj1 (Forall_forall _ _) Hk t Hin).
    + apply length_map.
  - intros t a. split; [apply completion_status_completed|].
    rewrite <- completion_status_completed. split.
    + intros Hnot. rewrite Hnot. discriminate.
    + intros Hnot.
      destruct (completion_status_cases t a); [contradiction | assumption].
Qed.

End YesterdayFacts.

(** ** The cleaning map *)

Section CleaningMapFacts.
Variable world : Type.
Variable src : source world.
Variables today ninety_days_ago : string.

Lemma entry_set_trans n lines lines' cm cm' cm'' :
  entry_set n lines cm cm' -> entry_set n lines' cm' cm'' ->
  entry_set n lines' cm cm''.
Proof.
  intros (_ & Hk & Ho) (Hg' & Hk' & Ho'). repeat split.
  - exact Hg'.
  - congruence.
  - intros m Hm. now rewrite Ho', Ho.
Qed.

Lemma cleaning_append_entry n line lines cm :
  Dict.get String.eqb n cm = Some lines ->
  entry_set n (lines ++ [line]) cm (cleaning_append n line cm).
Proof.
  intros Hg. unfold cleaning_append. rewrite Hg. repeat split.
  - apply DictFacts.get_set_same, String.eqb_spec.
  - now apply DictFacts.keys_set_present with lines.
  - intros m Hm. apply DictFacts.get_set_other; [apply String.eqb_spec|].
    congruence.
Qed.

Lemma cleaning_append_all A n (f : A -> string) (xs : list A) :
  forall lines cm,
    Dict.get String.eqb n cm = Some lines ->
    entry_set n (lines ++ map f xs) cm
      (fold_left (fun cm x => cleaning_append n (f x) cm) xs cm).
Proof.
  induction xs as [|x xs IH]; intros lines cm Hg; simpl.
  - rewrite app_nil_r. repeat split; trivial.
  - pose proof Hg as Hstep.
    apply cleaning_append_entry with (line := f x) in Hstep.
    eapply entry_set_trans; [exact Hstep|].
    replace (lines ++ f x :: map f xs) with ((lines ++ [f x]) ++ map f xs)
      by now rewrite <- app_assoc.
    apply IH. apply Hstep.
Qed.

Lemma add_task_lines_entry n t lines cm :
  Dict.get String.eqb n cm = Some lines ->
  entry_set n (lines ++ task_lines n t) cm (add_task_lines n cm t).
Proof.
  intros Hg. unfold add_task_lines, task_lines.
  destruct (t_assignments t) as [|a rest].
  - now apply cleaning_append_entry.
  - now apply cleaning_append_all
      with (f := assignment_line n (task_label t)).
Qed.

Lemma add_all_task_lines_entry n tasks :
  forall lines cm,
    Dict.get String.eqb n cm = Some lines ->
    entry_set n (lines ++ flat_map (task_lines n) tasks) cm
      (fold_left (add_task_lines n) tasks cm).
Proof.
  induction tasks as [|t tasks IH]; intros lines cm Hg; simpl.
  - rewrite app_nil_r. repeat split; trivial.
  - pose proof Hg as Hstep.
    apply add_task_lines_entry with (t := t) in Hstep.
    eapply entry_set_trans; [exact Hstep|].
    rewrite app_assoc. apply IH. apply Hstep.
Qed.

(** A property with tasks resets the entry of its name: what an earlier
    property of the same name had put there is gone. *)
Lemma record_tasks_get n tasks cm :
  tasks <> [] ->
  Dict.get String.eqb n (record_tasks n tasks cm)
  = Some (flat_map (task_lines n) tasks).
Proof.
  intros Hne. unfold record_tasks.
  destruct tasks as [|t tasks]; [now elim Hne|].
  change (Py.nonempty (t :: tasks)) with true. cbv iota.
  apply add_all_task_lines_entry with (lines := @nil string).
  apply DictFacts.get_set_same, String.eqb_spec.
Qed.

Lemma record_tasks_other n m tasks cm :
  m <> n ->
  Dict.get String.eqb m (record_tasks n tasks cm) = Dict.get String.eqb m cm.
Proof.
  intros Hm. unfold record_tasks.
  destruct tasks as [|t tasks]; [reflexivity|].
  change (Py.nonempty (t :: tasks)) with true. cbv iota.
  transitivity (Dict.get String.eqb m (Dict.set String.eqb n [] cm)).
  - apply (add_all_task_lines_entry n (t :: tasks)) with (lines := @nil string);
      [|exact Hm].
    apply DictFacts.get_set_same, String.eqb_spec.
  - apply DictFacts.get_set_other; [apply String.eqb_spec | congruence].
Qed.

(** The map never holds a name twice. *)
Lemma record_tasks_keys n tasks cm :
  NoDup (map fst cm) -> NoDup (map fst (record_tasks n tasks cm)).
Proof.
  intros Hnd. unfold record_tasks.
  destruct tasks as [|t tasks]; [exact Hnd|].
  change (Py.nonempty (t :: tasks)) with true. cbv iota.
  assert (Hk : map fst (fold_left (add_task_lines n) (t :: tasks)
                          (Dict.set String.eqb n [] cm))
               = map fst (Dict.set String.eqb n [] cm)).
  { apply (add_all_task_lines_entry n (t :: tasks)) with (lines := @nil string).
    apply DictFacts.get_set_same, String.eqb_spec. }
  rewrite Hk.
  destruct (Dict.get String.eqb n cm) as [lines|] eqn:E.
  - now rewrite DictFacts.keys_set_present with (v0 := lines).
  - rewrite DictFacts.keys_set_absent by exact E.
    apply (Permutation_NoDup (Permutation_cons_append (map fst cm) n)).
    constructor; [|exact Hnd].
    now apply DictFacts.get_none_keys with (eqb := String.eqb) in E;
      [|apply String.eqb_spec].
Qed.

(** The loop is the fold of [record_tasks] over what it fetched. *)
Lemma build_cleaning_map_fetched fuel items :
  forall cm st cm' st',
    build_cleaning_map src today fuel items cm st = Some (cm', st') ->
    exists fetched,
      Forall2 (fetched_for src today fuel) items fetched
      /\ cm' = record_all fetched cm.
Proof.
  induction items as [|[prop_id info] items IH]; intros cm st cm' st'; simpl.
  - intros [= <- <-]. exists []. split; [constructor | reflexivity].
  - unfold bind at 1.
    destruct (fetch_tasks src prop_id today fuel st) as [[tasks s1]|] eqn:E;
      [|discriminate].
    intros Hrun. destruct (IH _ _ _ _ Hrun) as (fetched & Hf & ->).
    exists ((name info, tasks) :: fetched). split; [|reflexivity].
    constructor; [|exact Hf]. split; [reflexivity|]. now exists st, s1.
Qed.

Lemma record_all_keys fetched :
  forall cm, NoDup (map fst cm) -> NoDup (map fst (record_all fetched cm)).
Proof.
  induction fetched as [|[n tasks] fetched IH]; intros cm Hnd; simpl;
    [exact Hnd|].
  apply IH. now apply record_tasks_keys.
Qed.

(** Properties without tasks, and properties of other names, leave the
    entry of [n] as it is. *)
Lemma record_all_untouched n fetched :
  (forall tasks, In (n, tasks) fetched -> tasks = []) ->
  forall cm,
    Dict.get String.eqb n (record_all fetched cm) = Dict.get String.eqb n cm.
Proof.
  induction fetched as [|[m tasks] fetched IH]; intros Hafter cm; simpl;
    [reflexivity|].
  rewrite IH by (intros ts Hts; apply Hafter; now right).
  destruct (string_dec m n) as [->|Hne].
  - now rewrite (Hafter tasks (or_introl eq_refl)).
  - apply record_tasks_other. congruence.
Qed.

(** C10. The cleaning map is keyed by the display name, not by the
    property id: it never holds a name twice, and the entry under a name
    holds the lines of the last property of that name that has housekeeping
    tasks today.  So when two properties share a name and both have tasks,
    the lines of the one iterated later replace those of the earlier one.
    The check-ins loop likewise emits at most one line for a name. *)
Theorem cleaning_map_keyed_by_name
    fuel items cleaning_map st cleaning_map' st' :
  build_cleaning_map src today fuel items cleaning_map st
  = Some (cleaning_map', st') ->
  (exists fetched : list (string * list task),
      Forall2
        (fun item entry =>
           fst entry = name (snd item)
           /\ exists s s',
                fetch_tasks src (fst item) today fuel s
                = Some (snd entry, s'))
        items fetched
      /\ (NoDup (map fst cleaning_map) -> NoDup (map fst cleaning_map'))
      /\ forall before n earlier between later after,
           fetched
           = before ++ (n, earlier) :: between ++ (n, later) :: after ->
           earlier <> [] ->
           later <> [] ->
           (forall tasks, In (n, tasks) after -> tasks = []) ->
           Dict.get String.eqb n cleaning_map'
           = Some (flat_map
                     (fun t =>
                        match t_assignments t with
                        | [] =>
                            [Py.fstr [n; " - "; task_label t;
                                      " - Not assigned"]]
                        | assignments =>
                            map (assignment_line n (task_label t)) assignments
                        end)
                     later))
  /\ (forall property_map checkins output s out s',
         checkin_loop src today ninety_days_ago property_map fuel checkins
           (empty_set string) output s = Some (out, s') ->
         exists entries : list (string * string),
           out = output
                 ++ map (fun e => Py.fstr ["- "; fst e; " - "; snd e])
                      entries
           /\ forall n, count_occ string_dec (map fst entries) n <= 1).
Proof.
  intros Hrun. split.
  - apply build_cleaning_map_fetched in Hrun.
    destruct Hrun as (fetched & Hf & ->).
    exists fetched. split; [exact Hf|]. split; [apply record_all_keys|].
    intros before n earlier between later after -> _ Hlater Hafter.
    unfold record_all.
    rewrite fold_left_app. simpl. rewrite fold_left_app. simpl.
    fold (record_all after). rewrite record_all_untouched by exact Hafter.
    now apply record_tasks_get.
  - intros property_map checkins output s out s' Hloop.
    apply checkin_loop_entries in Hloop.
    destruct Hloop as (entries & -> & Hnd & _).
    exists entries. split; [reflexivity|].
    now apply NoDup_count_occ.
Qed.

End CleaningMapFacts.

(** ** The assembled message *)

Section MessageFacts.
Variable world : Type.
Variable src : source world.
Variables today yesterday ninety_days_ago : string.

(** C3 (amended). When there are zero active properties and the source
    has no check-in and no check-out reservation for today, the check-ins,
    check-outs and pending-cleanings sections each consist of their header
    followed by their placeholder line; the yesterday's-summary section
    consists of its header alone (it has no placeholder line); and the
    combined message is assembled from these and returned. *)
Theorem zero_properties_message fuel :
  (forall st, exists st', fetch_property_map src fuel st = Some ([], st')) ->
  (forall checkin st,
      exists st',
        fetch_reservations src today checkin fuel st = Some ([], st')) ->
  forall st,
  exists st1 st2,
    today_lines src today ninety_days_ago fuel st
    = Some ([Py.fstr ["Today’s Cleaning Summary ("; today; ")"; Py.nl];
             "Check-ins today:"; "No check-ins today.";
             Py.fstr [Py.nl; "Check-outs today:"]; "No check-outs today.";
             Py.fstr [Py.nl; "Pending cleanings:"];
             "No pending cleanings today."], st1)
    /\ yesterday_lines src yesterday fuel st1
       = Some ([Py.fstr [Py.nl; "Yesterday’s Cleaning Summary (";
                         yesterday; ")"]], st2)
    /\ main src today yesterday ninety_days_ago fuel st
       = Some
           (Py.fstr
              [Py.join Py.nl
                 [Py.fstr ["Today’s Cleaning Summary ("; today; ")"; Py.nl];
                  "Check-ins today:"; "No check-ins today.";
                  Py.fstr [Py.nl; "Check-outs today:"];
                  "No check-outs today.";
                  Py.fstr [Py.nl; "Pending cleanings:"];
                  "No pending cleanings today."];
               Py.nl; Py.nl;
               Py.fstr [Py.nl; "Yesterday’s Cleaning Summary (";
                        yesterday; ")"]], st2).
Proof.
  intros Hprops Hres st.
  destruct (Hprops st) as (s1 & E1).
  destruct (Hres true s1) as (s2 & E2).
  destruct (Hres false s2) as (s3 & E3).
  destruct (Hprops s3) as (s4 & E4).
  assert (Htoday :
            today_lines src today ninety_days_ago fuel st
            = Some ([Py.fstr ["Today’s Cleaning Summary ("; today; ")"; Py.nl];
                     "Check-ins today:"; "No check-ins today.";
                     Py.fstr [Py.nl; "Check-outs today:"];
                     "No check-outs today.";
                     Py.fstr [Py.nl; "Pending cleanings:"];
                     "No pending cleanings today."], s3)).
  { unfold today_lines, checkins_section, bind, ret.
    rewrite E1. cbv beta iota. rewrite E2. cbv beta iota.
    change (Py.nonempty (@nil reservation)) with false. cbv beta iota.
    rewrite E3. reflexivity. }
  assert (Hyesterday :
            yesterday_lines src yesterday fuel s3
            = Some ([Py.fstr [Py.nl; "Yesterday’s Cleaning Summary (";
                              yesterday; ")"]], s4)).
  { unfold yesterday_lines, bind. rewrite E4. reflexivity. }
  exists s3, s4. split; [exact Htoday|]. split; [exact Hyesterday|].
  unfold main, bind at 1. rewrite Htoday.
  unfold fetch_yesterday_cleanings, bind. rewrite Hyesterday. reflexivity.
Qed.

End MessageFacts.

(** * Runs on fixed data *)

(** ** The cleaning status *)



Lemma status_ready_run :
  fetch_window (static_source one_villa) the_day (Some 7%Z) the_sentinel
    3 1 [] start
  = Some ([departure_clean; linen_change],
          after_window (Some 7%Z) the_sentinel)
  /\ fetch_details (static_source one_villa) [departure_clean; linen_change]
       [] (after_window (Some 7%Z) the_sentinel)
     = Some ([departure_clean; linen_change], after_details)
  /\ exists label cleaner finished_at,
       get_checkin_cleaning_status (static_source one_villa) the_day
         (Some 7%Z) the_sentinel 3 start
       = Some (Py.fstr ["Ready - "; label; " - Cleaned by "; cleaner;
                        " - "; substring 0 10 finished_at], after_details).
Proof.
  split; [reflexivity|]. split; [reflexivity|].
  destruct (@status_ready_from_latest_completed unit (static_source one_villa)
              the_day (Some 7%Z) the_sentinel 3 start
              [departure_clean; linen_change]
              (after_window (Some 7%Z) the_sentinel)
              [departure_clean; linen_change] after_details
              eq_refl eq_refl
              (ex_intro _ departure_clean (conj (or_introl eq_refl) eq_refl)))
    as (last_task & finished_at & label & cleaner & H).
  exists label, cleaner, finished_at. apply H.
Defined.

(** The first assignment exists and its name is the empty string; the
    status shows ["Unknown cleaner"], not that name. *)
Lemma cleaner_name_falls_back :
  (exists a rest,
      t_assignments nameless_clean = a :: rest /\ a_name a = Some "")
  /\ (exists st',
         get_checkin_cleaning_status (static_source nameless) the_day
           (Some 7%Z) the_sentinel 3 start
         = Some ("Ready - Departure clean - Cleaned by Unknown cleaner - 2024-05-01",
                 st'))
  /\ (forall st',
         get_checkin_cleaning_status (static_source nameless) the_day
           (Some 7%Z) the_sentinel 3 start
         <> Some (Py.fstr ["Ready - "; "Departure clean"; " - Cleaned by ";
                           ""; " - "; "2024-05-01"], st')).
Proof.
  split; [now eexists; eexists|]. split; [eexists; vm_compute; reflexivity|].
  intros st'. vm_compute. discriminate.
Defined.

Lemma tie_depends_on_order :
  Permutation [morning_clean; window_wash] [window_wash; morning_clean]
  /\ verdict_of_details [morning_clean; window_wash]
     = "Ready - Morning clean - Cleaned by Anna - 2024-05-01"
  /\ verdict_of_details [window_wash; morning_clean]
     = "Ready - Window wash - Cleaned by Bob - 2024-05-01"
  /\ verdict_of_details [morning_clean; window_wash]
     <> verdict_of_details [window_wash; morning_clean].
Proof.
  split; [apply perm_swap|]. split; [reflexivity|]. split; [reflexivity|].
  vm_compute. discriminate.
Defined.

Lemma verdict_order_independent_run :
  Permutation [linen_change; departure_clean; boiler_repair]
    [departure_clean; boiler_repair; linen_change]
  /\ verdict_of_details [linen_change; departure_clean; boiler_repair]
     = verdict_of_details [departure_clean; boiler_repair; linen_change].
Proof.
  assert (P : Permutation [linen_change; departure_clean; boiler_repair]
                [departure_clean; boiler_repair; linen_change])
    by apply (Permutation_cons_append [departure_clean; boiler_repair]).
  split; [exact P|].
  apply (verdict_order_independent P).
  intros t1 t2 H1 H2 C1 C2 E.
  simpl in H1, H2.
  destruct H1 as [<-|[<-|[<-|[]]]]; destruct H2 as [<-|[<-|[<-|[]]]];
    (reflexivity || discriminate).
Defined.

(** ** The message without active properties *)

Lemma zero_properties_run :
  exists st1 st2,
    today_lines (static_source no_data) the_day the_sentinel 1 start
    = Some ([Py.fstr ["Today’s Cleaning Summary ("; the_day; ")"; Py.nl];
             "Check-ins today:"; "No check-ins today.";
             Py.fstr [Py.nl; "Check-outs today:"]; "No check-outs today.";
             Py.fstr [Py.nl; "Pending cleanings:"];
             "No pending cleanings today."], st1)
    /\ yesterday_lines (static_source no_data) the_day_before 1 st1
       = Some ([Py.fstr [Py.nl; "Yesterday’s Cleaning Summary (";
                         the_day_before; ")"]], st2)
    /\ main (static_source no_data) the_day the_day_before the_sentinel 1
         start
       = Some
           (Py.fstr
              [Py.join Py.nl
                 [Py.fstr ["Today’s Cleaning Summary ("; the_day; ")"; Py.nl];
                  "Check-ins today:"; "No check-ins today.";
                  Py.fstr [Py.nl; "Check-outs today:"];
                  "No check-outs today.";
                  Py.fstr [Py.nl; "Pending cleanings:"];
                  "No pending cleanings today."];
               Py.nl; Py.nl;
               Py.fstr [Py.nl; "Yesterday’s Cleaning Summary (";
                        the_day_before; ")"]], st2).
Proof.
  apply zero_properties_message.
  - intros st. eexists. cbv. reflexivity.
  - intros checkin st. eexists. destruct checkin; cbv; reflexivity.
Defined.

(** Without active properties the yesterday's summary is its header alone,
    and reservations of inactive properties leave the check-ins and
    check-outs sections with their header alone. *)
Lemma sections_without_placeholder :
  (exists st',
      fetch_property_map (static_source no_data) 1 start = Some ([], st'))
  /\ (exists st',
         yesterday_lines (static_source no_data) the_day_before 1 start
         = Some ([Py.fstr [Py.nl; "Yesterday’s Cleaning Summary (";
                           the_day_before; ")"]], st'))
  /\ ~ (exists st' placeholder rest,
           yesterday_lines (static_source no_data) the_day_before 1 start
           = Some (Py.fstr [Py.nl; "Yesterday’s Cleaning Summary (";
                            the_day_before; ")"]
                   :: placeholder :: rest, st'))
  /\ (exists st',
         fetch_property_map (static_source closed_villa) 1 start
         = Some ([], st'))
  /\ (exists st',
         today_lines (static_source closed_villa) the_day the_sentinel 1 start
         = Some ([Py.fstr ["Today’s Cleaning Summary ("; the_day; ")"; Py.nl];
                  "Check-ins today:";
                  Py.fstr [Py.nl; "Check-outs today:"];
                  Py.fstr [Py.nl; "Pending cleanings:"];
                  "No pending cleanings today."], st')).
Proof.
  split; [eexists; vm_compute; reflexivity|]. split; [eexists; vm_compute; reflexivity|].
  split; [|split; eexists; vm_compute; reflexivity].
  intros (st' & placeholder & rest & H). vm_compute in H. discriminate H.
Defined.

(** ** The page loops *)

(** One full page of 100 records: [ceil(100 / 100)] is 1, and the loop
    issues 2 requests. *)
Lemma full_page_costs_one_more_request :
  (forall page w,
      fst (property_page (static_source hundred_properties) limit page w)
      = Some (paged (repeat villa 100) limit page))
  /\ (List.length (repeat villa 100) + limit - 1) / limit = 1
  /\ (exists property_map,
         fetch_property_map (static_source hundred_properties) 3 start
         = Some (property_map,
                 {| st_world := tt;
                    st_log := [PropertyPage 100 1; PropertyPage 100 2] |}))
  /\ ~ (exists property_map st',
           fetch_property_map (static_source hundred_properties) 3 start
           = Some (property_map, st')
           /\ List.length (st_log st')
              <= (List.length (repeat villa 100) + limit - 1) / limit).
Proof.
  split; [reflexivity|]. split; [reflexivity|].
  split; [eexists; vm_compute; reflexivity|].
  intros (property_map & st' & H & Hlen).
  vm_compute in H. injection H as _ <-. vm_compute in Hlen. lia.
Defined.

Lemma fetch_loops_run :
  (exists st',
      fetch_property_map (static_source hundred_properties) 3 start
      = Some (fold_left add_active (repeat villa 100) [], st')
      /\ st_log st'
         = st_log start
           ++ map (fun p => PropertyPage limit (Z.of_nat p))
                (seq 1 (List.length (repeat villa 100) / limit + 1)))
  /\ (exists st',
         fetch_reservations (static_source one_villa) the_day true 1 start
         = Some ([stay; stay], st')
         /\ st_log st'
            = st_log start
              ++ map (fun p => ReservationPage true the_day limit (Z.of_nat p))
                   (seq 1 (List.length [stay; stay] / limit + 1)))
  /\ (exists st',
         fetch_tasks (static_source one_villa) (Some 7%Z) the_day 1 start
         = Some (filter is_housekeeping
                   [departure_clean; boiler_repair; linen_change], st')
         /\ st_log st'
            = st_log start
              ++ map (fun p => TaskPage (Some 7%Z) the_day limit (Z.of_nat p))
                   (seq 1 (List.length
                             [departure_clean; boiler_repair; linen_change]
                           / limit + 1)))
  /\ (exists st',
         fetch_property_map second_page_refused 2 start
         = Some ([(Some 7%Z, {| name := "Villa" |})], st')
         /\ st_log st' = [PropertyPage 100 1; PropertyPage 100 2])
  /\ (exists st',
         fetch_reservations second_page_refused the_day false 2 start
         = Some (repeat stay 100, st')
         /\ st_log st'
            = [ReservationPage false the_day 100 1;
               ReservationPage false the_day 100 2])
  /\ (exists st',
         fetch_tasks second_page_refused (Some 7%Z) the_day 2 start
         = Some (repeat linen_change 99, st')
         /\ st_log st'
            = [TaskPage (Some 7%Z) the_day 100 1;
               TaskPage (Some 7%Z) the_day 100 2]).
Proof.
  pose proof (fetch_loops_request_count (static_source hundred_properties))
    as (Hp & _).
  pose proof (fetch_loops_request_count (static_source one_villa))
    as (_ & Hr & Ht & _).
  pose proof (fetch_loops_request_count second_page_refused)
    as (_ & _ & _ & Hpf & Hrf & Htf).
  assert (Hone : forall p, p < 1 -> p = 0) by lia.
  repeat apply conj.
  - apply Hp; [reflexivity | vm_compute; lia].
  - apply Hr; [reflexivity | vm_compute; lia].
  - apply Ht; [reflexivity | vm_compute; lia].
  - apply (Hpf (repeat villa 100) 1 2 start).
    + intros p w Hp1. now rewrite (Hone p Hp1).
    + vm_compute. lia.
    + reflexivity.
    + lia.
  - apply (Hrf the_day false (repeat stay 100) 1 2 start).
    + intros p w Hp1. now rewrite (Hone p Hp1).
    + vm_compute. lia.
    + reflexivity.
    + lia.
  - apply (Htf (Some 7%Z) the_day (boiler_repair :: repeat linen_change 99)
             1 2 start).
    + intros p w Hp1. now rewrite (Hone p Hp1).
    + vm_compute. lia.
    + reflexivity.
    + lia.
Defined.

(** ** The department filter *)

Lemma housekeeping_records_run :
  (fetch_tasks (static_source one_villa) (Some 7%Z) the_day 1 start
   = Some ([departure_clean; linen_change],
           {| st_world := tt;
              st_log := [TaskPage (Some 7%Z) the_day 100 1] |})
   /\ forall t, In t [departure_clean; linen_change] ->
                t_type_department t = Some "housekeeping")
  /\ (get_checkin_cleaning_status (static_source one_villa) the_day
        (Some 7%Z) the_sentinel 3 start
      = Some ("Ready - Departure clean - Cleaned by Anna - 2024-05-01",
              after_details)
      /\ exists detailed,
           fetch_details (static_source one_villa)
             [departure_clean; linen_change] []
             (after_window (Some 7%Z) the_sentinel)
           = Some (detailed, after_details)
           /\ "Ready - Departure clean - Cleaned by Anna - 2024-05-01"
              = verdict_of_details detailed
           /\ asks_for_housekeeping
                (TaskWindowPage (Some 7%Z) the_sentinel the_day 1)
           /\ forall d, In d detailed ->
                        t_type_department d = Some "housekeeping").
Proof.
  destruct (housekeeping_records_only (static_source one_villa) the_day)
    as [Htasks Hstatus].
  split; (split; [reflexivity|]).
  - apply (Htasks (Some 7%Z) the_day 1 start _ _ eq_refl).
  - destruct (Hstatus (Some 7%Z) the_sentinel 3 start
                "Ready - Departure clean - Cleaned by Anna - 2024-05-01"
                after_details eq_refl)
      as (all_tasks & st1 & detailed & Hw & Hd & Hv & (pages & Hlog & Hurl)
          & _ & Hdept).
    injection Hw as <- <-. exists detailed.
    split; [exact Hd|]. split; [exact Hv|]. split.
    + apply Hurl. simpl in Hlog.
      destruct pages as [|page pages]; [discriminate|].
      injection Hlog as <- _. now left.
    + apply Hdept.
      * intros page w data [= <-]. simpl.
        intros t [<-|[<-|[]]]; reflexivity.
      * intros t w d [<-|[<-|[]]] [= <-]; reflexivity.
Defined.

Lemma window_trusts_the_source :
  t_type_department boiler_repair <> Some "housekeeping"
  /\ fetch_window (static_source unfiltered_window) the_day (Some 7%Z)
       the_sentinel 3 1 [] start
     = Some ([boiler_repair], after_window (Some 7%Z) the_sentinel)
  /\ exists st',
       get_checkin_cleaning_status (static_source unfiltered_window) the_day
         (Some 7%Z) the_sentinel 3 start
       = Some ("Ready - Boiler repair - Cleaned by Unknown cleaner - 2024-05-02",
               st').
Proof.
  split; [discriminate|]. split; [reflexivity|].
  eexists; vm_compute; reflexivity.
Defined.

(** ** The report sections *)

Lemma pending_excludes_checkouts_run :
  (forall n,
      set_In n (snd (checkouts_section beach_map todays_cleanings [stay] []))
      <-> has_reservation beach_map [stay] n)
  /\ pending_section todays_cleanings
       (snd (checkouts_section beach_map todays_cleanings [stay] [])) []
     = [Py.fstr [Py.nl; "Pending cleanings:"];
        "Beach hut - Linen change - Bob - Unknown"].
Proof.
  destruct (pending_excludes_checkouts beach_map todays_cleanings [stay] [] [])
    as (Hset & _ & Hlines).
  split; [exact Hset|]. rewrite Hlines. reflexivity.
Defined.

Lemma checkins_one_line_run :
  In stay [stay; stay]
  /\ Dict.get ident_eqb (r_property_id stay) villa_map
     = Some {| name := "Villa" |}
  /\ exists st' entries,
       checkin_loop (static_source one_villa) the_day the_sentinel villa_map
         3 [stay; stay] (empty_set string) [] start
       = Some (map (fun e => Py.fstr ["- "; fst e; " - "; snd e]) entries, st')
       /\ count_occ string_dec (map fst entries) "Villa" = 1.
Proof.
  split; [now left|]. split; [reflexivity|].
  assert (Hrun : exists out st',
             checkin_loop (static_source one_villa) the_day the_sentinel
               villa_map 3 [stay; stay] (empty_set string) [] start
             = Some (out, st'))
    by (do 2 eexists; vm_compute; reflexivity).
  destruct Hrun as (out & st' & Hrun).
  destruct (@checkins_one_line_per_property unit (static_source one_villa)
              the_day the_sentinel villa_map 3 [stay; stay] [] start out st'
              stay {| name := "Villa" |} (or_introl eq_refl) eq_refl Hrun)
    as (entries & Hout & Hcount & _).
  exists st', entries. split; [|exact Hcount].
  rewrite Hrun, Hout. reflexivity.
Defined.

(** Two check-in reservations for a property that is not active: the
    property map does not hold it, and the loop emits no line. *)
Lemma inactive_property_gets_no_line :
  (exists st',
      fetch_property_map (static_source closed_villa) 1 start
      = Some ([], st'))
  /\ (exists st',
         fetch_reservations (static_source closed_villa) the_day true 1 start
         = Some ([stay; stay], st'))
  /\ checkin_loop (static_source closed_villa) the_day the_sentinel [] 3
       [stay; stay] (empty_set string) [] start
     = Some ([], start).
Proof.
  split; [eexists; vm_compute; reflexivity|].
  split; [eexists; vm_compute; reflexivity|]. reflexivity.
Defined.

Lemma yesterday_lines_run :
  fetch_tasks (static_source one_villa) (Some 7%Z) the_day_before 1 start
  = Some ([departure_clean; linen_change],
          {| st_world := tt;
             st_log := [TaskPage (Some 7%Z) the_day_before 100 1] |})
  /\ yesterday_loop (static_source one_villa) the_day_before 1 villa_map
       [] start
     = Some (["- Villa - Departure clean - Anna - Completed";
              "- Villa - Departure clean - Bob - Completed";
              "- Villa - Linen change - Bob - Not completed"],
             {| st_world := tt;
                st_log := [TaskPage (Some 7%Z) the_day_before 100 1] |}).
Proof.
  split; [reflexivity|].
  destruct (@yesterday_one_line_per_assignment unit (static_source one_villa)
              the_day_before 1 (Some 7%Z) {| name := "Villa" |} [] [] start
              [departure_clean; linen_change]
              {| st_world := tt;
                 st_log := [TaskPage (Some 7%Z) the_day_before 100 1] |}
              eq_refl) as [Hstep _].
  exact (eq_trans Hstep eq_refl).
Defined.

Lemma shared_name_run :
  build_cleaning_map (static_source two_villas) the_day 1
    [(Some 7%Z, {| name := "Villa" |}); (Some 8%Z, {| name := "Villa" |})]
    [] start
  = Some ([("Villa", ["Villa - Linen change - Bob - Unknown"])],
          {| st_world := tt;
             st_log := [TaskPage (Some 7%Z) the_day 100 1;
                        TaskPage (Some 8%Z) the_day 100 1] |})
  /\ NoDup (map fst [("Villa", ["Villa - Linen change - Bob - Unknown"])])
  /\ exists fetched : list (string * list task),
       Forall2
         (fun item entry =>
            fst entry = name (snd item)
            /\ exists s s',
                 fetch_tasks (static_source two_villas) (fst item) the_day 1 s
                 = Some (snd entry, s'))
         [(Some 7%Z, {| name := "Villa" |}); (Some 8%Z, {| name := "Villa" |})]
         fetched.
Proof.
  split; [reflexivity|].
  destruct (@cleaning_map_keyed_by_name unit (static_source two_villas)
              the_day the_sentinel 1
              [(Some 7%Z, {| name := "Villa" |});
               (Some 8%Z, {| name := "Villa" |})]
              [] start
              [("Villa", ["Villa - Linen change - Bob - Unknown"])]
              {| st_world := tt;
                 st_log := [TaskPage (Some 7%Z) the_day 100 1;
                            TaskPage (Some 8%Z) the_day 100 1] |}
              eq_refl)
    as [(fetched & Hfetched & Hkeys & _) _].
  split; [apply Hkeys; constructor|].
  exists fetched. exact Hfetched.
Defined.


(** * Further properties *)

(** ** The access token *)

Module TokenFacts.
Import Token.

Lemma load_saved now token now' :
  load_token now' (save_token now token)
  = Returned (if (now' <? now + hours_23)%Z then Some token else None).
Proof.
  unfold load_token, save_token. rewrite Z.gtb_ltb.
  now destruct (now' <? now + hours_23)%Z.
Qed.

(** X1. A token obtained from the authentication request is cached: when
    the cache gives no token and the request answers with a non-empty
    token, [get_breezeway_token] returns it after one request, and every
    later call made less than 23 hours after the save returns the same
    token from the cache, with no request and the file untouched; a call
    at or after that time issues a request again. *)
Theorem fresh_token_is_cached now_load now_save token st cached :
  load_token now_load (as_file st) = Returned cached ->
  Py.truthy cached = false ->
  token <> "" ->
  exists st1,
    get_breezeway_token now_load now_save (AuthJson (Some token)) st
    = (Returned (Some token), st1)
    /\ as_posts st1 = S (as_posts st)
    /\ (forall now2 now3 answer,
           (now2 < now_save + hours_23)%Z ->
           get_breezeway_token now2 now3 answer st1
           = (Returned (Some token), st1))
    /\ (forall now2 now3 answer,
           (now_save + hours_23 <= now2)%Z ->
           as_posts (snd (get_breezeway_token now2 now3 answer st1))
           = S (as_posts st1)).
Proof.
  intros Hload Hcached Htoken.
  destruct token as [|c s]; [now elim Htoken|].
  eexists. split; [|split; [|split]].
  - unfold get_breezeway_token. rewrite Hload, Hcached. reflexivity.
  - reflexivity.
  - intros now2 now3 answer Hnow. unfold get_breezeway_token. simpl as_file.
    rewrite load_saved. apply Z.ltb_lt in Hnow. now rewrite Hnow.
  - intros now2 now3 answer Hnow. unfold get_breezeway_token. simpl as_file.
    rewrite load_saved. apply Z.ltb_ge in Hnow. rewrite Hnow. simpl.
    destruct answer as [| |[[|c' s']|]]; reflexivity.
Qed.

(** X2. [get_breezeway_token] never returns an empty token: what it
    returns is a non-empty string or [None], so the [if not token] of the
    main block stops the job exactly when no token was returned. *)
Theorem returned_token_not_empty now_load now_save answer st token st' :
  get_breezeway_token now_load now_save answer st
  = (Returned (Some token), st') ->
  token <> ""
  /\ (load_token now_load (as_file st) = Returned (Some token) /\ st' = st
      \/ answer = AuthJson (Some token)
         /\ as_file st' = save_token now_save token
         /\ as_posts st' = S (as_posts st)).
Proof.
  unfold get_breezeway_token.
  destruct (load_token now_load (as_file st)) as [cached|e]; [|discriminate].
  destruct cached as [[|c s]|]; simpl.
  - destruct answer as [| |[[|c' s']|]]; intros [= <- <-] || discriminate.
    split; [discriminate|]. right. repeat split.
  - intros [= <- <-]. split; [discriminate|]. left. now split.
  - destruct answer as [| |[[|c' s']|]]; intros [= <- <-] || discriminate.
    split; [discriminate|]. right. repeat split.
Qed.


End TokenFacts.

(** ** More on the verdict *)

Section VerdictMore.

Lemma ready_line_not_dirty t : ready_line t <> "Dirty".
Proof. unfold ready_line, Py.fstr. simpl. discriminate. Qed.

Lemma ready_line_prefix t :
  exists rest, ready_line t = ("Ready - " ++ rest)%string.
Proof. unfold ready_line, Py.fstr. simpl. eexists. reflexivity. Qed.

(** X4. The verdict is ["Dirty"] exactly when no detail record has a
    non-empty [finished_at]; any other verdict starts with ["Ready - "]. *)
Theorem verdict_dirty_iff_no_completed (detailed : list task) :
  (verdict_of_details detailed = "Dirty"
   <-> forall t, In t detailed -> Py.truthy (t_finished_at t) = false)
  /\ (verdict_of_details detailed = "Dirty"
      \/ exists rest,
           verdict_of_details detailed = ("Ready - " ++ rest)%string).
Proof.
  destruct (filter is_completed detailed) as [|c cs] eqn:E.
  - pose proof (verdict_without_completed detailed E) as Hd.
    split; [|now left]. split; [|now intros _].
    intros _ t Hin.
    destruct (Py.truthy (t_finished_at t)) eqn:Ht; [|reflexivity].
    assert (Hc : In t (filter is_completed detailed))
      by (apply filter_In; now split).
    rewrite E in Hc. destruct Hc.
  - destruct (verdict_with_completed detailed) as (m & _ & Hv);
      [now rewrite E|].
    rewrite Hv. split; [|right; apply ready_line_prefix].
    split; [intros H; now apply ready_line_not_dirty in H|].
    intros Hnone. apply no_completed in Hnone. congruence.
Qed.

Lemma filter_split A (f : A -> bool) (xs : list A) :
  forall before m after,
    filter f xs = before ++ m :: after ->
    exists xs1 xs2,
      xs = xs1 ++ m :: xs2
      /\ filter f xs1 = before /\ filter f xs2 = after /\ f m = true.
Proof.
  induction xs as [|x xs IH]; intros before m after; simpl.
  - destruct before; discriminate.
  - destruct (f x) eqn:Hx.
    + destruct before as [|b before]; simpl.
      * intros [= -> Hrest]. exists [], xs. simpl. now repeat split.
      * intros [= -> Hrest].
        destruct (IH _ _ _ Hrest) as (xs1 & xs2 & -> & H1 & H2 & Hm).
        exists (b :: xs1), xs2. simpl. rewrite Hx, H1. now repeat split.
    + intros Hrest.
      destruct (IH _ _ _ Hrest) as (xs1 & xs2 & -> & H1 & H2 & Hm).
      exists (x :: xs1), xs2. simpl. rewrite Hx. now repeat split.
Qed.

(** The head of the sorted list is the first of the greatest: what comes
    before it in the list is smaller, what comes after is not greater. *)
Lemma sort_desc_first_max A (key : A -> string) (x : A) (xs : list A) :
  exists m rest before after,
    Py.sort_desc key (x :: xs) = m :: rest
    /\ x :: xs = before ++ m :: after
    /\ (forall y, In y before -> Py.gtb (key m) (key y) = true)
    /\ (forall y, In y after -> Py.gtb (key y) (key m) = false).
Proof.
  revert x. induction xs as [|x' xs IH]; intros x.
  - exists x, [], [], []. simpl. repeat split; intros y [].
  - destruct (IH x') as (m & rest & before & after & Hs & Hl & Hb & Ha).
    change (Py.sort_desc key (x :: x' :: xs))
      with (Py.insert_desc key x (Py.sort_desc key (x' :: xs))).
    rewrite Hs.
    destruct (PyFacts.insert_desc_head key x (m :: rest)) as [rest' ->].
    destruct (Py.gtb (key m) (key x)) eqn:E.
    + exists m, rest', (x :: before), after. split; [reflexivity|].
      split; [simpl; now rewrite Hl|]. split; [|exact Ha].
      intros y [<-|Hy]; [exact E | now apply Hb].
    + exists x, rest', [], (x' :: xs). split; [reflexivity|].
      split; [reflexivity|]. split; [intros y []|].
      intros y Hy. rewrite Hl in Hy. apply in_app_or in Hy.
      apply PyFacts.not_gtb_trans with (key m); [|exact E].
      destruct Hy as [Hy|[<-|Hy]].
      * now apply PyFacts.gtb_asym, Hb.
      * apply PyFacts.gtb_irrefl.
      * now apply Ha.
Qed.

(** X5. Ties go to the record gathered first: the ["Ready"] verdict is
    built from the first detail record, in the order the details were
    gathered, whose [finished_at] is the largest.  Every completed record
    before it has a strictly smaller [finished_at], every completed record
    after it one that is not larger. *)
Theorem verdict_from_first_latest (detailed : list task) :
  (exists t, In t detailed /\ Py.truthy (t_finished_at t) = true) ->
  exists before last_task after finished_at,
    detailed = before ++ last_task :: after
    /\ t_finished_at last_task = Some finished_at
    /\ finished_at <> ""
    /\ (forall t fa, In t before -> t_finished_at t = Some fa -> fa <> "" ->
          String.ltb fa finished_at = true)
    /\ (forall t fa, In t after -> t_finished_at t = Some fa -> fa <> "" ->
          String.leb fa finished_at = true)
    /\ verdict_of_details detailed = ready_line last_task.
Proof.
  intros (t0 & Hin0 & Hfin0).
  destruct (filter is_completed detailed) as [|c cs] eqn:E.
  { assert (H : In t0 (filter is_completed detailed))
      by (apply filter_In; now split).
    rewrite E in H. destruct H. }
  destruct (sort_desc_first_max finished_key c cs)
    as (m & rest & before & after & Hs & Hl & Hb & Ha).
  assert (Hv : verdict_of_details detailed = ready_line m).
  { unfold verdict_of_details. rewrite E.
    destruct detailed as [|d detailed]; [discriminate E|].
    change (Py.nonempty (d :: detailed)) with true.
    change (Py.nonempty (c :: cs)) with true. simpl negb. cbv iota.
    now rewrite Hs. }
  rewrite Hl in E. apply filter_split in E.
  destruct E as (xs1 & xs2 & Hd & H1 & H2 & Hm).
  assert (Hkey : forall t fa, t_finished_at t = Some fa -> fa <> "" ->
                   is_completed t = true /\ finished_key t = fa).
  { intros t fa Hfa Hnz. unfold is_completed, finished_key. rewrite Hfa.
    destruct fa; [now elim Hnz | now split]. }
  pose proof (completed_key m Hm) as Hmk.
  exists xs1, m, xs2, (finished_key m).
  split; [exact Hd|]. split; [exact Hmk|]. split.
  { unfold is_completed in Hm. rewrite Hmk in Hm.
    destruct (finished_key m); discriminate. }
  split; [|split; [|exact Hv]].
  - intros t fa Hin Hfa Hnz. destruct (Hkey t fa Hfa Hnz) as [Hc <-].
    apply Hb. rewrite <- H1. apply filter_In. now split.
  - intros t fa Hin Hfa Hnz. destruct (Hkey t fa Hfa Hnz) as [Hc <-].
    apply PyFacts.not_gtb_leb, Ha. rewrite <- H2. apply filter_In. now split.
Qed.

Lemma max_str_greatest rest :
  forall first,
    In (Py.max_str first rest) (first :: rest)
    /\ forall s, In s (first :: rest) ->
                 Py.gtb s (Py.max_str first rest) = false.
Proof.
  unfold Py.max_str.
  induction rest as [|s rest IH]; intros first; simpl.
  - split; [now left|]. intros s [<-|[]]. apply PyFacts.gtb_irrefl.
  - destruct (IH (if Py.gtb s first then s else first)) as [Hin Hmax].
    split.
    + destruct Hin as [Hin|Hin]; [|now right; right].
      destruct (Py.gtb s first); rewrite <- Hin; auto.
    + intros x Hx. destruct (Py.gtb s first) eqn:E.
      * destruct Hx as [Hx|[Hx|Hx]]; subst.
        -- apply PyFacts.not_gtb_trans with s;
             [now apply PyFacts.gtb_asym | apply Hmax; now left].
        -- apply Hmax. now left.
        -- apply Hmax. now right.
      * destruct Hx as [Hx|[Hx|Hx]]; subst.
        -- apply Hmax. now left.
        -- apply PyFacts.not_gtb_trans with first;
             [exact E | apply Hmax; now left].
        -- apply Hmax. now right.
Qed.

(** [last_checkout_of] is a check-out date of the list such that none is
    greater, or the date ninety days ago when the list is empty. *)
Lemma last_checkout_of_latest (ninety_days_ago : string)
    (all_checkouts : list reservation) :
  (all_checkouts = [] ->
   last_checkout_of ninety_days_ago all_checkouts = ninety_days_ago)
  /\ (all_checkouts <> [] ->
      In (last_checkout_of ninety_days_ago all_checkouts)
        (map r_checkout_date all_checkouts)
      /\ forall c, In c all_checkouts ->
           String.leb (r_checkout_date c)
             (last_checkout_of ninety_days_ago all_checkouts) = true).
Proof.
  split; [now intros ->|].
  intros Hne. unfold last_checkout_of.
  destruct all_checkouts as [|c0 cs]; [now elim Hne|].
  change (map r_checkout_date (c0 :: cs))
    with (r_checkout_date c0 :: map r_checkout_date cs).
  destruct (max_str_greatest (map r_checkout_date cs) (r_checkout_date c0))
    as [Hin Hmax].
  split; [exact Hin|].
  intros c Hc. apply PyFacts.not_gtb_leb, Hmax.
  change (In (r_checkout_date c) (map r_checkout_date (c0 :: cs))).
  now apply in_map.
Qed.

End VerdictMore.

(** ** More on the fetchers *)

Section FetchMore.
Variable world : Type.
Variable src : source world.

Lemma ident_eqb_spec a b : reflect (a = b) (ident_eqb a b).
Proof.
  destruct a as [x|], b as [y|]; simpl; try (constructor; congruence).
  destruct (Z.eqb_spec x y); constructor; congruence.
Qed.

(** What holds of the accumulator and is kept by every page the source
    answers with holds of the result. *)
Lemma page_loop_invariant_src R A (get : Z -> M world (option (list R)))
    (absorb : A -> list R -> A) (P : A -> Prop) :
  (forall page st results st' acc,
      get page st = Some (Some results, st') ->
      P acc -> P (absorb acc results)) ->
  forall fuel page acc st acc' st',
    P acc ->
    page_loop get absorb fuel page acc st = Some (acc', st') ->
    P acc'.
Proof.
  intros Hstep. induction fuel as [|fuel IH]; intros page acc st acc' st' Hacc;
    simpl; [discriminate|].
  unfold bind. destruct (get page st) as [[[results|] st1]|] eqn:E;
    [| |discriminate].
  - destruct (List.length results <? limit)%nat.
    + unfold ret. intros [= <- <-]. now apply Hstep with page st st1.
    + apply IH. now apply Hstep with page st st1.
  - unfold ret. now intros [= <- <-].
Qed.

Lemma dict_set_in K V (eqb : K -> K -> bool)
    (eqb_spec : forall a b, reflect (a = b) (eqb a b))
    (k : K) (v : V) (d : Dict.t K V) :
  forall k0 v0,
    In (k0, v0) (Dict.set eqb k v d) ->
    In (k0, v0) d \/ (k0 = k /\ v0 = v).
Proof.
  induction d as [|[k' v'] d IH]; intros k0 v0; simpl.
  - intros [[= <- <-]|[]]. now right.
  - destruct (eqb_spec k k') as [->|Hne]; simpl.
    + intros [[= <- <-]|H]; [now right | left; now right].
    + intros [H|H]; [left; now left|].
      destruct (IH _ _ H) as [H'|H']; [left; now right | now right].
Qed.

Lemma dict_set_keys_nodup K V (eqb : K -> K -> bool)
    (eqb_spec : forall a b, reflect (a = b) (eqb a b))
    (k : K) (v : V) (d : Dict.t K V) :
  NoDup (map fst d) -> NoDup (map fst (Dict.set eqb k v d)).
Proof.
  intros Hnd. destruct (Dict.get eqb k d) as [v0|] eqn:E.
  - now rewrite DictFacts.keys_set_present with (v0 := v0).
  - rewrite DictFacts.keys_set_absent by exact E.
    apply (Permutation_NoDup (Permutation_cons_append (map fst d) k)).
    constructor; [|exact Hnd].
    now apply DictFacts.get_none_keys with (eqb := eqb) in E.
Qed.

Lemma add_active_entries (from_source : property -> Prop) results :
  (forall prop, In prop results -> from_source prop) ->
  forall pm,
    (NoDup (map fst pm)
     /\ forall id info, In (id, info) pm -> stored_for from_source id info) ->
    NoDup (map fst (fold_left add_active results pm))
    /\ forall id info,
         In (id, info) (fold_left add_active results pm) ->
         stored_for from_source id info.
Proof.
  induction results as [|prop results IH]; intros Hsrc pm Hpm; simpl;
    [exact Hpm|].
  apply IH; [intros q Hq; apply Hsrc; now right|].
  destruct Hpm as [Hnd Hall]. unfold add_active.
  destruct (Py.eq_lit (p_status prop) "active") eqn:Hact; [|now split].
  split; [now apply dict_set_keys_nodup; [apply ident_eqb_spec|]|].
  intros id info Hin.
  apply dict_set_in in Hin; [|apply ident_eqb_spec].
  destruct Hin as [Hin|[-> ->]]; [now apply Hall|].
  exists prop. split; [apply Hsrc; now left|].
  split; [|split; reflexivity].
  unfold Py.eq_lit in Hact. destruct (p_status prop) as [s|]; [|discriminate].
  apply String.eqb_eq in Hact. now subst.
Qed.

(** X7. The property map holds active properties only, each id once: every
    entry comes from a record with [status == "active"] that the source
    returned in some page, under that record's id, with that record's name
    or ["Unnamed Property"] when the name is absent or empty. *)
Theorem property_map_only_active fuel st property_map st' :
  fetch_property_map src fuel st = Some (property_map, st') ->
  NoDup (map fst property_map)
  /\ forall id info,
       In (id, info) property_map ->
       exists prop,
         (exists page w results,
             fst (property_page src limit page w) = Some results
             /\ In prop results)
         /\ p_status prop = Some "active"
         /\ p_id prop = id
         /\ name info = Py.or_str (p_name prop) "Unnamed Property".
Proof.
  unfold fetch_property_map. intros Hrun.
  pose (from_source := fun prop =>
          exists page w results,
            fst (property_page src limit page w) = Some results
            /\ In prop results).
  apply page_loop_invariant_src
    with (P := fun pm => NoDup (map fst pm)
                         /\ forall id info, In (id, info) pm ->
                                            stored_for from_source id info)
    in Hrun.
  - exact Hrun.
  - intros page st0 results st1 acc Hget Hacc.
    apply add_active_entries; [|exact Hacc].
    intros prop Hprop. exists page, (st_world st0), results.
    split; [|exact Hprop].
    unfold get_property_page, http_get in Hget.
    destruct (property_page src limit page (st_world st0)) as [answer w].
    simpl. congruence.
  - split; [constructor | intros id info []].
Qed.

Lemma add_active_other id results :
  (forall q, In q results -> Py.eq_lit (p_status q) "active" = true ->
             p_id q <> id) ->
  forall pm,
    Dict.get ident_eqb id (fold_left add_active results pm)
    = Dict.get ident_eqb id pm.
Proof.
  induction results as [|q results IH]; intros Hother pm; simpl;
    [reflexivity|].
  rewrite IH by (intros q' Hq'; apply Hother; now right).
  unfold add_active.
  destruct (Py.eq_lit (p_status q) "active") eqn:Hact; [|reflexivity].
  apply DictFacts.get_set_other; [apply ident_eqb_spec|].
  apply Hother; [now left | exact Hact].
Qed.

(** X8. When the source serves the same id more than once, the last active
    record decides the name: with a source that holds [records], the
    property map gives the id of an active record the name of the last
    active record with that id, and gives nothing for an id that no active
    record has. *)
Theorem property_map_last_record_wins
    (records before after : list property) (prop : property) fuel st :
  (forall page w,
      fst (property_page src limit page w) = Some (paged records limit page)) ->
  List.length records / limit < fuel ->
  records = before ++ prop :: after ->
  p_status prop = Some "active" ->
  (forall q, In q after -> p_status q = Some "active" ->
             p_id q <> p_id prop) ->
  exists property_map st',
    fetch_property_map src fuel st = Some (property_map, st')
    /\ Dict.get ident_eqb (p_id prop) property_map
       = Some {| name := Py.or_str (p_name prop) "Unnamed Property" |}
    /\ forall id,
         (forall q, In q records -> p_status q = Some "active" ->
                    p_id q <> id) ->
         Dict.get ident_eqb id property_map = None.
Proof.
  intros Hsrc Hfuel Hrec Hact Hafter.
  assert (Hlit : forall q, Py.eq_lit (p_status q) "active" = true ->
                           p_status q = Some "active").
  { intros q. unfold Py.eq_lit. destruct (p_status q) as [s|]; [|discriminate].
    intros H. apply String.eqb_eq in H. now subst. }
  assert (Hget : forall page st0, exists st1,
             get_property_page src page st0
             = Some (Some (paged records limit page), st1)
             /\ st_log st1 = st_log st0 ++ [PropertyPage limit page])
    by (intros page st0; now apply http_get_served).
  assert (Habs : forall (acc : property_map_t) xs ys,
             fold_left add_active ys (fold_left add_active xs acc)
             = fold_left add_active (xs ++ ys) acc)
    by (intros; symmetry; apply fold_left_app).
  destruct (page_loop_all (get_property_page src)
              (fun property_map results =>
                 fold_left add_active results property_map)
              records (PropertyPage limit) Hget Habs [] st Hfuel)
    as (st' & Hrun & _).
  exists (fold_left add_active records []), st'.
  split; [exact Hrun|]. split.
  - rewrite Hrec, fold_left_app. simpl.
    rewrite add_active_other by (intros q Hq Hq'; apply Hafter; auto).
    unfold add_active. rewrite Hact. simpl.
    apply DictFacts.get_set_same, ident_eqb_spec.
  - intros id Hnone. now rewrite add_active_other by (intros; auto).
Qed.

(** X9. The detail step issues one request per task that has an id, in the
    order of the tasks, and none for a task whose id is absent or zero.  A
    failed request drops that task only: with a source that answers the
    detail of an id with [detail id], the records gathered are the
    successful answers, in order. *)
Theorem fetch_details_requests (all_tasks detailed_tasks : list task) st :
  exists detailed st',
    fetch_details src all_tasks detailed_tasks st = Some (detailed, st')
    /\ st_log st'
       = st_log st
         ++ map TaskDetail (filter ident_truthy (map t_id all_tasks))
    /\ forall detail : ident -> option task,
         (forall id w, fst (task_detail src id w) = detail id) ->
         detailed
         = detailed_tasks
           ++ flat_map
                (fun t =>
                   if ident_truthy (t_id t) then
                     match detail (t_id t) with
                     | Some d => [d]
                     | None => []
                     end
                   else [])
                all_tasks.
Proof.
  revert detailed_tasks st.
  induction all_tasks as [|t rest IH]; intros acc st; simpl.
  - exists acc, st. split; [reflexivity|].
    split; [now rewrite app_nil_r | intros; now rewrite app_nil_r].
  - destruct (ident_truthy (t_id t)) eqn:Hid; simpl.
    + unfold bind.
      destruct (http_get_answer (TaskDetail (t_id t))
                  (task_detail src (t_id t)) st) as (st1 & -> & Hlog).
      destruct (fst (task_detail src (t_id t) (st_world st)))
        as [d|] eqn:Hd.
      * destruct (IH (acc ++ [d]) st1) as (detailed & st' & -> & Hlog' & Hres).
        exists detailed, st'. split; [reflexivity|]. split.
        -- rewrite Hlog', Hlog, <- app_assoc. reflexivity.
        -- intros detail Hdetail. rewrite (Hres detail Hdetail).
           rewrite <- (Hdetail (t_id t) (st_world st)), Hd, <- app_assoc.
           reflexivity.
      * destruct (IH acc st1) as (detailed & st' & -> & Hlog' & Hres).
        exists detailed, st'. split; [reflexivity|]. split.
        -- rewrite Hlog', Hlog, <- app_assoc. reflexivity.
        -- intros detail Hdetail. rewrite (Hres detail Hdetail).
           rewrite <- (Hdetail (t_id t) (st_world st)), Hd. reflexivity.
    + destruct (IH acc st) as (detailed & st' & -> & Hlog' & Hres).
      exists detailed, st'. split; [reflexivity|]. split; [exact Hlog'|].
      exact Hres.
Qed.

Lemma fetch_details_log (all_tasks : list task) :
  forall detailed_tasks st,
    exists detailed st',
      fetch_details src all_tasks detailed_tasks st = Some (detailed, st')
      /\ st_log st'
         = st_log st
           ++ map TaskDetail (filter ident_truthy (map t_id all_tasks)).
Proof.
  induction all_tasks as [|t rest IH]; intros acc st; simpl.
  - exists acc, st. split; [reflexivity | now rewrite app_nil_r].
  - destruct (ident_truthy (t_id t)); simpl; [|apply IH].
    unfold bind.
    destruct (http_get_answer (TaskDetail (t_id t))
                (task_detail src (t_id t)) st) as (st1 & -> & Hlog).
    destruct (fst (task_detail src (t_id t) (st_world st))) as [d|];
      [destruct (IH (acc ++ [d]) st1) as (detailed & st' & -> & Hlog')
      |destruct (IH acc st1) as (detailed & st' & -> & Hlog')];
      exists detailed, st'; (split; [reflexivity|]);
      rewrite Hlog', Hlog, <- app_assoc; reflexivity.
Qed.

(** X10. The requests of one status are the pages of the task window
    followed by one detail request per task of the window that has an id,
    in the order of the window; an empty window costs no detail
    request. *)
Theorem status_requests today prop_id last_checkout_date fuel st verdict st' :
  get_checkin_cleaning_status src today prop_id last_checkout_date fuel st
  = Some (verdict, st') ->
  exists all_tasks st1 pages,
    fetch_window src today prop_id last_checkout_date fuel 1 [] st
    = Some (all_tasks, st1)
    /\ st_log st1
       = st_log st
         ++ map (TaskWindowPage prop_id last_checkout_date today) pages
    /\ st_log st'
       = st_log st1
         ++ map TaskDetail (filter ident_truthy (map t_id all_tasks)).
Proof.
  intros Hrun.
  assert (Hw : exists all_tasks st1,
             fetch_window src today prop_id last_checkout_date fuel 1 [] st
             = Some (all_tasks, st1)).
  { unfold get_checkin_cleaning_status, bind in Hrun.
    destruct (fetch_window src today prop_id last_checkout_date fuel 1 [] st)
      as [[all_tasks st1]|]; [eauto | discriminate]. }
  destruct Hw as (all_tasks & st1 & Hw).
  pose proof Hw as Hlog. apply fetch_window_log in Hlog.
  destruct Hlog as (pages & Hlog).
  destruct (fetch_details_log all_tasks [] st1)
    as (detailed & st2 & Hd & Hdlog).
  pose proof Hw as Hs. eapply status_run in Hs; [|exact Hd].
  rewrite Hs in Hrun. injection Hrun as _ <-.
  exists all_tasks, st1, pages. split; [exact Hw|]. split; [exact Hlog|].
  exact Hdlog.
Qed.

End FetchMore.

(** ** More on pagination *)

Section PaginationMore.
Variable world : Type.
Variable src : source world.
Variable today : string.

Lemma skipn_nth_cons A (xs : list A) (d : A) :
  forall i, i < List.length xs -> skipn i xs = nth i xs d :: skipn (S i) xs.
Proof.
  induction xs as [|x xs IH]; intros i Hi; simpl in Hi; [lia|].
  destruct i as [|i]; [reflexivity|]. simpl. apply IH. lia.
Qed.

(** Starting at page [i + 1] with [d] pages after it, the window loop
    issues [d + 1] requests and takes in the pages from [i + 1] on. *)
Lemma fetch_window_served prop_id date (pages : list (list task)) :
  (forall page w,
      fst (task_window_page src prop_id date today page w)
      = Some (window_page pages page)) ->
  forall d i all_tasks st fuel,
    i + S d = List.length pages ->
    d < fuel ->
    exists st',
      fetch_window src today prop_id date fuel (Z.of_nat (S i)) all_tasks st
      = Some (all_tasks ++ List.concat (skipn i pages), st')
      /\ st_log st'
         = st_log st
           ++ map (fun p => TaskWindowPage prop_id date today (Z.of_nat p))
                (seq (S i) (S d)).
Proof.
  intros Hsrc. induction d as [|d IH]; intros i acc st fuel Hi Hfuel;
    (destruct fuel as [|fuel]; [lia|]);
    remember (Z.of_nat (S i)) as p eqn:Hp; simpl; unfold bind;
    destruct (http_get_answer (TaskWindowPage prop_id date today p)
                (task_window_page src prop_id date today p) st)
      as (st1 & -> & Hlog);
    rewrite Hsrc; unfold window_page;
    cbn [tp_results tp_total_pages tp_page default_page];
    replace (Z.to_nat p - 1) with i by lia;
    rewrite (skipn_nth_cons pages []) by lia.
  - destruct (Z.geb_spec p (Z.of_nat (List.length pages))); [|lia].
    exists st1. split; [|now rewrite Hlog, Hp].
    rewrite skipn_all2 by lia. simpl. now rewrite app_nil_r.
  - destruct (Z.geb_spec p (Z.of_nat (List.length pages))); [lia|].
    replace (p + 1)%Z with (Z.of_nat (S (S i))) by lia.
    destruct (IH (S i) (acc ++ nth i pages []) st1 fuel ltac:(lia) ltac:(lia))
      as (st' & -> & Hlog').
    exists st'. split.
    + simpl. now rewrite <- app_assoc.
    + rewrite Hlog', Hlog, Hp, <- app_assoc. reflexivity.
Qed.

(** X11. The task window is paginated by the metadata of the answers: with
    a source that holds the window as [pages], at least one, and answers
    page [p] with its tasks, [page = p] and [total_pages] the number of
    pages, the loop returns the tasks of all pages in order after exactly
    one request per page, for pages 1, 2, ... *)
Theorem fetch_window_all_pages prop_id date (pages : list (list task))
    fuel st :
  (forall page w,
      fst (task_window_page src prop_id date today page w)
      = Some {| tp_results := nth (Z.to_nat page - 1) pages [];
                tp_total_pages := Some (Z.of_nat (List.length pages));
                tp_page := Some page |}) ->
  pages <> [] ->
  List.length pages <= fuel ->
  exists st',
    fetch_window src today prop_id date fuel 1 [] st
    = Some (List.concat pages, st')
    /\ st_log st'
       = st_log st
         ++ map (fun p => TaskWindowPage prop_id date today (Z.of_nat p))
              (seq 1 (List.length pages)).
Proof.
  intros Hsrc Hne Hfuel.
  destruct pages as [|first pages]; [now elim Hne|].
  pose proof Hsrc as Hserved.
  apply fetch_window_served
    with (d := List.length pages) (i := 0) (all_tasks := @nil task)
         (st := st) (fuel := fuel) in Hserved;
    [|simpl; lia | simpl in Hfuel; lia].
  destruct Hserved as (st' & Hrun & Hlog).
  exists st'. split; [exact Hrun | exact Hlog].
Qed.

(** X12. The window loop has no bound of its own: when every answer of the
    source reports a [page] below its [total_pages], the loop never
    returns, whatever the fuel, and neither does
    [get_checkin_cleaning_status]. *)
Theorem fetch_window_never_returns prop_id date :
  (forall page w,
      exists data,
        fst (task_window_page src prop_id date today page w) = Some data
        /\ (default_page (tp_page data)
            < default_page (tp_total_pages data))%Z) ->
  (forall fuel page all_tasks st,
      fetch_window src today prop_id date fuel page all_tasks st = None)
  /\ forall fuel st,
       get_checkin_cleaning_status src today prop_id date fuel st = None.
Proof.
  intros Hsrc.
  assert (Hloop : forall fuel page all_tasks st,
             fetch_window src today prop_id date fuel page all_tasks st = None).
  { induction fuel as [|fuel IH]; intros page acc st; [reflexivity|].
    simpl. unfold bind.
    destruct (http_get_answer (TaskWindowPage prop_id date today page)
                (task_window_page src prop_id date today page) st)
      as (st1 & -> & _).
    destruct (Hsrc page (st_world st)) as (data & -> & Hlt).
    destruct (Z.geb_spec (default_page (tp_page data))
                (default_page (tp_total_pages data))); [lia|].
    apply IH. }
  split; [exact Hloop|].
  intros fuel st. unfold get_checkin_cleaning_status, bind.
  now rewrite Hloop.
Qed.

(** A loop over pages that are always full never returns. *)
Lemma page_loop_never_returns R A (get : Z -> M world (option (list R)))
    (absorb : A -> list R -> A) :
  (forall page st,
      exists results st',
        get page st = Some (Some results, st')
        /\ limit <= List.length results) ->
  forall fuel page acc st, page_loop get absorb fuel page acc st = None.
Proof.
  intros Hget. induction fuel as [|fuel IH]; intros page acc st;
    [reflexivity|].
  destruct (Hget page st) as (results & st' & Hrun & Hlen).
  erewrite page_loop_full by eassumption. apply IH.
Qed.

(** X13. The three fetch loops have no bound of their own either: when
    the source answers every page with [limit] records or more, the loop
    never returns, whatever the fuel. *)
Theorem fetch_loops_never_return :
  ((forall page w,
       exists results,
         fst (property_page src limit page w) = Some results
         /\ limit <= List.length results) ->
   forall fuel st, fetch_property_map src fuel st = None)
  /\ (forall date checkin,
         (forall page w,
             exists results,
               fst (reservation_page src checkin date limit page w)
               = Some results
               /\ limit <= List.length results) ->
         forall fuel st, fetch_reservations src date checkin fuel st = None)
  /\ (forall home_id date,
         (forall page w,
             exists results,
               fst (task_page_of src home_id date limit page w)
               = Some results
               /\ limit <= List.length results) ->
         forall fuel st, fetch_tasks src home_id date fuel st = None).
Proof.
  repeat apply conj.
  - intros Hsrc fuel st. apply page_loop_never_returns.
    intros page st0. destruct (Hsrc page (st_world st0)) as (results & Hr & Hl).
    destruct (http_get_answer (PropertyPage limit page)
                (property_page src limit page) st0) as (st1 & Hrun & _).
    exists results, st1. split; [|exact Hl].
    unfold get_property_page. now rewrite Hrun, Hr.
  - intros date checkin Hsrc fuel st. apply page_loop_never_returns.
    intros page st0. destruct (Hsrc page (st_world st0)) as (results & Hr & Hl).
    destruct (http_get_answer (ReservationPage checkin date limit page)
                (reservation_page src checkin date limit page) st0)
      as (st1 & Hrun & _).
    exists results, st1. split; [|exact Hl].
    unfold get_reservation_page. now rewrite Hrun, Hr.
  - intros home_id date Hsrc fuel st. apply page_loop_never_returns.
    intros page st0. destruct (Hsrc page (st_world st0)) as (results & Hr & Hl).
    destruct (http_get_answer (TaskPage home_id date limit page)
                (task_page_of src home_id date limit page) st0)
      as (st1 & Hrun & _).
    exists results, st1. split; [|exact Hl].
    unfold get_task_page. now rewrite Hrun, Hr.
Qed.

End PaginationMore.


(** ** More on the report sections *)

Section SectionsMore.
Variable world : Type.
Variable src : source world.
Variables today ninety_days_ago : string.

(** X14. Reservations of properties that are not in the property map are
    passed over in silence: a list of such check-ins leaves the output and
    the state as they were, with no request issued, and a list of such
    check-outs adds no line and no name. *)
Theorem unknown_reservations_are_skipped
    (property_map : property_map_t) (reservations : list reservation) :
  (forall res, In res reservations ->
     Dict.get ident_eqb (r_property_id res) property_map = None) ->
  (forall fuel printed output st,
      checkin_loop src today ninety_days_ago property_map fuel reservations
        printed output st = Some (output, st))
  /\ (forall cleaning_map checkout_props output,
         checkout_loop property_map cleaning_map reservations checkout_props
           output = (output, checkout_props)).
Proof.
  induction reservations as [|res rest IH]; intros Hnone.
  - split; reflexivity.
  - destruct IH as [IH1 IH2]; [intros r Hr; apply Hnone; now right|].
    pose proof (Hnone res (or_introl eq_refl)) as Hres.
    split; intros; simpl; rewrite Hres; [apply IH1 | apply IH2].
Qed.

Lemma checkout_loop_lines property_map cleaning_map checkouts :
  forall checkout_props output,
    fst (checkout_loop property_map cleaning_map checkouts checkout_props
           output)
    = output ++ flat_map (checkout_block property_map cleaning_map) checkouts.
Proof.
  induction checkouts as [|res rest IH]; intros cp output; simpl.
  - now rewrite app_nil_r.
  - unfold checkout_block at 1.
    destruct (Dict.get ident_eqb (r_property_id res) property_map)
      as [info|]; [|apply IH].
    destruct (Dict.get String.eqb (name info) cleaning_map) as [cleanings|];
      rewrite IH.
    + rewrite (fold_left_snoc (fun c => Py.fstr ["- "; c])).
      now rewrite <- app_assoc.
    + now rewrite <- app_assoc.
Qed.

(** X15. The check-outs section is not deduplicated: it holds one block
    per check-out reservation of a property of the map, in the order of
    the reservations: the lines of the cleaning map under the property's
    name, each behind ["- "], or the bare name when the map has no entry.
    The placeholder stands exactly when there is no check-out reservation
    at all. *)
Theorem checkouts_one_block_per_reservation
    (property_map : property_map_t) (cleaning_map : cleaning_map_t)
    (checkouts : list reservation) (output : list string) :
  fst (checkouts_section property_map cleaning_map checkouts output)
  = output
    ++ match checkouts with
       | [] => ["No check-outs today."]
       | _ =>
           flat_map
             (fun res =>
                match Dict.get ident_eqb (r_property_id res) property_map with
                | None => []
                | Some info =>
                    match Dict.get String.eqb (name info) cleaning_map with
                    | Some cleanings =>
                        map (fun c => Py.fstr ["- "; c]) cleanings
                    | None => [Py.fstr ["- "; name info]]
                    end
                end)
             checkouts
       end.
Proof.
  unfold checkouts_section. destruct checkouts as [|res rest]; [reflexivity|].
  change (Py.nonempty (res :: rest)) with true. cbv iota.
  apply checkout_loop_lines.
Qed.

Lemma checkouts_section_lines property_map cleaning_map checkouts output :
  fst (checkouts_section property_map cleaning_map checkouts output)
  = output
    ++ match checkouts with
       | [] => ["No check-outs today."]
       | _ => flat_map (checkout_block property_map cleaning_map) checkouts
       end.
Proof.
  unfold checkouts_section. destruct checkouts as [|res rest]; [reflexivity|].
  change (Py.nonempty (res :: rest)) with true. cbv iota.
  apply checkout_loop_lines.
Qed.

Lemma checkouts_section_names property_map cleaning_map checkouts output n :
  set_In n (snd (checkouts_section property_map cleaning_map checkouts output))
  <-> has_reservation property_map checkouts n.
Proof.
  unfold checkouts_section. destruct checkouts as [|res rest].
  - simpl. unfold has_reservation. split; [intros []|].
    intros (r & i & [] & _).
  - change (Py.nonempty (res :: rest)) with true. cbv iota.
    rewrite checkout_loop_names. split; [|now right].
    now intros [[]|H].
Qed.

Lemma pending_section_lines cleaning_map checkout_props output :
  pending_section cleaning_map checkout_props output
  = output ++ [Py.fstr [Py.nl; "Pending cleanings:"]]
    ++ (if Py.nonempty
             (flat_map snd (without_checkout checkout_props cleaning_map))
        then flat_map snd (without_checkout checkout_props cleaning_map)
        else ["No pending cleanings today."]).
Proof.
  unfold pending_section. rewrite pending_loop_lines.
  destruct (flat_map snd (without_checkout checkout_props cleaning_map))
    as [|line lines]; simpl.
  - now rewrite app_nil_r, <- app_assoc.
  - now rewrite <- app_assoc.
Qed.

Lemma dict_get_in (n : string) (lines : list string) (cm : cleaning_map_t) :
  Dict.get String.eqb n cm = Some lines -> In (n, lines) cm.
Proof.
  induction cm as [|[k v] cm IH]; simpl; [discriminate|].
  destruct (String.eqb_spec n k) as [->|Hne].
  - intros [= ->]. now left.
  - intros H. right. now apply IH.
Qed.

(** X16. No cleaning of the map is left out of the report: the lines the
    cleaning map holds under a name all appear in the check-outs section,
    each behind ["- "], when a property of that name has a check-out
    today, and they all appear in the pending-cleanings section when none
    has. *)
Theorem every_cleaning_is_reported
    (property_map : property_map_t) (cleaning_map : cleaning_map_t)
    (checkouts : list reservation) (output : list string)
    (n : string) (lines : list string) :
  Dict.get String.eqb n cleaning_map = Some lines ->
  (has_reservation property_map checkouts n ->
   forall c, In c lines ->
     In (Py.fstr ["- "; c])
       (fst (checkouts_section property_map cleaning_map checkouts output)))
  /\ (~ has_reservation property_map checkouts n ->
      forall c, In c lines ->
        exists before after,
          pending_section cleaning_map
            (snd (checkouts_section property_map cleaning_map checkouts
                    output))
            (fst (checkouts_section property_map cleaning_map checkouts
                    output))
          = fst (checkouts_section property_map cleaning_map checkouts output)
            ++ [Py.fstr [Py.nl; "Pending cleanings:"]]
            ++ before ++ c :: after).
Proof.
  intros Hget. split.
  - intros (res & info & Hres & Hinfo & Hname) c Hc.
    rewrite checkouts_section_lines.
    destruct checkouts as [|r0 rest]; [destruct Hres|].
    apply in_or_app. right. apply in_flat_map. exists res.
    split; [exact Hres|].
    unfold checkout_block. rewrite Hinfo, Hname, Hget.
    apply in_map_iff. now exists c.
  - intros Hnone c Hc. rewrite pending_section_lines.
    set (cp := snd (checkouts_section property_map cleaning_map checkouts
                      output)).
    assert (Hin : In c (flat_map snd (without_checkout cp cleaning_map))).
    { apply in_flat_map. exists (n, lines). split; [|exact Hc].
      unfold without_checkout. apply filter_In.
      split; [now apply dict_get_in|]. simpl.
      apply negb_true_iff, name_in_false. unfold cp.
      now rewrite checkouts_section_names. }
    destruct (flat_map snd (without_checkout cp cleaning_map))
      as [|l ls] eqn:E; [destruct Hin|].
    change (Py.nonempty (l :: ls)) with true. cbv iota.
    apply in_split in Hin. destruct Hin as (before & after & ->).
    now exists before, after.
Qed.

End SectionsMore.

(** ** More on the check-ins section *)

Section CheckinMore.
Variable world : Type.
Variable src : source world.
Variables today ninety_days_ago : string.

(** The date the check-ins loop computes from the check-outs it fetched:
    only the check-outs of the property count. *)
Lemma own_last_checkout checkouts prop_id :
  last_checkout_date_for ninety_days_ago checkouts prop_id
    (last_checkout_of ninety_days_ago
       (filter (fun c => ident_eqb (r_property_id c) prop_id) checkouts)).
Proof.
  set (own := filter (fun c => ident_eqb (r_property_id c) prop_id)
                checkouts).
  assert (Hown : forall c, In c own
                           <-> In c checkouts /\ r_property_id c = prop_id).
  { intros c. unfold own. rewrite filter_In.
    destruct (ident_eqb_spec (r_property_id c) prop_id); intuition congruence. }
  destruct (last_checkout_of_latest ninety_days_ago own) as [Hnone Hsome].
  destruct own as [|c0 cs] eqn:E.
  - left. split; [|now apply Hnone].
    intros c Hc Hid. now apply (proj2 (Hown c) (conj Hc Hid)).
  - right. destruct Hsome as [Hin Hmax]; [discriminate|]. split.
    + apply in_map_iff in Hin. destruct Hin as (c & Hdate & Hc).
      apply Hown in Hc. exists c. tauto.
    + intros c Hc Hid. apply Hmax, Hown. now split.
Qed.

(** The first request of the window loop is for the page it starts at. *)
Lemma fetch_window_first_request prop_id date fuel page all_tasks st
    result st' :
  fetch_window src today prop_id date fuel page all_tasks st
  = Some (result, st') ->
  exists later,
    st_log st'
    = st_log st ++ TaskWindowPage prop_id date today page :: later.
Proof.
  destruct fuel as [|fuel]; simpl; [discriminate|]. unfold bind.
  destruct (http_get_answer (TaskWindowPage prop_id date today page)
              (task_window_page src prop_id date today page) st)
    as (st1 & -> & Hlog).
  destruct (fst _) as [data|].
  - destruct (_ >=? _)%Z.
    + intros [= <- <-]. exists []. exact Hlog.
    + intros Hrun. apply fetch_window_log in Hrun.
      destruct Hrun as (pages & Hlog').
      exists (map (TaskWindowPage prop_id date today) pages).
      rewrite Hlog', Hlog, <- app_assoc. reflexivity.
  - intros [= <- <-]. exists []. exact Hlog.
Qed.

(** A returned status has asked for the first page of the window that
    starts at the date it was given and ends today. *)
Lemma status_first_request prop_id date fuel st status st' :
  get_checkin_cleaning_status src today prop_id date fuel st
  = Some (status, st') ->
  exists later,
    st_log st' = st_log st ++ TaskWindowPage prop_id date today 1 :: later.
Proof.
  intros Hrun. apply status_inv in Hrun.
  destruct Hrun as (all_tasks & st1 & detailed & Hw & Hd & _).
  apply fetch_window_first_request in Hw. destruct Hw as (later & Hlog).
  destruct (fetch_details_log src all_tasks [] st1)
    as (detailed' & st2 & Hd' & Hlog').
  rewrite Hd in Hd'. injection Hd' as _ <-.
  exists (later ++ map TaskDetail (filter ident_truthy (map t_id all_tasks))).
  rewrite Hlog', Hlog, <- app_assoc. reflexivity.
Qed.

(** X6. The window of a check-in starts at the last check-out of its
    property.  For every line the check-ins loop adds, the loop fetched
    today's check-outs, took among them those of the property of the
    reservation, and computed the status for the window that starts at
    their latest check-out date, or ninety days ago when the property has
    none, and ends today: the first request of that status is for page 1
    of the housekeeping tasks of the property between these two dates. *)
Theorem checkin_window_starts_at_last_checkout
    property_map fuel checkins :
  forall printed output st out st',
    checkin_loop src today ninety_days_ago property_map fuel checkins
      printed output st = Some (out, st') ->
    exists entries : list (string * string),
      out = output ++ map checkin_line entries
      /\ forall n status,
           In (n, status) entries ->
           exists res info checkouts date s0 s1 s2 later,
             In res checkins
             /\ Dict.get ident_eqb (r_property_id res) property_map
                = Some info
             /\ name info = n
             /\ fetch_reservations src today false fuel s0
                = Some (checkouts, s1)
             /\ last_checkout_date_for ninety_days_ago checkouts
                  (r_property_id res) date
             /\ get_checkin_cleaning_status src today (r_property_id res)
                  date fuel s1 = Some (status, s2)
             /\ st_log s2
                = st_log s1
                  ++ TaskWindowPage (r_property_id res) date today 1
                     :: later.
Proof.
  induction checkins as [|res rest IH]; intros printed output st out st';
    simpl.
  - intros [= <- <-]. exists []. simpl. rewrite app_nil_r.
    split; [reflexivity | intros n status []].
  - assert (Hrest : forall printed0 output0 st0,
               checkin_loop src today ninety_days_ago property_map fuel rest
                 printed0 output0 st0 = Some (out, st') ->
               exists entries : list (string * string),
                 out = output0 ++ map checkin_line entries
                 /\ forall n status,
                      In (n, status) entries ->
                      exists res0 info checkouts date s0 s1 s2 later,
                        (res = res0 \/ In res0 rest)
                        /\ Dict.get ident_eqb (r_property_id res0)
                             property_map = Some info
                        /\ name info = n
                        /\ fetch_reservations src today false fuel s0
                           = Some (checkouts, s1)
                        /\ last_checkout_date_for ninety_days_ago checkouts
                             (r_property_id res0) date
                        /\ get_checkin_cleaning_status src today
                             (r_property_id res0) date fuel s1
                           = Some (status, s2)
                        /\ st_log s2
                           = st_log s1
                             ++ TaskWindowPage (r_property_id res0) date
                                  today 1 :: later).
    { intros printed0 output0 st0 Hrun.
      destruct (IH _ _ _ _ _ Hrun) as (entries & Hout & Hentries).
      exists entries. split; [exact Hout|].
      intros n status Hentry.
      destruct (Hentries n status Hentry)
        as (res0 & info & checkouts & date & s0 & s1 & s2 & later & Hin & H).
      exists res0, info, checkouts, date, s0, s1, s2, later.
      split; [now right | exact H]. }
    destruct (Dict.get ident_eqb (r_property_id res) property_map)
      as [info|] eqn:E; [|apply Hrest].
    destruct (name_in (name info) printed); [apply Hrest|].
    unfold bind at 1.
    destruct (fetch_reservations src today false fuel st)
      as [[checkouts s1]|] eqn:Hcheckouts; [|discriminate].
    unfold bind at 1.
    destruct (get_checkin_cleaning_status src today (r_property_id res) _
                fuel s1)
      as [[prop_status s2]|] eqn:Hstatus; [|discriminate].
    intros Hrun.
    destruct (Hrest _ _ _ Hrun) as (entries & -> & Hentries).
    exists ((name info, prop_status) :: entries).
    split; [simpl; now rewrite <- app_assoc|].
    intros n status [[= <- <-]|Hentry]; [|now apply Hentries].
    destruct (status_first_request _ _ _ _ Hstatus) as (later & Hlog).
    exists res, info, checkouts. eexists. exists st, s1, s2, later.
    split; [now left|]. split; [exact E|]. split; [reflexivity|].
    split; [exact Hcheckouts|].
    split; [apply own_last_checkout|]. split; [exact Hstatus | exact Hlog].
Qed.

End CheckinMore.

(** ** More on the cleaning map and the message *)

Section MessageMore.
Variable world : Type.
Variable src : source world.
Variables today yesterday ninety_days_ago : string.

Lemma task_lines_not_empty n t : task_lines n t <> [].
Proof. unfold task_lines. destruct (t_assignments t); discriminate. Qed.

Lemma flat_task_lines_not_empty n tasks :
  tasks <> [] -> flat_map (task_lines n) tasks <> [].
Proof.
  destruct tasks as [|t tasks]; [congruence|]. intros _. simpl.
  pose proof (task_lines_not_empty n t) as H.
  destruct (task_lines n t); [congruence | discriminate].
Qed.

(** The names of the map after the fetched tasks were recorded, and what
    stands under them. *)
Lemma record_all_entries fetched :
  forall cm,
    (forall n lines, Dict.get String.eqb n cm = Some lines -> lines <> []) ->
    (forall n lines,
        Dict.get String.eqb n (record_all fetched cm) = Some lines ->
        lines <> [])
    /\ forall n,
         Dict.get String.eqb n (record_all fetched cm) <> None
         <-> Dict.get String.eqb n cm <> None
             \/ exists tasks, In (n, tasks) fetched /\ tasks <> [].
Proof.
  induction fetched as [|[m tasks] fetched IH]; intros cm Hcm; simpl.
  - split; [exact Hcm|]. intros n. split; [now left|].
    intros [H|(tasks & [] & _)]. exact H.
  - assert (Hstep : forall n lines,
               Dict.get String.eqb n (record_tasks m tasks cm) = Some lines ->
               lines <> []).
    { intros n lines. destruct (string_dec n m) as [->|Hne].
      - destruct tasks as [|t tasks]; [apply Hcm|].
        rewrite record_tasks_get by discriminate. intros [= <-].
        apply flat_task_lines_not_empty with (tasks := t :: tasks).
        discriminate.
      - rewrite record_tasks_other by exact Hne. apply Hcm. }
    destruct (IH _ Hstep) as [Hlines Hnames]. split; [exact Hlines|].
    intros n. rewrite Hnames. split.
    + intros [H|(ts & Hin & Hts)]; [|right; exists ts; split; auto].
      destruct (string_dec n m) as [->|Hne].
      * destruct tasks as [|t tasks]; [now left|].
        right. exists (t :: tasks). split; [now left | discriminate].
      * rewrite record_tasks_other in H by exact Hne. now left.
    + intros [H|(ts & [[= <- <-]|Hin] & Hts)].
      * left. destruct (string_dec n m) as [->|Hne].
        -- destruct tasks as [|t tasks]; [exact H|].
           rewrite record_tasks_get by discriminate. discriminate.
        -- now rewrite record_tasks_other by exact Hne.
      * left. rewrite record_tasks_get by exact Hts. discriminate.
      * right. now exists ts.
Qed.

(** X17. The cleaning map built for the report has an entry for a name
    exactly when a property of that name had housekeeping tasks today, and
    no entry is empty: a property whose task fetch gave nothing gets no
    entry, so that its check-out shows the bare name. *)
Theorem cleaning_map_names fuel items st cleaning_map st' :
  build_cleaning_map src today fuel items [] st = Some (cleaning_map, st') ->
  exists fetched : list (string * list task),
    Forall2
      (fun item entry =>
         fst entry = name (snd item)
         /\ exists s s',
              fetch_tasks src (fst item) today fuel s = Some (snd entry, s'))
      items fetched
    /\ (forall n,
           Dict.get String.eqb n cleaning_map <> None
           <-> exists tasks, In (n, tasks) fetched /\ tasks <> [])
    /\ forall n lines,
         Dict.get String.eqb n cleaning_map = Some lines -> lines <> [].
Proof.
  intros Hrun. apply build_cleaning_map_fetched in Hrun.
  destruct Hrun as (fetched & Hf & ->).
  exists fetched. split; [exact Hf|].
  assert (Hempty : forall n lines,
             Dict.get String.eqb n (@nil (string * list string)) = Some lines ->
             lines <> []) by (intros n lines; discriminate).
  apply record_all_entries with (fetched := fetched) in Hempty.
  destruct Hempty as [Hlines Hnames].
  split; [|exact Hlines].
  intros n. rewrite Hnames. split; [|now right].
  intros [H|H]; [now elim H | exact H].
Qed.

(** The loop of the summary is the fold of its body over what it
    fetched. *)
Lemma yesterday_loop_fetched fuel items :
  forall output st out st',
    yesterday_loop src yesterday fuel items output st = Some (out, st') ->
    exists fetched,
      Forall2 (fetched_for src yesterday fuel) items fetched
      /\ out
         = output
           ++ flat_map
                (fun entry =>
                   flat_map
                     (fun t =>
                        map (summary_line (fst entry) t) (t_assignments t))
                     (snd entry))
                fetched.
Proof.
  induction items as [|[prop_id info] items IH]; intros output st out st'.
  - simpl. intros [= <- <-]. exists []. split; [constructor|].
    simpl. now rewrite app_nil_r.
  - simpl yesterday_loop. unfold bind at 1.
    destruct (fetch_tasks src prop_id yesterday fuel st)
      as [[tasks s1]|] eqn:E; [|discriminate].
    assert (Hk : Forall (fun t => is_housekeeping t = true) tasks).
    { eapply Forall_impl; [|eapply fetch_tasks_housekeeping; exact E].
      intros t. apply is_housekeeping_true. }
    assert (Hbody : (if negb (Py.nonempty tasks) then output
                     else fold_left (yesterday_task (name info)) tasks output)
                    = output
                      ++ flat_map
                           (fun t => map (summary_line (name info) t)
                                       (t_assignments t))
                           tasks).
    { destruct tasks as [|t tasks]; [simpl; now rewrite app_nil_r|].
      change (Py.nonempty (t :: tasks)) with true. simpl negb. cbv iota.
      now rewrite yesterday_tasks_lines by exact Hk. }
    intros Hrun.
    assert (Hrun' : yesterday_loop src yesterday fuel items
                      (output
                       ++ flat_map
                            (fun t => map (summary_line (name info) t)
                                        (t_assignments t))
                            tasks) s1 = Some (out, st')).
    { rewrite <- Hbody. destruct (negb (Py.nonempty tasks)); exact Hrun. }
    destruct (IH _ _ _ _ Hrun') as (fetched & Hf & ->).
    exists ((name info, tasks) :: fetched). split.
    + constructor; [|exact Hf]. split; [reflexivity|]. now exists st, s1.
    + simpl. now rewrite <- app_assoc.
Qed.

(** X18. The yesterday's summary is its header followed, property after
    property in the order of the property map, by one line per assignment
    of every housekeeping task fetched for the property; a property or a
    task without any adds nothing, and no other line is written. *)
Theorem yesterday_summary_lines fuel st output st' :
  yesterday_lines src yesterday fuel st = Some (output, st') ->
  exists property_map s1 fetched,
    fetch_property_map src fuel st = Some (property_map, s1)
    /\ Forall2
         (fun item entry =>
            fst entry = name (snd item)
            /\ exists s s',
                 fetch_tasks src (fst item) yesterday fuel s
                 = Some (snd entry, s'))
         property_map fetched
    /\ output
       = Py.fstr [Py.nl; "Yesterday’s Cleaning Summary ("; yesterday; ")"]
         :: flat_map
              (fun entry =>
                 flat_map
                   (fun t =>
                      map (fun a =>
                             Py.fstr ["- "; fst entry; " - "; task_label t;
                                      " - "; Py.or_str (a_name a) "Unknown";
                                      " - "; completion_status t a])
                        (t_assignments t))
                   (snd entry))
              fetched.
Proof.
  unfold yesterday_lines, bind.
  destruct (fetch_property_map src fuel st) as [[property_map s1]|] eqn:E;
    [|discriminate].
  intros Hrun. apply yesterday_loop_fetched in Hrun.
  destruct Hrun as (fetched & Hf & ->).
  exists property_map, s1, fetched. split; [reflexivity|].
  split; [exact Hf | reflexivity].
Qed.

(** X19. Today's part of the message always has the same frame: the title,
    the check-ins header and its lines, the check-outs header and its
    lines, the pending-cleanings header and its lines, in this order; the
    pending-cleanings section is never left empty. *)
Theorem today_lines_frame fuel st output st' :
  today_lines src today ninety_days_ago fuel st = Some (output, st') ->
  exists checkin_part checkout_part pending_part,
    output
    = [Py.fstr ["Today’s Cleaning Summary ("; today; ")"; Py.nl];
       "Check-ins today:"]
      ++ checkin_part
      ++ [Py.fstr [Py.nl; "Check-outs today:"]]
      ++ checkout_part
      ++ [Py.fstr [Py.nl; "Pending cleanings:"]]
      ++ pending_part
    /\ pending_part <> [].
Proof.
  unfold today_lines, bind.
  destruct (fetch_property_map src fuel st) as [[property_map s1]|];
    [|discriminate].
  set (title := Py.fstr ["Today’s Cleaning Summary ("; today; ")"; Py.nl]).
  destruct (checkins_section src today ninety_days_ago property_map fuel
              [title] s1) as [[out1 s2]|] eqn:Hci; [|discriminate].
  destruct (fetch_reservations src today false fuel s2)
    as [[checkouts s3]|]; [|discriminate].
  destruct (build_cleaning_map src today fuel property_map [] s3)
    as [[cleaning_map s4]|]; [|discriminate].
  destruct (checkouts_section property_map cleaning_map checkouts
              (out1 ++ [Py.fstr [Py.nl; "Check-outs today:"]]))
    as [out2 checkout_props] eqn:Hco.
  unfold ret. intros [= <- <-].
  assert (Hout1 : exists checkin_part,
             out1 = [title; "Check-ins today:"] ++ checkin_part).
  { unfold checkins_section, bind in Hci.
    destruct (fetch_reservations src today true fuel s1)
      as [[checkins s1']|]; [|discriminate].
    destruct (Py.nonempty checkins).
    - apply checkin_loop_entries in Hci.
      destruct Hci as (entries & -> & _). now eexists.
    - unfold ret in Hci. injection Hci as <- _. now eexists. }
  destruct Hout1 as (checkin_part & ->).
  pose proof (checkouts_section_lines property_map cleaning_map checkouts
                (([title; "Check-ins today:"] ++ checkin_part)
                 ++ [Py.fstr [Py.nl; "Check-outs today:"]])) as Hlines.
  rewrite Hco in Hlines. simpl fst in Hlines.
  rewrite pending_section_lines, Hlines.
  exists checkin_part,
    (match checkouts with
     | [] => ["No check-outs today."]
     | _ => flat_map (checkout_block property_map cleaning_map) checkouts
     end),
    (if Py.nonempty
          (flat_map snd (without_checkout checkout_props cleaning_map))
     then flat_map snd (without_checkout checkout_props cleaning_map)
     else ["No pending cleanings today."]).
  split.
  - now rewrite <- !app_assoc.
  - destruct (flat_map snd (without_checkout checkout_props cleaning_map));
      discriminate.
Qed.

End MessageMore.


(** * More runs on fixed data *)

Lemma fresh_token_run :
  Token.load_token 1000 (Token.as_file no_cache) = Token.Returned None
  /\ exists st1,
       Token.get_breezeway_token 1000 2000 (Token.AuthJson (Some "jwt"))
         no_cache = (Token.Returned (Some "jwt"), st1)
       /\ Token.as_posts st1 = 1
       /\ Token.get_breezeway_token (2000 + Token.hours_23 - 1) 0
            Token.RequestFailed st1
          = (Token.Returned (Some "jwt"), st1)
       /\ Token.as_posts
            (snd (Token.get_breezeway_token (2000 + Token.hours_23) 0
                    Token.RequestFailed st1)) = 2.
Proof.
  split; [reflexivity|].
  destruct (@TokenFacts.fresh_token_is_cached 1000 2000 "jwt" no_cache None
              eq_refl eq_refl ltac:(discriminate))
    as (st1 & Hrun & Hposts & Hcached & Hexpired).
  exists st1. split; [exact Hrun|]. split; [exact Hposts|]. split.
  - apply Hcached. lia.
  - rewrite Hexpired by lia. now rewrite Hposts.
Defined.

Lemma returned_token_run :
  Token.get_breezeway_token 1000 2000 (Token.AuthJson (Some "jwt")) no_cache
  = (Token.Returned (Some "jwt"),
     {| Token.as_file := Token.save_token 2000 "jwt"; Token.as_posts := 1 |})
  /\ "jwt" <> "".
Proof.
  split; [reflexivity|].
  apply (@TokenFacts.returned_token_not_empty 1000 2000
           (Token.AuthJson (Some "jwt")) no_cache "jwt"
           {| Token.as_file := Token.save_token 2000 "jwt";
              Token.as_posts := 1 |} eq_refl).
Defined.

Lemma first_of_a_tie_run :
  (exists t, In t [linen_change; morning_clean; window_wash]
             /\ Py.truthy (t_finished_at t) = true)
  /\ exists before last_task after finished_at,
       [linen_change; morning_clean; window_wash]
       = before ++ last_task :: after
       /\ t_finished_at last_task = Some finished_at
       /\ verdict_of_details [linen_change; morning_clean; window_wash]
          = ready_line last_task.
Proof.
  assert (H : exists t, In t [linen_change; morning_clean; window_wash]
                        /\ Py.truthy (t_finished_at t) = true)
    by (exists morning_clean; split; [right; now left | reflexivity]).
  split; [exact H|].
  destruct (@verdict_from_first_latest _ H)
    as (before & last_task & after & finished_at & Hd & Hf & _ & _ & _ & Hv).
  now exists before, last_task, after, finished_at.
Defined.

Lemma property_map_run :
  fetch_property_map (static_source renamed_villa) 1 start
  = Some ([(Some 7%Z, {| name := "Villa Rosa" |})],
          {| st_world := tt; st_log := [PropertyPage 100 1] |})
  /\ NoDup (map fst [(Some 7%Z, {| name := "Villa Rosa" |})])
  /\ forall id info,
       In (id, info) [(Some 7%Z, {| name := "Villa Rosa" |})] ->
       exists prop,
         (exists page w results,
             fst (property_page (static_source renamed_villa) limit page w)
             = Some results
             /\ In prop results)
         /\ p_status prop = Some "active"
         /\ p_id prop = id
         /\ name info = Py.or_str (p_name prop) "Unnamed Property".
Proof.
  split; [reflexivity|].
  apply (@property_map_only_active unit (static_source renamed_villa) 1 start
           [(Some 7%Z, {| name := "Villa Rosa" |})]
           {| st_world := tt; st_log := [PropertyPage 100 1] |} eq_refl).
Defined.

Lemma last_record_wins_run :
  [villa; old_mill; villa_rosa] = [villa; old_mill] ++ villa_rosa :: []
  /\ exists property_map st',
       fetch_property_map (static_source renamed_villa) 1 start
       = Some (property_map, st')
       /\ Dict.get ident_eqb (Some 7%Z) property_map
          = Some {| name := "Villa Rosa" |}
       /\ Dict.get ident_eqb (Some 5%Z) property_map = None.
Proof.
  split; [reflexivity|].
  destruct (@property_map_last_record_wins unit (static_source renamed_villa)
              [villa; old_mill; villa_rosa] [villa; old_mill] [] villa_rosa
              1 start)
    as (property_map & st' & Hrun & Hget & Hnone);
    [reflexivity | vm_compute; lia | reflexivity | reflexivity
    | intros q [] |].
  exists property_map, st'. split; [exact Hrun|]. split; [exact Hget|].
  apply Hnone. intros q [<-|[<-|[<-|[]]]]; discriminate.
Defined.

Lemma two_page_window_run :
  exists st',
    fetch_window
      (window_source [[departure_clean]; [linen_change; boiler_repair]])
      the_day (Some 7%Z) the_sentinel 2 1 [] start
    = Some ([departure_clean; linen_change; boiler_repair], st')
    /\ st_log st'
       = [TaskWindowPage (Some 7%Z) the_sentinel the_day 1;
          TaskWindowPage (Some 7%Z) the_sentinel the_day 2].
Proof.
  apply (@fetch_window_all_pages unit
           (window_source [[departure_clean]; [linen_change; boiler_repair]])
           the_day (Some 7%Z) the_sentinel
           [[departure_clean]; [linen_change; boiler_repair]] 2 start).
  - reflexivity.
  - discriminate.
  - vm_compute. lia.
Defined.

Lemma stuck_window_run :
  fetch_window endless_source the_day (Some 7%Z) the_sentinel 50 1 [] start
  = None
  /\ get_checkin_cleaning_status endless_source the_day (Some 7%Z)
       the_sentinel 50 start = None.
Proof.
  destruct (@fetch_window_never_returns unit endless_source the_day
              (Some 7%Z) the_sentinel) as [Hloop Hstatus].
  - intros page w. eexists. split; [reflexivity|]. simpl. lia.
  - split; [apply Hloop | apply Hstatus].
Defined.

Lemma endless_pages_run :
  fetch_property_map endless_source 50 start = None
  /\ fetch_reservations endless_source the_day true 50 start = None
  /\ fetch_tasks endless_source (Some 7%Z) the_day 50 start = None.
Proof.
  destruct (fetch_loops_never_return endless_source) as (Hp & Hr & Ht).
  split; [|split].
  - apply Hp. intros page w. eexists. split; [reflexivity|].
    vm_compute. lia.
  - apply Hr. intros page w. eexists. split; [reflexivity|].
    vm_compute. lia.
  - apply Ht. intros page w. eexists. split; [reflexivity|].
    vm_compute. lia.
Defined.

Lemma unknown_reservations_run :
  checkin_loop (static_source closed_villa) the_day the_sentinel [] 3
    [stay; stay] (empty_set string) ["Check-ins today:"] start
  = Some (["Check-ins today:"], start)
  /\ checkout_loop [] todays_cleanings [stay] (empty_set string)
       ["Check-outs today:"]
     = (["Check-outs today:"], empty_set string).
Proof.
  destruct (@unknown_reservations_are_skipped unit (static_source closed_villa)
              the_day the_sentinel [] [stay; stay]) as [Hin _];
    [intros res _; reflexivity|].
  destruct (@unknown_reservations_are_skipped unit (static_source closed_villa)
              the_day the_sentinel [] [stay]) as [_ Hout];
    [intros res _; reflexivity|].
  split; [apply Hin | apply Hout].
Defined.

Lemma every_cleaning_run :
  Dict.get String.eqb "Beach hut" todays_cleanings
  = Some ["Beach hut - Linen change - Bob - Unknown"]
  /\ exists before after,
       pending_section todays_cleanings
         (snd (checkouts_section beach_map todays_cleanings [stay] []))
         (fst (checkouts_section beach_map todays_cleanings [stay] []))
       = fst (checkouts_section beach_map todays_cleanings [stay] [])
         ++ [Py.fstr [Py.nl; "Pending cleanings:"]]
         ++ before ++ "Beach hut - Linen change - Bob - Unknown" :: after.
Proof.
  split; [reflexivity|].
  destruct (@every_cleaning_is_reported beach_map todays_cleanings [stay] []
              "Beach hut" ["Beach hut - Linen change - Bob - Unknown"]
              eq_refl) as [_ Hpending].
  apply Hpending; [|now left].
  intros (res & info & [<-|[]] & Hget & Hname).
  vm_compute in Hget. injection Hget as <-. discriminate Hname.
Defined.

Lemma cleaning_map_names_run :
  build_cleaning_map (static_source two_villas) the_day 1
    [(Some 7%Z, {| name := "Villa" |}); (Some 8%Z, {| name := "Villa" |})]
    [] start
  = Some ([("Villa", ["Villa - Linen change - Bob - Unknown"])],
          {| st_world := tt;
             st_log := [TaskPage (Some 7%Z) the_day 100 1;
                        TaskPage (Some 8%Z) the_day 100 1] |})
  /\ forall n lines,
       Dict.get String.eqb n
         [("Villa", ["Villa - Linen change - Bob - Unknown"])] = Some lines ->
       lines <> [].
Proof.
  split; [reflexivity|].
  destruct (@cleaning_map_names unit (static_source two_villas) the_day 1
              [(Some 7%Z, {| name := "Villa" |});
               (Some 8%Z, {| name := "Villa" |})]
              start
              [("Villa", ["Villa - Linen change - Bob - Unknown"])]
              {| st_world := tt;
                 st_log := [TaskPage (Some 7%Z) the_day 100 1;
                            TaskPage (Some 8%Z) the_day 100 1] |}
              eq_refl) as (fetched & _ & _ & Hlines).
  exact Hlines.
Defined.

Lemma yesterday_summary_run :
  exists st',
    yesterday_lines (static_source one_villa) the_day_before 1 start
    = Some ([Py.fstr [Py.nl; "Yesterday’s Cleaning Summary (";
                      the_day_before; ")"];
             "- Villa - Departure clean - Anna - Completed";
             "- Villa - Departure clean - Bob - Completed";
             "- Villa - Linen change - Bob - Not completed"], st')
    /\ exists property_map s1,
         fetch_property_map (static_source one_villa) 1 start
         = Some (property_map, s1).
Proof.
  eexists. split; [vm_compute; reflexivity|].
  destruct (@yesterday_summary_lines unit (static_source one_villa)
              the_day_before 1 start _ _ eq_refl)
    as (property_map & s1 & fetched & Hp & _).
  now exists property_map, s1.
Defined.

Lemma today_frame_run :
  exists output st',
    today_lines (static_source one_villa) the_day the_sentinel 3 start
    = Some (output, st')
    /\ exists checkin_part checkout_part pending_part,
         output
         = [Py.fstr ["Today’s Cleaning Summary ("; the_day; ")"; Py.nl];
            "Check-ins today:"]
           ++ checkin_part
           ++ [Py.fstr [Py.nl; "Check-outs today:"]]
           ++ checkout_part
           ++ [Py.fstr [Py.nl; "Pending cleanings:"]]
           ++ pending_part
         /\ pending_part <> [].
Proof.
  assert (Hrun : exists output st',
             today_lines (static_source one_villa) the_day the_sentinel 3
               start = Some (output, st'))
    by (do 2 eexists; vm_compute; reflexivity).
  destruct Hrun as (output & st' & Hrun).
  exists output, st'. split; [exact Hrun|].
  apply today_lines_frame in Hrun. exact Hrun.
Defined.

Lemma status_requests_run :
  get_checkin_cleaning_status (static_source one_villa) the_day (Some 7%Z)
    the_sentinel 3 start
  = Some ("Ready - Departure clean - Cleaned by Anna - 2024-05-01",
          after_details)
  /\ exists all_tasks st1 pages,
       fetch_window (static_source one_villa) the_day (Some 7%Z) the_sentinel
         3 1 [] start = Some (all_tasks, st1)
       /\ st_log st1
          = st_log start
            ++ map (TaskWindowPage (Some 7%Z) the_sentinel the_day) pages
       /\ st_log after_details
          = st_log st1
            ++ map TaskDetail (filter ident_truthy (map t_id all_tasks)).
Proof.
  split; [reflexivity|].
  apply (@status_requests unit (static_source one_villa) the_day (Some 7%Z)
           the_sentinel 3 start
           "Ready - Departure clean - Cleaned by Anna - 2024-05-01"
           after_details eq_refl).
Defined.

(** The window of the villa starts at its own latest check-out, not at the
    later check-out of the other property. *)
Lemma checkin_window_run :
  checkin_loop (static_source mixed_checkouts) the_day the_sentinel
    villa_map 2 [stay] (empty_set string) [] start
  = Some (["- Villa - Ready - Departure clean - Cleaned by Anna - 2024-05-01"],
          {| st_world := tt;
             st_log := [ReservationPage false the_day 100 1;
                        TaskWindowPage (Some 7%Z) "2024-05-03" the_day 1;
                        TaskDetail (Some 31%Z)] |})
  /\ exists entries : list (string * string),
       ["- Villa - Ready - Departure clean - Cleaned by Anna - 2024-05-01"]
       = [] ++ map checkin_line entries
       /\ forall n status,
            In (n, status) entries ->
            exists res info checkouts date s0 s1 s2 later,
              In res [stay]
              /\ Dict.get ident_eqb (r_property_id res) villa_map = Some info
              /\ name info = n
              /\ fetch_reservations (static_source mixed_checkouts) the_day
                   false 2 s0 = Some (checkouts, s1)
              /\ last_checkout_date_for the_sentinel checkouts
                   (r_property_id res) date
              /\ get_checkin_cleaning_status (static_source mixed_checkouts)
                   the_day (r_property_id res) date 2 s1
                 = Some (status, s2)
              /\ st_log s2
                 = st_log s1
                   ++ TaskWindowPage (r_property_id res) date the_day 1
                      :: later.
Proof.
  assert (Hrun :
            checkin_loop (static_source mixed_checkouts) the_day the_sentinel
              villa_map 2 [stay] (empty_set string) [] start
            = Some (["- Villa - Ready - Departure clean - Cleaned by Anna - 2024-05-01"],
                    {| st_world := tt;
                       st_log := [ReservationPage false the_day 100 1;
                                  TaskWindowPage (Some 7%Z) "2024-05-03"
                                    the_day 1;
                                  TaskDetail (Some 31%Z)] |}))
    by (vm_compute; reflexivity).
  split; [exact Hrun|].
  apply checkin_window_starts_at_last_checkout in Hrun. exact Hrun.
Defined.

